(** * The image copy engine of [copy/copy.go], embedded in Rocq

    The development follows the source file top to bottom:

    - [GoErrors]: the error values the code builds with [github.com/pkg/errors]
      and [fmt.Errorf], with [errors.Wrap] and [errors.Cause];
    - [DigestingReader]: the [digestingReader] type and its [Read] method,
      read by read, over an arbitrary [io.Reader] and [hash.Hash];
    - the data of package [types] that the copier handles ([BlobInfo],
      [ManifestUpdateOptions], the [types.Image], [ImageSource] and
      [ImageDestination] interfaces);
    - a state-and-error monad [M] over the copier's world (destination state,
      the [cachedDiffIDs] map and the log of calls made so far);
    - the copier itself: [copyBlobFromStream], [copyLayer], [copyLayers],
      [copyConfig], [copyUpdatedConfigAndManifest], [copyOneImage],
      [copyMultipleImages] and [Image];
    - the properties of the specification, one theorem each;
    - further properties read off the code: the digesting reader, the
      integrity of copied blobs, the cache of diffIDs, the order of the calls
      on the destination, [Commit] and [Close].

    Conventions.  A Go [error] that may be [nil] is an [option error]; a Go
    pair [(value, err)] is a [result]; a Go slice whose nil-ness the code
    observes is a [slice] (an optional list); [[]byte] is [list byte]; a
    [digest.Digest] is a [string]. *)

From Stdlib Require Import ZArith List String Ascii Bool Lia.
From Stdlib.Strings Require Import Byte.
From stdpp Require Import base option list strings gmap pretty.

Open Scope Z_scope.

(** The double-quote character, for the [%q] verbs of the format strings. *)
Definition dquote : string := String (Ascii.ascii_of_nat 34) EmptyString.

(** [%q] of a string: the text between double quotes (escapes are not modelled). *)
Definition quoted (s : string) : string := dquote +:+ s +:+ dquote.

(** ** Errors *)

Module GoErrors.

(** The error values the copier can see.  [WithMessage] is what [errors.Wrap]
    and [errors.Wrapf] build; [New] is what [errors.New], [errors.Errorf] and
    [fmt.Errorf] build; [ManifestTypeRejectedError] is the tagged error of
    package [types]; [EOF] is [io.EOF]. *)
Inductive error : Type :=
| EOF
| New (msg : string)
| WithMessage (cause : error) (msg : string)
| ManifestTypeRejectedError (err : error).

#[global] Instance error_eq_dec : EqDecision error.
Proof. solve_decision. Defined.

(** The [Error()] method. *)
Fixpoint Error (e : error) : string :=
  match e with
  | EOF => "EOF"
  | New msg => msg
  | WithMessage cause msg => msg +:+ ": " +:+ Error cause
  | ManifestTypeRejectedError err => Error err
  end.

(** [errors.Wrap(err, msg)] and [errors.Wrapf]: nil stays nil. *)
Definition Wrap (err : option error) (msg : string) : option error :=
  match err with
  | None => None
  | Some e => Some (WithMessage e msg)
  end.

(** [errors.Cause]: strips the layers added by [Wrap]. *)
Fixpoint Cause (e : error) : error :=
  match e with
  | WithMessage cause _ => Cause cause
  | _ => e
  end.

(** The type assertion [errors.Cause(err).(types.ManifestTypeRejectedError)]. *)
Definition isManifestRejected (e : error) : bool :=
  match Cause e with
  | ManifestTypeRejectedError _ => true
  | _ => false
  end.

(** A Go pair [(value, err)]. *)
Inductive result (A : Type) : Type :=
| OK (a : A)
| Err (e : error).
Arguments OK {A} a.
Arguments Err {A} e.

(** [errors.Wrapf] applied to the error of a pair. *)
Definition wrapResult {A} (r : result A) (msg : string) : result A :=
  match r with
  | OK a => OK a
  | Err e => Err (WithMessage e msg)
  end.

Definition isOK {A} (r : result A) : bool :=
  match r with OK _ => true | Err _ => false end.

End GoErrors.
Export GoErrors.

(** ** The digesting reader, read by read *)

Module DigestingReader.

(** An [io.Reader]: one [Read] on a buffer of [lenp] bytes returns the bytes
    it put in [p[:n]] and its error, and moves to a new state. *)
Class Reader : Type := {
  reader_state : Type;
  sourceRead : reader_state -> nat -> (list byte * option error) * reader_state
}.

(** A [digest.Digester]: [Hash().Write] returns [(n2, err)], [Digest()] reads
    the digest of what was written. *)
Class Digester : Type := {
  hash_state : Type;
  hashWrite : hash_state -> list byte -> (nat * option error) * hash_state;
  digesterDigest : hash_state -> string
}.

Section WithReader.
Context {R : Reader} {H : Digester}.

Record digestingReader : Type := {
  source : reader_state;
  digester : hash_state;
  expectedDigest : string;
  validationFailed : bool
}.

Definition is_EOF (err : option error) : bool :=
  match err with Some EOF => true | _ => false end.

(** [digestingReader.Read].  The result is [(p[:n], err)] and the reader
    after the call. *)
Definition Read (d : digestingReader) (lenp : nat)
  : (list byte * option error) * digestingReader :=
  let '((data, err), source') := sourceRead (source d) lenp in
  let n := length data in
  let '((n2, werr), digester') :=
    if (0 <? n)%nat then hashWrite (digester d) data
    else ((n, None), digester d) in
  let d' := {| source := source'; digester := digester';
               expectedDigest := expectedDigest d;
               validationFailed := validationFailed d |} in
  if (0 <? n)%nat && (negb (n2 =? n)%nat || bool_decide (werr <> None)) then
    (([], Wrap werr ("Error updating digest during verification: "
                      +:+ pretty n2 +:+ " vs. " +:+ pretty n)), d')
  else if is_EOF err then
    let actualDigest := digesterDigest digester' in
    if bool_decide (actualDigest <> expectedDigest d) then
      (([], Some (New ("Digest did not match, expected " +:+ expectedDigest d
                       +:+ ", got " +:+ actualDigest))),
       {| source := source'; digester := digester';
          expectedDigest := expectedDigest d;
          validationFailed := true |})
    else ((data, err), d')
  else ((data, err), d').

(** [k] further reads, whatever they return. *)
Fixpoint ReadMore (k : nat) (lenp : nat) (d : digestingReader) : digestingReader :=
  match k with
  | O => d
  | S k' => ReadMore k' lenp (snd (Read d lenp))
  end.

(** The digester took [data] as [hash.Hash] promises (all of it, no error)
    and is then in state [h']; nothing is written for an empty [data]. *)
Definition accepted (d : digestingReader) (data : list byte) (h' : hash_state) : Prop :=
  if (0 <? length data)%nat
  then hashWrite (digester d) data = ((length data, None), h')
  else h' = digester d.

End WithReader.

(** A reader that replays a list of [Read] results, then reports [io.EOF]. *)
Definition scriptedReader : Reader := {|
  reader_state := list (list byte * option error);
  sourceRead := fun s _ =>
    match s with
    | [] => (([], Some EOF), [])
    | r :: s' => (r, s')
    end
|}.

(** A digester that keeps what was written and names it by [digestOf]. *)
Definition keepingDigester (digestOf : list byte -> string) : Digester := {|
  hash_state := list byte;
  hashWrite := fun h data => ((length data, None), h ++ data);
  digesterDigest := digestOf
|}.

End DigestingReader.

(** ** The data of package [types] *)

(** A Go slice whose nil-ness the code observes ([!= nil], [reflect.DeepEqual]
    against a zero value): [None] is the nil slice. *)
Definition slice (A : Type) : Type := option (list A).

(** The elements a [range] loop or [len] sees. *)
Definition elems {A} (s : slice A) : list A := default [] s.

(** [types.BlobInfo]; [Size = -1] is an unknown size. *)
Record BlobInfo : Type := {
  Digest : string;
  Size : Z;
  URLs : slice string;
  MediaType : string
}.

#[global] Instance BlobInfo_eq_dec : EqDecision BlobInfo.
Proof. solve_decision. Defined.

(** The zero value [types.BlobInfo{}]. *)
Definition BlobInfo_zero : BlobInfo :=
  {| Digest := EmptyString; Size := 0; URLs := None; MediaType := EmptyString |}.

(** [types.ManifestUpdateInformation], without its [Destination] field, which
    is the copier's destination throughout. *)
Record ManifestUpdateInformation : Type := {
  InfoLayerInfos : slice BlobInfo;
  InfoLayerDiffIDs : slice string
}.

(** [types.ManifestUpdateOptions]. *)
Record ManifestUpdateOptions : Type := {
  LayerInfos : slice BlobInfo;
  EmbeddedDockerReference : option string;
  ManifestMIMEType : string;
  InformationOnly : ManifestUpdateInformation
}.

#[global] Instance ManifestUpdateInformation_eq_dec : EqDecision ManifestUpdateInformation.
Proof. solve_decision. Defined.

#[global] Instance ManifestUpdateOptions_eq_dec : EqDecision ManifestUpdateOptions.
Proof. solve_decision. Defined.

(** [types.ManifestUpdateOptions{InformationOnly: i}]. *)
Definition onlyInformation (i : ManifestUpdateInformation) : ManifestUpdateOptions :=
  {| LayerInfos := None; EmbeddedDockerReference := None;
     ManifestMIMEType := EmptyString; InformationOnly := i |}.

(** What a consumer of an [io.Reader] can get out of it: the bytes up to its
    end, and how it ends ([None] for a clean [io.EOF], or the read error). *)
Record Stream : Type := {
  content : list byte;
  ending : option error
}.

(** [bytes.NewReader(b)]. *)
Definition bytesReader (b : list byte) : Stream :=
  {| content := b; ending := None |}.

(** [compression.DecompressorFunc]. *)
Definition DecompressorFunc : Type := Stream -> result Stream.

(** [types.Image]: a parsed image ([Image] itself names the entry point of
    the package).  [UpdatedImage] returns an image again. *)
#[warnings="-register-all"]
Inductive TypesImage : Type := mkImage {
  imgManifest : result (list byte * string);
  imgSignatures : result (list (list byte));
  imgConfigInfo : BlobInfo;
  imgConfigBlob : result (list byte);
  imgOCIConfigOS : result string;
  imgLayerInfos : slice BlobInfo;
  imgLayerInfosForCopy : slice BlobInfo;
  imgEmbeddedDockerReferenceConflicts : string -> bool;
  imgUpdatedImageNeedsLayerDiffIDs : ManifestUpdateOptions -> bool;
  imgUpdatedImage : ManifestUpdateOptions -> result TypesImage
}.

(** [image.UnparsedImage]: the manifest as stored, and what
    [image.FromUnparsedImage] makes of it. *)
Record UnparsedImage : Type := {
  unparsedManifest : result (list byte * string);
  FromUnparsedImage : result TypesImage
}.

(** [types.ImageSource], as far as the copier reads it.  [instances] is
    [image.UnparsedInstance(rawSource, instanceDigest)]. *)
Record ImageSource : Type := {
  instances : option string -> UnparsedImage;
  GetBlob : BlobInfo -> result (Stream * Z);
  GetSignatures : option string -> result (list (list byte));
  SourceName : string;
  SourceClose : option error
}.

(** [types.ImageDestination] over the states [D] of one destination.  The
    calls that write return the state after the call.  [PutBlob] also tells
    whether it read its stream to the end. *)
Record ImageDestination (D : Type) : Type := {
  SupportedManifestMIMETypes : D -> list string;
  SupportsSignatures : D -> option error;
  ShouldCompressLayers : D -> bool;
  AcceptsForeignLayerURLs : D -> bool;
  MustMatchRuntimeOS : D -> bool;
  DockerReference : D -> option string;
  DestinationName : D -> string;
  TransportName : D -> string;
  HasBlob : D -> BlobInfo -> result (bool * Z);
  ReapplyBlob : D -> BlobInfo -> result BlobInfo * D;
  PutBlob : D -> Stream -> BlobInfo -> (result BlobInfo * bool) * D;
  PutManifest : D -> list byte -> option string -> option error * D;
  PutSignatures : D -> list (list byte) -> option string -> option error * D;
  Commit : D -> option error * D;
  DestinationClose : D -> option error
}.
Arguments SupportedManifestMIMETypes {D}.
Arguments SupportsSignatures {D}.
Arguments ShouldCompressLayers {D}.
Arguments AcceptsForeignLayerURLs {D}.
Arguments MustMatchRuntimeOS {D}.
Arguments DockerReference {D}.
Arguments DestinationName {D}.
Arguments TransportName {D}.
Arguments HasBlob {D}.
Arguments ReapplyBlob {D}.
Arguments PutBlob {D}.
Arguments PutManifest {D}.
Arguments PutSignatures {D}.
Arguments Commit {D}.
Arguments DestinationClose {D}.

(** [types.SystemContext], as far as the copier reads it. *)
Record SystemContext : Type := {
  OSChoice : string;
  ArchitectureChoice : string
}.

(** An instance of a manifest list, and [manifest.ListUpdate]. *)
Record ListUpdate : Type := {
  InstanceDigest : string;
  InstanceSize : Z;
  InstanceMediaType : string
}.

#[global] Instance ListUpdate_eq_dec : EqDecision ListUpdate.
Proof. solve_decision. Defined.

(** [manifest.List]: a parsed manifest list, as a value. *)
Record ManifestList : Type := {
  listMIMEType : string;
  listInstances : list ListUpdate
}.

(** The libraries the copier calls: go-digest, [pkg/compression], package
    [manifest], the signer, and [runtime.GOOS]. *)
Record Libraries : Type := {
  Validate : string -> option error;
  Algorithm : string -> string;
  Available : string -> bool;
  FromBytes : string -> list byte -> string;
  manifestDigest : list byte -> result string;
  DetectCompression : Stream -> result (option DecompressorFunc);
  gzipCompress : list byte -> list byte;
  GOOS : string;
  ListFromBlob : list byte -> string -> result ManifestList;
  ChooseInstance : ManifestList -> option SystemContext -> result string;
  UpdateInstances : ManifestList -> list ListUpdate -> result ManifestList;
  ToSchema2List : ManifestList -> result ManifestList;
  ToOCI1Index : ManifestList -> result ManifestList;
  Serialize : ManifestList -> result (list byte);
  createSignature : list byte -> string -> result (list byte)
}.

(** [signature.PolicyContext]: [IsRunningImageAllowed]. *)
Definition PolicyContext : Type := UnparsedImage -> bool * option error.

(** The media types of package [manifest] and of the OCI image specification. *)
Definition DockerV2Schema1MediaType : string :=
  "application/vnd.docker.distribution.manifest.v1+json".
Definition DockerV2Schema1SignedMediaType : string :=
  "application/vnd.docker.distribution.manifest.v1+prettyjws".
Definition DockerV2Schema2MediaType : string :=
  "application/vnd.docker.distribution.manifest.v2+json".
Definition DockerV2ListMediaType : string :=
  "application/vnd.docker.distribution.manifest.list.v2+json".
Definition MediaTypeImageManifest : string :=
  "application/vnd.oci.image.manifest.v1+json".
Definition MediaTypeImageIndex : string :=
  "application/vnd.oci.image.index.v1+json".

(** ** The copier's world and its monad *)

(** The calls the copier makes on its destination and source, and what it
    prints on its report writer, in the order they happen. *)
Inductive Event : Type :=
| EvPrintf (text : string)
| EvHasBlob (info : BlobInfo)
| EvReapplyBlob (info : BlobInfo)
| EvGetBlob (info : BlobInfo)
| EvPutBlob (stream : Stream) (inputInfo : BlobInfo)
| EvPutManifest (manifest : list byte) (instanceDigest : option string)
| EvPutSignatures (sigs : list (list byte)) (instanceDigest : option string)
| EvCommit
| EvCloseDestination
| EvCloseSource.

(** What changes while [Image] runs: the state of the destination, the
    [cachedDiffIDs] map of the [copier], and the log.  (The [copiedBlobs] map
    is created and never used.) *)
Record World (D : Type) : Type := {
  destState : D;
  cachedDiffIDs : gmap string string;
  log : list Event
}.
Arguments destState {D}.
Arguments cachedDiffIDs {D}.
Arguments log {D}.

(** [copier]: the handles that stay the same during a copy. *)
Record copier (D : Type) : Type := {
  dest : ImageDestination D;
  rawSource : ImageSource
}.
Arguments dest {D}.
Arguments rawSource {D}.

(** [imageCopier]. *)
Record imageCopier (D : Type) : Type := {
  c : copier D;
  manifestUpdates : ManifestUpdateOptions;
  src : TypesImage;
  diffIDsAreNeeded : bool;
  canModifyManifest : bool
}.
Arguments c {D}.
Arguments manifestUpdates {D}.
Arguments src {D}.
Arguments diffIDsAreNeeded {D}.
Arguments canModifyManifest {D}.

(** [diffIDResult]. *)
Record diffIDResult : Type := {
  digest : string;
  err : option error
}.

(** [Options]. *)
Record Options : Type := {
  RemoveSignatures : bool;
  SignBy : string;
  SourceCtx : option SystemContext;
  DestinationCtx : option SystemContext;
  ForceManifestMIMEType : string;
  MultipleImages : Z
}.

Definition CopyOnlyCurrentRuntimeImage : Z := 0.
Definition CopyAllImages : Z := 1.

Section Monad.
Context {D : Type}.

(** A computation returns a value or an error, and the world it leaves; what
    was done before an error stays done. *)
Definition M (A : Type) : Type := World D -> result A * World D.

Definition ret {A} (a : A) : M A := fun w => (OK a, w).

Definition fail {A} (e : error) : M A := fun w => (Err e, w).

Definition bind {A B} (m : M A) (k : A -> M B) : M B :=
  fun w =>
    match m w with
    | (OK a, w') => k a w'
    | (Err e, w') => (Err e, w')
    end.

(** A pure [(value, err)] pair, returned as it is. *)
Definition liftR {A} (r : result A) : M A := fun w => (r, w).

(** [if err != nil { return ..., err }] on a nil-able error. *)
Definition check (e : option error) : M unit :=
  match e with
  | None => ret tt
  | Some e => fail e
  end.

(** Runs [m] and hands its outcome, error included, to the continuation. *)
Definition try {A B} (m : M A) (k : result A -> M B) : M B :=
  fun w => let '(r, w') := m w in k r w'.

Definition emit (e : Event) : M unit :=
  fun w => (OK tt, {| destState := destState w;
                      cachedDiffIDs := cachedDiffIDs w;
                      log := log w ++ [e] |}).

Definition getDest : M D := fun w => (OK (destState w), w).

Definition putDest (d : D) : M unit :=
  fun w => (OK tt, {| destState := d;
                      cachedDiffIDs := cachedDiffIDs w;
                      log := log w |}).

Definition getCachedDiffIDs : M (gmap string string) :=
  fun w => (OK (cachedDiffIDs w), w).

Definition putCachedDiffIDs (m : gmap string string) : M unit :=
  fun w => (OK tt, {| destState := destState w;
                      cachedDiffIDs := m;
                      log := log w |}).

End Monad.

Declare Scope copier_scope.
Delimit Scope copier_scope with copier.
Notation "x <- m ;; k" := (bind m (fun x => k))
  (at level 100, m at next level, right associativity) : copier_scope.
Notation "m ;;; k" := (bind m (fun _ => k))
  (at level 100, right associativity) : copier_scope.
Open Scope copier_scope.

(** ** The blob pipeline *)

Module Pipeline.
Import DigestingReader.

(** A [Stream] as an [io.Reader]: a [Read] hands out at most [lenp] bytes of
    what is left; once nothing is left it reports how the stream ends, in a
    read of its own (an [io.Reader] may also return its last bytes together
    with [io.EOF]: [DigestingReader.scriptedReader] covers such readers). *)
Definition streamReader : Reader := {|
  reader_state := Stream;
  sourceRead := fun s lenp =>
    match content s with
    | [] => (([], Some (default EOF (ending s))), s)
    | _ :: _ => ((take lenp (content s), None),
                 {| content := drop lenp (content s); ending := ending s |})
    end
|}.

(** The digester of one algorithm of go-digest: it keeps what it is given and
    [Digest()] is the algorithm's digest of that. *)
Definition libDigester (FromBytes : string -> list byte -> string) : Digester := {|
  hash_state := string * list byte;
  hashWrite := fun h data => ((length data, None), (fst h, snd h ++ data));
  digesterDigest := fun h => FromBytes (fst h) (snd h)
|}.

(** [Read] again and again with buffers of [lenp] bytes, until a [Read]
    reports an error ([io.EOF] included) or the budget is used up; returns
    what was read, the error that ended it, and the reader at that point. *)
Fixpoint readAll {R : Reader} {H : Digester} (budget lenp : nat)
    (d : digestingReader) : (list byte * option error) * digestingReader :=
  match budget with
  | O => (([], None), d)
  | S budget' =>
    let '((data, e), d') := Read d lenp in
    match e with
    | Some _ => ((data, e), d')
    | None =>
      let '((rest, e'), d'') := readAll budget' lenp d' in
      ((data ++ rest, e'), d'')
    end
  end.

(** What was read, as a [Stream]: [io.EOF] is the clean end. *)
Definition asStream (r : list byte * option error) : Stream :=
  {| content := fst r;
     ending := match snd r with Some EOF => None | e => e end |}.

End Pipeline.

(** ** The copier *)

(** The line feed that ends the messages of [Printf]. *)
Definition nl : string := String (Ascii.ascii_of_nat 10) EmptyString.

Section Copier.
Context {D : Type} (lib : Libraries).
Import DigestingReader Pipeline.

#[local] Abbreviation M := (@M D).

#[local] Existing Instance streamReader.
#[local] Instance goDigester : Digester := libDigester (FromBytes lib).

(** [digest.Canonical]. *)
Definition Canonical : string := "sha256".

(** [newDigestingReader], over a [Stream]. *)
Definition newDigestingReader (source : Stream) (expectedDigest : string)
  : result digestingReader :=
  match Validate lib expectedDigest with
  | Some _ => Err (New ("Invalid digest specification " +:+ expectedDigest))
  | None =>
    let digestAlgorithm := Algorithm lib expectedDigest in
    if negb (Available lib digestAlgorithm) then
      Err (New ("Invalid digest specification " +:+ expectedDigest
                +:+ ": unsupported digest algorithm " +:+ digestAlgorithm))
    else
      OK {| source := source;
            digester := (digestAlgorithm, []);
            expectedDigest := expectedDigest;
            validationFailed := false |}
  end.

(** A consumer that reads [d] to its end: what it reads, and [d] afterwards.
    The buffer holds the whole content, so the second [Read] meets the end;
    [readAll_any_buffer] shows that any other non-empty buffer reads the same. *)
Definition readToEnd (d : digestingReader) : Stream * digestingReader :=
  let size := length (content (source d)) in
  let '(seen, d') := readAll (S size) (Nat.max 1 size) d in
  (asStream seen, d').

(** [c.Printf]. *)
Definition Printf (text : string) : M unit := emit (EvPrintf text).

(** A computation whose error is wrapped ([errors.Wrap] on the way out). *)
Definition wrapM {A} (m : M A) (msg : string) : M A :=
  fun w => let '(r, w') := m w in (wrapResult r msg, w').

(** The calls on the destination and on the source. *)
Definition destHasBlob (c : copier D) (info : BlobInfo) : M (bool * Z) :=
  emit (EvHasBlob info) ;;;
  d <- getDest ;;
  liftR (HasBlob (dest c) d info).

Definition destReapplyBlob (c : copier D) (info : BlobInfo) : M BlobInfo :=
  emit (EvReapplyBlob info) ;;;
  d <- getDest ;;
  let '(r, d') := ReapplyBlob (dest c) d info in
  putDest d' ;;;
  liftR r.

Definition destPutBlob (c : copier D) (stream : Stream) (inputInfo : BlobInfo)
  : M (result BlobInfo * bool) :=
  emit (EvPutBlob stream inputInfo) ;;;
  d <- getDest ;;
  let '(r, d') := PutBlob (dest c) d stream inputInfo in
  putDest d' ;;;
  ret r.

Definition destPutManifest (c : copier D) (manifest : list byte)
    (instanceDigest : option string) : M unit :=
  emit (EvPutManifest manifest instanceDigest) ;;;
  d <- getDest ;;
  let '(e, d') := PutManifest (dest c) d manifest instanceDigest in
  putDest d' ;;;
  check e.

Definition destPutSignatures (c : copier D) (sigs : list (list byte))
    (instanceDigest : option string) : M unit :=
  emit (EvPutSignatures sigs instanceDigest) ;;;
  d <- getDest ;;
  let '(e, d') := PutSignatures (dest c) d sigs instanceDigest in
  putDest d' ;;;
  check e.

Definition destCommit (c : copier D) : M unit :=
  emit EvCommit ;;;
  d <- getDest ;;
  let '(e, d') := Commit (dest c) d in
  putDest d' ;;;
  check e.

Definition sourceGetBlob (c : copier D) (info : BlobInfo) : M (Stream * Z) :=
  emit (EvGetBlob info) ;;;
  liftR (GetBlob (rawSource c) info).

(** What the reader end of the pipe of [compressGoroutine] yields: the
    compressed bytes, ending as the input ends. *)
Definition compressed (s : Stream) : Stream :=
  {| content := gzipCompress lib (content s); ending := ending s |}.

(** [copyBlobFromStream].  [getOriginalLayerCopyWriter], when given, returns
    the writer of the tee branch, here by what it makes of the bytes written
    to it before it is closed; that outcome is returned with the [BlobInfo].
    The writer takes every byte it is offered: a pipe whose reader was closed
    early (a diffID computation that failed) does not cut the stream that
    [PutBlob] reads here, the failure is in the outcome only.
    The progress bar and the progress channel do not change the stream. *)
Definition copyBlobFromStream {R : Type} (c : copier D) (srcStream : Stream)
    (srcInfo : BlobInfo)
    (getOriginalLayerCopyWriter : option (option DecompressorFunc -> Stream -> R))
    (canCompress : bool) : M (BlobInfo * option R) :=
  digestingReader <- liftR (wrapResult (newDigestingReader srcStream (Digest srcInfo))
                              ("Error preparing to verify blob " +:+ Digest srcInfo)) ;;
  let '(destStream, digestingReaderAtEnd) := readToEnd digestingReader in
  decompressor <- liftR (wrapResult (DetectCompression lib destStream)
                           ("Error reading blob " +:+ Digest srcInfo)) ;;
  let isCompressed := match decompressor with Some _ => true | None => false end in
  let originalLayerReader := destStream in
  d <- getDest ;;
  let '(destStream, inputInfo) :=
    if negb canCompress || isCompressed || negb (ShouldCompressLayers (dest c) d)
    then (destStream, srcInfo)
    else (compressed destStream,
          {| Digest := EmptyString; Size := -1; URLs := None; MediaType := EmptyString |}) in
  put <- destPutBlob c destStream inputInfo ;;
  let '(uploaded, readByPutBlob) := put in
  uploadedInfo <- liftR (wrapResult uploaded "Error writing blob") ;;
  recorded <- match getOriginalLayerCopyWriter with
              | Some writer =>
                match ending originalLayerReader with
                | Some e => fail (WithMessage e ("Error reading input blob " +:+ Digest srcInfo))
                | None => ret (Some (writer decompressor originalLayerReader))
                end
              | None => ret None
              end ;;
  let wasReadToEnd := readByPutBlob
                      || match getOriginalLayerCopyWriter with Some _ => true | None => false end in
  let digestingReader := if wasReadToEnd then digestingReaderAtEnd else digestingReader in
  if validationFailed digestingReader then
    fail (New ("Internal error writing blob " +:+ Digest srcInfo
               +:+ ", digest verification failed but was ignored"))
  else if bool_decide (Digest inputInfo <> EmptyString)
          && bool_decide (Digest uploadedInfo <> Digest inputInfo) then
    fail (New ("Internal error writing blob " +:+ Digest srcInfo
               +:+ ", blob with digest " +:+ Digest inputInfo
               +:+ " saved with digest " +:+ Digest uploadedInfo))
  else ret (uploadedInfo, recorded).

(** [digest.Canonical.FromReader]. *)
Definition FromReader (stream : Stream) : result string :=
  match ending stream with
  | Some e => Err e
  | None => OK (FromBytes lib Canonical (content stream))
  end.

(** [computeDiffID]. *)
Definition computeDiffID (stream : Stream) (decompressor : option DecompressorFunc)
  : result string :=
  match decompressor with
  | Some decompress =>
    match decompress stream with
    | Err e => Err e
    | OK s => FromReader s
    end
  | None => FromReader stream
  end.

(** [diffIDComputationGoroutine]: the value it sends on its channel. *)
Definition diffIDComputationGoroutine (layerStream : Stream)
    (decompressor : option DecompressorFunc) : diffIDResult :=
  match computeDiffID layerStream decompressor with
  | OK d => {| digest := d; err := None |}
  | Err e => {| digest := EmptyString; err := Some e |}
  end.

(** [copyLayerFromStream]; the second component is what [diffIDChan] will
    deliver, [None] for the nil channel. *)
Definition copyLayerFromStream (ic : imageCopier D) (srcStream : Stream)
    (srcInfo : BlobInfo) (diffIDIsNeeded : bool) : M (BlobInfo * option diffIDResult) :=
  let getDiffIDRecorder :=
    if diffIDIsNeeded
    then Some (fun decompressor layerStream =>
                 diffIDComputationGoroutine layerStream decompressor)
    else None in
  copyBlobFromStream (c ic) srcStream srcInfo getDiffIDRecorder (canModifyManifest ic).

(** [m[key]] on a Go map of strings: the empty string when absent. *)
Definition mapGet (m : gmap string string) (key : string) : string :=
  default EmptyString (m !! key).

(** [copyLayer]. *)
Definition copyLayer (ic : imageCopier D) (srcInfo : BlobInfo) : M (BlobInfo * string) :=
  have <- wrapM (destHasBlob (c ic) srcInfo)
            ("Error checking for blob " +:+ Digest srcInfo +:+ " at destination") ;;
  let '(haveBlob, extantBlobSize) := have in
  cached <- getCachedDiffIDs ;;
  let diffIDIsNeeded :=
    diffIDsAreNeeded ic && bool_decide (mapGet cached (Digest srcInfo) = EmptyString) in
  if haveBlob && negb diffIDIsNeeded then
    if bool_decide (Size srcInfo <> -1) && bool_decide (Size srcInfo <> extantBlobSize) then
      fail (New ("Error: blob " +:+ Digest srcInfo +:+ " is already present, but with size "
                 +:+ pretty extantBlobSize +:+ " instead of " +:+ pretty (Size srcInfo)))
    else
      let srcInfo := {| Digest := Digest srcInfo; Size := extantBlobSize;
                        URLs := URLs srcInfo; MediaType := MediaType srcInfo |} in
      blobinfo <- wrapM (destReapplyBlob (c ic) srcInfo)
                    ("Error reapplying blob " +:+ Digest srcInfo +:+ " at destination") ;;
      Printf ("Skipping fetch of repeat blob " +:+ Digest srcInfo +:+ nl) ;;;
      cached <- getCachedDiffIDs ;;
      ret (blobinfo, mapGet cached (Digest srcInfo))
  else
    Printf ("Copying blob " +:+ Digest srcInfo +:+ nl) ;;;
    got <- wrapM (sourceGetBlob (c ic) srcInfo) ("Error reading blob " +:+ Digest srcInfo) ;;
    let '(srcStream, srcBlobSize) := got in
    copied <- copyLayerFromStream ic srcStream
                {| Digest := Digest srcInfo; Size := srcBlobSize;
                   URLs := None; MediaType := EmptyString |}
                diffIDIsNeeded ;;
    let '(blobInfo, diffIDChan) := copied in
    match diffIDChan with
    | Some diffIDResult =>
      match err diffIDResult with
      | Some e => fail (WithMessage e "Error computing layer DiffID")
      | None =>
        cached <- getCachedDiffIDs ;;
        putCachedDiffIDs (<[Digest srcInfo := digest diffIDResult]> cached) ;;;
        ret (blobInfo, digest diffIDResult)
      end
    | None => ret (blobInfo, EmptyString)
    end.

(** [layerDigestsDiffer]. *)
Definition layerDigestsDiffer (a b : list BlobInfo) : bool :=
  if bool_decide (length a <> length b) then true
  else existsb (fun p => bool_decide (Digest (fst p) <> Digest (snd p))) (combine a b).

Definition setManifestUpdates (ic : imageCopier D) (mu : ManifestUpdateOptions)
  : imageCopier D :=
  {| c := c ic; manifestUpdates := mu; src := src ic;
     diffIDsAreNeeded := diffIDsAreNeeded ic;
     canModifyManifest := canModifyManifest ic |}.

Definition setDiffIDsAreNeeded (ic : imageCopier D) (b : bool) : imageCopier D :=
  {| c := c ic; manifestUpdates := manifestUpdates ic; src := src ic;
     diffIDsAreNeeded := b;
     canModifyManifest := canModifyManifest ic |}.

(** The [wantedOS] of [checkImageDestinationForCurrentRuntimeOS]:
    [runtime.GOOS], unless the context chooses an OS. *)
Definition wantedOS (ctx : option SystemContext) : string :=
  match ctx with
  | Some ctx => if bool_decide (OSChoice ctx <> EmptyString) then OSChoice ctx
                else GOOS lib
  | None => GOOS lib
  end.

(** [checkImageDestinationForCurrentRuntimeOS], at the destination state [d]. *)
Definition checkImageDestinationForCurrentRuntimeOS (ctx : option SystemContext)
    (src : TypesImage) (dest : ImageDestination D) (d : D) : option error :=
  if MustMatchRuntimeOS dest d then
    let wantedOS := wantedOS ctx in
    match imgOCIConfigOS src with
    | Err e => Some (WithMessage e "Error parsing image configuration")
    | OK os =>
      let osErr := New ("image operating system " +:+ quoted os
                        +:+ " cannot be used on " +:+ quoted wantedOS) in
      if bool_decide (wantedOS = "windows") && bool_decide (os = "linux") then Some osErr
      else if bool_decide (wantedOS <> "windows") && bool_decide (os = "windows")
           then Some osErr
           else None
    end
  else None.

(** [updateEmbeddedDockerReference]; returns the [imageCopier] with its
    [manifestUpdates] as the method leaves them. *)
Definition updateEmbeddedDockerReference (ic : imageCopier D) : M (imageCopier D) :=
  d <- getDest ;;
  match DockerReference (dest (c ic)) d with
  | None => ret ic
  | Some destRef =>
    if negb (imgEmbeddedDockerReferenceConflicts (src ic) destRef) then ret ic
    else if negb (canModifyManifest ic) then
      fail (New ("Copying a schema1 image with an embedded Docker reference to "
                 +:+ DestinationName (dest (c ic)) d +:+ " (Docker reference " +:+ destRef
                 +:+ ") would invalidate existing signatures. Explicitly enable signature removal to proceed anyway"))
    else
      let mu := manifestUpdates ic in
      ret (setManifestUpdates ic
             {| LayerInfos := LayerInfos mu;
                EmbeddedDockerReference := Some destRef;
                ManifestMIMEType := ManifestMIMEType mu;
                InformationOnly := InformationOnly mu |})
  end.

(** The body of the loop of [copyLayers], for one [srcLayer]. *)
Definition copyLayersBody (ic : imageCopier D) (srcLayer : BlobInfo)
  : M (BlobInfo * string) :=
  d <- getDest ;;
  if AcceptsForeignLayerURLs (dest (c ic)) d
     && negb (length (elems (URLs srcLayer)) =? 0)%nat then
    if diffIDsAreNeeded ic then
      fail (New "getting DiffID for foreign layers is unimplemented")
    else
      let destInfo := srcLayer in
      Printf ("Skipping foreign layer " +:+ quoted (Digest destInfo) +:+ " copy to "
              +:+ TransportName (dest (c ic)) d +:+ nl) ;;;
      ret (destInfo, EmptyString)
  else copyLayer ic srcLayer.

(** The loop of [copyLayers] over [srcInfos], appending to [destInfos] and
    [diffIDs]. *)
Fixpoint copyLayersLoop (ic : imageCopier D) (srcInfos : list BlobInfo)
    (destInfos : list BlobInfo) (diffIDs : list string)
  : M (list BlobInfo * list string) :=
  match srcInfos with
  | [] => ret (destInfos, diffIDs)
  | srcLayer :: rest =>
    copied <- copyLayersBody ic srcLayer ;;
    let '(destInfo, diffID) := copied in
    copyLayersLoop ic rest (destInfos ++ [destInfo]) (diffIDs ++ [diffID])
  end.

(** [copyLayers]; returns the [imageCopier] with its [manifestUpdates] as the
    method leaves them. *)
Definition copyLayers (ic : imageCopier D) : M (imageCopier D) :=
  let srcInfos := imgLayerInfos (src ic) in
  let updatedSrcInfos := imgLayerInfosForCopy (src ic) in
  chosen <- (if bool_decide (updatedSrcInfos <> None)
                && bool_decide (srcInfos <> updatedSrcInfos) then
               if negb (canModifyManifest ic) then
                 fail (New "Internal error: copyLayers() needs to use an updated manifest but that was known to be forbidden")
               else ret (updatedSrcInfos, true)
             else ret (srcInfos, false)) ;;
  let '(srcInfos, srcInfosUpdated) := chosen in
  copied <- copyLayersLoop ic (elems srcInfos) [] [] ;;
  let '(destInfos, diffIDs) := copied in
  let mu := manifestUpdates ic in
  ret (setManifestUpdates ic
         {| LayerInfos :=
              if srcInfosUpdated || layerDigestsDiffer (elems srcInfos) destInfos
              then Some destInfos else LayerInfos mu;
            EmbeddedDockerReference := EmbeddedDockerReference mu;
            ManifestMIMEType := ManifestMIMEType mu;
            InformationOnly :=
              {| InfoLayerInfos := Some destInfos;
                 InfoLayerDiffIDs :=
                   if diffIDsAreNeeded ic then Some diffIDs
                   else InfoLayerDiffIDs (InformationOnly mu) |} |}).

(** [copyConfig]. *)
Definition copyConfig (c : copier D) (src : TypesImage) : M unit :=
  let srcInfo := imgConfigInfo src in
  if bool_decide (Digest srcInfo <> EmptyString) then
    Printf ("Copying config " +:+ Digest srcInfo +:+ nl) ;;;
    configBlob <- liftR (wrapResult (imgConfigBlob src)
                           ("Error reading config blob " +:+ Digest srcInfo)) ;;
    copied <- copyBlobFromStream (R:=unit) c (bytesReader configBlob) srcInfo None false ;;
    let destInfo := fst copied in
    if bool_decide (Digest destInfo <> Digest srcInfo) then
      fail (New ("Internal error: copying uncompressed config blob " +:+ Digest srcInfo
                 +:+ " changed digest to " +:+ Digest destInfo))
    else ret tt
  else ret tt.

(** [copyUpdatedConfigAndManifest]. *)
Definition copyUpdatedConfigAndManifest (ic : imageCopier D)
    (instanceDigest : option string) : M (list byte) :=
  pendingImage <-
    (if bool_decide (manifestUpdates ic
                     <> onlyInformation (InformationOnly (manifestUpdates ic))) then
       if negb (canModifyManifest ic) then
         fail (New "Internal error: copy needs an updated manifest but that was known to be forbidden")
       else if negb (diffIDsAreNeeded ic)
               && imgUpdatedImageNeedsLayerDiffIDs (src ic) (manifestUpdates ic) then
         fail (New ("Can not convert image to " +:+ ManifestMIMEType (manifestUpdates ic)
                    +:+ ", preparing DiffIDs for this case is not supported"))
       else liftR (wrapResult (imgUpdatedImage (src ic) (manifestUpdates ic))
                     "Error creating an updated image manifest")
     else ret (src ic)) ;;
  read <- liftR (wrapResult (imgManifest pendingImage) "Error reading manifest") ;;
  let man := fst read in
  copyConfig (c ic) pendingImage ;;;
  Printf ("Writing manifest to image destination" +:+ nl) ;;;
  instanceDigest <- match instanceDigest with
                    | Some _ => tmpDigest <- liftR (manifestDigest lib man) ;;
                                ret (Some tmpDigest)
                    | None => ret None
                    end ;;
  wrapM (destPutManifest (c ic) man instanceDigest) "Error writing manifest" ;;;
  ret man.

(** [manifest.MIMETypeIsMultiImage].
    Modelled from the spec: package [manifest] is not part of the sources at
    hand; the specification names two multi-image families, the schema2
    manifest list and the OCI image index. *)
Definition MIMETypeIsMultiImage (mimeType : string) : bool :=
  bool_decide (mimeType = DockerV2ListMediaType)
  || bool_decide (mimeType = MediaTypeImageIndex).

(** [isMultiImage].
    Modelled from the spec: the function is not part of the sources at hand;
    the specification has it probe the MIME type of the manifest to decide
    between a single image and a list. *)
Definition isMultiImage (img : UnparsedImage) : result bool :=
  match unparsedManifest img with
  | Err e => Err e
  | OK (_, mt) => OK (MIMETypeIsMultiImage mt)
  end.

(** The ranked preference of the negotiation: schema2, then the OCI image
    manifest, then schema1. *)
Definition preferredManifestMIMETypes : list string :=
  [DockerV2Schema2MediaType; MediaTypeImageManifest;
   DockerV2Schema1SignedMediaType; DockerV2Schema1MediaType].

(** An ordered set of media types: [appendUnique seen l] appends the types
    of [l] that are not there yet, in their order. *)
Fixpoint appendUnique (seen l : list string) : list string :=
  match l with
  | [] => seen
  | t :: rest => appendUnique (if bool_decide (t ∈ seen) then seen else seen ++ [t]) rest
  end.

(** The types of [ranking] that [supported] has, in rank order, then the
    other types of [supported], each type once. *)
Definition prioritized (ranking supported : list string) : list string :=
  appendUnique [] (filter (fun t => t ∈ supported) ranking ++ supported).

(** [imageCopier.determineManifestConversion].
    Modelled from the spec: the method is not part of the sources at hand.
    The specification gives it the media type of the source, the types the
    destination supports (none meaning any) and the forced type.  A forced
    type is the preferred one and nothing else is tried; else a supported
    source type is preferred, without conversion; else the preferred type is
    the best ranked supported one.  The other supported types follow as
    fallbacks.  A preferred type other than that of the source is recorded in
    the updates. *)
Definition determineManifestConversion (ic : imageCopier D)
    (destSupportedManifestMIMETypes : list string) (forceManifestMIMEType : string)
  : result ((string * list string) * imageCopier D) :=
  match imgManifest (src ic) with
  | Err e => Err (WithMessage e "Error reading manifest")
  | OK (_, srcType) =>
    let supported :=
      if bool_decide (forceManifestMIMEType <> EmptyString)
      then [forceManifestMIMEType] else destSupportedManifestMIMETypes in
    match supported with
    | [] => OK ((srcType, []), ic)
    | _ :: _ =>
      let candidates :=
        appendUnique (if bool_decide (srcType ∈ supported) then [srcType] else [])
          (prioritized preferredManifestMIMETypes supported) in
      match candidates with
      | [] => Err (New "Internal error: no candidate MIME types")
      | preferredType :: others =>
        let mu := manifestUpdates ic in
        OK ((preferredType, others),
            if bool_decide (preferredType <> srcType) then
              setManifestUpdates ic
                {| LayerInfos := LayerInfos mu;
                   EmbeddedDockerReference := EmbeddedDockerReference mu;
                   ManifestMIMEType := preferredType;
                   InformationOnly := InformationOnly mu |}
            else ic)
      end
    end
  end.

(** [copier.determineListConversion].
    Modelled from the spec: the method is not part of the sources at hand;
    the specification has it mirror the negotiation of single images over the
    list media types, the schema2 manifest list and the OCI image index. *)
Definition determineListConversion (currentListMIMEType : string)
    (destSupportedMIMETypes : list string) (forcedListMIMEType : string)
  : result (string * list string) :=
  let supported :=
    if bool_decide (forcedListMIMEType <> EmptyString)
    then [forcedListMIMEType] else destSupportedMIMETypes in
  match supported with
  | [] => OK (currentListMIMEType, [])
  | _ :: _ =>
    let candidates :=
      appendUnique (if bool_decide (currentListMIMEType ∈ supported)
                    then [currentListMIMEType] else [])
        (filter (fun t => t ∈ supported)
           [DockerV2ListMediaType; MediaTypeImageIndex]) in
    match candidates with
    | [] => Err (New "Internal error: no candidate list MIME types")
    | selectedType :: others => OK (selectedType, others)
    end
  end.

(** [strings.Join]. *)
Fixpoint Join (elems : list string) (sep : string) : string :=
  match elems with
  | [] => EmptyString
  | [s] => s
  | s :: rest => s +:+ sep +:+ Join rest sep
  end.

Definition setManifestMIMEType (ic : imageCopier D) (t : string) : imageCopier D :=
  let mu := manifestUpdates ic in
  setManifestUpdates ic
    {| LayerInfos := LayerInfos mu;
       EmbeddedDockerReference := EmbeddedDockerReference mu;
       ManifestMIMEType := t;
       InformationOnly := InformationOnly mu |}.

(** The loop of [copyOneImage] over [otherManifestMIMETypeCandidates]: the
    stored manifest and its type, or [errs] when every candidate failed. *)
Fixpoint tryOtherCandidates (ic : imageCopier D) (targetInstance : option string)
    (candidates : list string) (errs : list string)
  : M ((list byte * string) + list string) :=
  match candidates with
  | [] => ret (inr errs)
  | manifestMIMEType :: rest =>
    let ic := setManifestMIMEType ic manifestMIMEType in
    try (copyUpdatedConfigAndManifest ic targetInstance) (fun attempt =>
      match attempt with
      | Err err =>
        tryOtherCandidates ic targetInstance rest
          (errs ++ [manifestMIMEType +:+ "(" +:+ Error err +:+ ")"])
      | OK attemptedManifest => ret (inl (attemptedManifest, manifestMIMEType))
      end)
  end.

(** The part of [copyOneImage] that stores config and manifest, with its
    retries: from the first [copyUpdatedConfigAndManifest] to the end of the
    [if err != nil] block.  Returns the stored manifest and its type. *)
Definition commitManifest (ic : imageCopier D) (targetInstance : option string)
    (preferredManifestMIMEType : string)
    (otherManifestMIMETypeCandidates : list string) : M (list byte * string) :=
  try (copyUpdatedConfigAndManifest ic targetInstance) (fun attempt =>
    match attempt with
    | OK manifest => ret (manifest, preferredManifestMIMEType)
    | Err err =>
      if negb (isManifestRejected err)
         || (length otherManifestMIMETypeCandidates =? 0)%nat then
        fail err
      else if negb (canModifyManifest ic) then
        fail (WithMessage err "Writing manifest failed (and converting it is not possible)")
      else
        tried <- tryOtherCandidates ic targetInstance otherManifestMIMETypeCandidates
                   [preferredManifestMIMEType +:+ "(" +:+ Error err +:+ ")"] ;;
        match tried with
        | inl stored => ret stored
        | inr errs =>
          fail (New ("Uploading manifest failed, attempted the following formats: "
                     +:+ Join errs ", "))
        end
    end).

(** Signing, as both [copyOneImage] and [copyMultipleImages] do it.
    [createSignature] is the signer of the specification. *)
Definition signIfAsked (options : Options) (manifest : list byte)
    (sigs : list (list byte)) : M (list (list byte)) :=
  if bool_decide (SignBy options <> EmptyString) then
    newSig <- liftR (createSignature lib manifest (SignBy options)) ;;
    ret (sigs ++ [newSig])
  else ret sigs.

(** The second half of [copyOneImage], from [ic.copyLayers()] to the end:
    the layers, the config and the manifest with its retries, the signatures. *)
Definition copyOneImageLayersAndManifest (c : copier D) (options : Options)
    (targetInstance : option string) (sigs : list (list byte)) (ic : imageCopier D)
    (preferredManifestMIMEType : string)
    (otherManifestMIMETypeCandidates : list string) : M (list byte * string) :=
  ic <- copyLayers ic ;;
  stored <- commitManifest ic targetInstance preferredManifestMIMEType
              otherManifestMIMETypeCandidates ;;
  let '(manifest, retManifestType) := stored in
  sigs <- signIfAsked options manifest sigs ;;
  Printf ("Storing signatures" +:+ nl) ;;;
  wrapM (destPutSignatures c sigs targetInstance) "Error writing signatures" ;;;
  ret (manifest, retManifestType).

(** [copyOneImage]: the checks, the signatures and the negotiation of the
    manifest type, then [copyOneImageLayersAndManifest]. *)
Definition copyOneImage (c : copier D) (policyContext : PolicyContext)
    (options : Options) (unparsedImage : UnparsedImage)
    (sourceInstance targetInstance : option string) : M (list byte * string) :=
  multiImage <- liftR (wrapResult (isMultiImage unparsedImage)
                         ("Error determining manifest MIME type for "
                          +:+ SourceName (rawSource c))) ;;
  if (multiImage : bool) then
    fail (New "Unexpectedly received a manifest list instead of a manifest for a single image")
  else
  let '(allowed, policyErr) := policyContext unparsedImage in
  if negb allowed || bool_decide (policyErr <> None) then
    match Wrap policyErr "Source image rejected" with
    | Some e => fail e
    | None => ret ([], EmptyString)
    end
  else
  src <- liftR (wrapResult (FromUnparsedImage unparsedImage)
                  ("Error initializing image from source " +:+ SourceName (rawSource c))) ;;
  d <- getDest ;;
  check (checkImageDestinationForCurrentRuntimeOS (DestinationCtx options) src (dest c) d) ;;;
  sigs <- (if RemoveSignatures options then ret []
           else Printf ("Getting image source signatures" +:+ nl) ;;;
                liftR (wrapResult (imgSignatures src) "Error reading signatures")) ;;
  (if negb (length sigs =? 0)%nat then
     Printf ("Checking if image destination supports signatures" +:+ nl) ;;;
     d <- getDest ;;
     check (Wrap (SupportsSignatures (dest c) d) "Can not copy signatures")
   else ret tt) ;;;
  let ic := {| c := c;
               manifestUpdates := onlyInformation
                                    {| InfoLayerInfos := None; InfoLayerDiffIDs := None |};
               src := src;
               diffIDsAreNeeded := false;
               canModifyManifest := (length sigs =? 0)%nat |} in
  ic <- updateEmbeddedDockerReference ic ;;
  d <- getDest ;;
  negotiated <- liftR (determineManifestConversion ic
                         (SupportedManifestMIMETypes (dest c) d)
                         (ForceManifestMIMEType options)) ;;
  let '((preferredManifestMIMEType, otherManifestMIMETypeCandidates), ic) := negotiated in
  let ic := setDiffIDsAreNeeded ic
              (imgUpdatedImageNeedsLayerDiffIDs src (manifestUpdates ic)) in
  copyOneImageLayersAndManifest c options targetInstance sigs ic
    preferredManifestMIMEType otherManifestMIMETypeCandidates.

(** [supportsMultipleImages], at the destination state [d]. *)
Definition supportsMultipleImages (dest : ImageDestination D) (d : D) : bool :=
  let mtypes := SupportedManifestMIMETypes dest d in
  if (length mtypes =? 0)%nat then true
  else existsb MIMETypeIsMultiImage mtypes.

(** The loop of [copyMultipleImages] over the instances of the list: the
    [updates], in the order of the instances. *)
Fixpoint copyInstances (c : copier D) (policyContext : PolicyContext)
    (options : Options) (instanceBlobs : list ListUpdate) : M (list ListUpdate) :=
  match instanceBlobs with
  | [] => ret []
  | instance :: rest =>
    let unparsedInstance := instances (rawSource c) (Some (InstanceDigest instance)) in
    copied <- copyOneImage c policyContext options unparsedInstance
                (Some (InstanceDigest instance)) (Some (InstanceDigest instance)) ;;
    let '(updatedManifest, updatedManifestType) := copied in
    md <- liftR (manifestDigest lib updatedManifest) ;;
    let update := {| InstanceDigest := md;
                     InstanceSize := Z.of_nat (length updatedManifest);
                     InstanceMediaType := updatedManifestType |} in
    updates <- copyInstances c policyContext options rest ;;
    ret (update :: updates)
  end.

(** [copyMultipleImages]. *)
Definition copyMultipleImages (c : copier D) (policyContext : PolicyContext)
    (options : Options) (unparsedToplevel : UnparsedImage) : M unit :=
  read <- liftR (wrapResult (unparsedManifest unparsedToplevel)
                   "Error reading manifest list") ;;
  let '(manifestList, manifestType) := read in
  list <- liftR (wrapResult (ListFromBlob lib manifestList manifestType)
                   ("Error parsing manifest list "
                    +:+ quoted (string_of_list_byte manifestList))) ;;
  let originalList := list in
  sigs <- (if RemoveSignatures options then ret []
           else Printf ("Getting image list signatures" +:+ nl) ;;;
                liftR (wrapResult (GetSignatures (rawSource c) None)
                         "Error reading signatures")) ;;
  (if negb (length sigs =? 0)%nat then
     Printf ("Checking if image list destination supports signatures" +:+ nl) ;;;
     d <- getDest ;;
     check (Wrap (SupportsSignatures (dest c) d) "Can not copy signatures")
   else ret tt) ;;;
  let instanceBlobs := listInstances list in
  updates <- copyInstances c policyContext options instanceBlobs ;;
  list <- liftR (wrapResult (UpdateInstances lib list updates)
                   "Error updating manifest list") ;;
  let listIsModified :=
    bool_decide (listInstances list <> listInstances originalList) in
  d <- getDest ;;
  selected <- liftR (wrapResult
                       (determineListConversion manifestType
                          (SupportedManifestMIMETypes (dest c) d) EmptyString)
                       "Error determining manifest list type to write to destination") ;;
  let selectedType := fst selected in
  converted <-
    (if bool_decide (selectedType <> listMIMEType list) then
       if bool_decide (selectedType = DockerV2ListMediaType) then
         l <- liftR (wrapResult (ToSchema2List lib list)
                       "Error converting manifest list to a schema 2 list") ;;
         ret (l, true)
       else if bool_decide (selectedType = MediaTypeImageIndex) then
         l <- liftR (wrapResult (ToOCI1Index lib list)
                       "Error converting manifest list to an oci 1 index") ;;
         ret (l, true)
       else
         fail (New ("Error converting manifest list to unknown supported type "
                    +:+ quoted selectedType))
     else ret (list, listIsModified)) ;;
  let '(list, listIsModified) := converted in
  manifestList <-
    (if (listIsModified : bool) then
       let canModifyManifest := (length sigs =? 0)%nat in
       if negb canModifyManifest then
         fail (New "Internal error: copyMultipleImages() needs to use an updated manifest but that was known to be forbidden")
       else
         liftR (wrapResult (Serialize lib list)
                  ("Error encoding updated manifest list ("
                   +:+ quoted (listMIMEType list) +:+ ")"))
     else ret manifestList) ;;
  wrapM (destPutManifest c manifestList None)
    ("Error writing manifest list " +:+ quoted (string_of_list_byte manifestList)) ;;;
  sigs <- signIfAsked options manifestList sigs ;;
  Printf ("Storing list signatures" +:+ nl) ;;;
  wrapM (destPutSignatures c sigs None) "Error writing signatures".

(** What [Image] does once both handles are open: from the construction of
    the [copier] to the [return nil] after [Commit]. *)
Definition copyAndCommit (c : copier D) (policyContext : PolicyContext)
    (options : Options) : M unit :=
  let unparsedToplevel := instances (rawSource c) None in
  read <- liftR (wrapResult (unparsedManifest unparsedToplevel)
                   ("Error reading manifest for " +:+ SourceName (rawSource c))) ;;
  let '(mfest, manifestType) := read in
  multiImage <- liftR (wrapResult (isMultiImage unparsedToplevel)
                         ("Error determining manifest MIME type for "
                          +:+ SourceName (rawSource c))) ;;
  (if negb multiImage then
     copyOneImage c policyContext options unparsedToplevel None None ;;; ret tt
   else if bool_decide (MultipleImages options = CopyOnlyCurrentRuntimeImage) then
     manifestList <- liftR (wrapResult (ListFromBlob lib mfest manifestType)
                              ("Error parsing primary manifest as list for "
                               +:+ SourceName (rawSource c))) ;;
     instanceDigest <- liftR (wrapResult (ChooseInstance lib manifestList (SourceCtx options))
                                ("Error choosing an image from manifest list "
                                 +:+ SourceName (rawSource c))) ;;
     let unparsedInstance := instances (rawSource c) (Some instanceDigest) in
     copyOneImage c policyContext options unparsedInstance (Some instanceDigest) None ;;;
     ret tt
   else
     d <- getDest ;;
     if negb (supportsMultipleImages (dest c) d) then
       fail (New ("Error copying multiple images: destination reference "
                  +:+ quoted (DestinationName (dest c) d)
                  +:+ " does not support multiple images"))
     else copyMultipleImages c policyContext options unparsedToplevel) ;;;
  wrapM (destCommit c) "Error committing the finished image".

(** One deferred [Close] of [Image]: a close error is wrapped around [retErr]. *)
Definition deferredClose (closeErr : option error) (label : string)
    (retErr : option error) : option error :=
  match closeErr with
  | Some err => Wrap retErr (" (" +:+ label +:+ ": " +:+ Error err +:+ ")")
  | None => retErr
  end.

End Copier.

(** What [Image] does between the construction of the [copier] and the call
    of [Commit]: it reads the manifest of the source and copies one image,
    or all images of a list. *)
Definition copyImages {D : Type} (lib : Libraries) (c : copier D)
    (policyContext : PolicyContext) (options : Options) : M (D:=D) unit :=
  let unparsedToplevel := instances (rawSource c) None in
  read <- liftR (wrapResult (unparsedManifest unparsedToplevel)
                   ("Error reading manifest for " +:+ SourceName (rawSource c))) ;;
  let '(mfest, manifestType) := read in
  multiImage <- liftR (wrapResult (isMultiImage unparsedToplevel)
                         ("Error determining manifest MIME type for "
                          +:+ SourceName (rawSource c))) ;;
  if negb multiImage then
    copyOneImage lib c policyContext options unparsedToplevel None None ;;; ret tt
  else if bool_decide (MultipleImages options = CopyOnlyCurrentRuntimeImage) then
    manifestList <- liftR (wrapResult (ListFromBlob lib mfest manifestType)
                             ("Error parsing primary manifest as list for "
                              +:+ SourceName (rawSource c))) ;;
    instanceDigest <- liftR (wrapResult (ChooseInstance lib manifestList (SourceCtx options))
                               ("Error choosing an image from manifest list "
                                +:+ SourceName (rawSource c))) ;;
    let unparsedInstance := instances (rawSource c) (Some instanceDigest) in
    copyOneImage lib c policyContext options unparsedInstance (Some instanceDigest) None ;;;
    ret tt
  else
    d <- getDest ;;
    if negb (supportsMultipleImages (dest c) d) then
      fail (New ("Error copying multiple images: destination reference "
                 +:+ quoted (DestinationName (dest c) d)
                 +:+ " does not support multiple images"))
    else copyMultipleImages lib c policyContext options unparsedToplevel.

(** A [types.ImageReference] used as destination: [NewImageDestination] and
    the methods of what it opens; and one used as source. *)
Record DestinationReference (D : Type) : Type := {
  NewImageDestination : option SystemContext -> result D;
  destinationMethods : ImageDestination D;
  destinationImageName : string
}.
Arguments NewImageDestination {D}.
Arguments destinationMethods {D}.
Arguments destinationImageName {D}.

Record SourceReference : Type := {
  NewImageSource : option SystemContext -> result ImageSource;
  sourceImageName : string
}.

(** [&Options{}]. *)
Definition Options_zero : Options :=
  {| RemoveSignatures := false; SignBy := EmptyString; SourceCtx := None;
     DestinationCtx := None; ForceManifestMIMEType := EmptyString;
     MultipleImages := 0 |}.

Definition logged {D} (e : Event) (w : World D) : World D :=
  {| destState := destState w; cachedDiffIDs := cachedDiffIDs w;
     log := log w ++ [e] |}.

Definition resultError {A} (r : result A) : option error :=
  match r with OK _ => None | Err e => Some e end.

(** [Image]: the returned [retErr], and the world at the end when the
    destination was opened. *)
Definition Image {D : Type} (lib : Libraries) (policyContext : PolicyContext)
    (destRef : DestinationReference D) (srcRef : SourceReference)
    (options : option Options) : option error * option (World D) :=
  let options := default Options_zero options in
  if bool_decide (MultipleImages options <> CopyAllImages)
     && bool_decide (MultipleImages options <> CopyOnlyCurrentRuntimeImage) then
    (Some (New ("Invalid value for options.MultipleImages: "
                +:+ pretty (MultipleImages options))), None)
  else
    match NewImageDestination destRef (DestinationCtx options) with
    | Err err =>
      (Some (WithMessage err ("Error initializing destination "
                              +:+ destinationImageName destRef)), None)
    | OK d0 =>
      let dest := destinationMethods destRef in
      let w0 := {| destState := d0; cachedDiffIDs := ∅; log := [] |} in
      let '(retErr, w) :=
        match NewImageSource srcRef (SourceCtx options) with
        | Err err =>
          (Some (WithMessage err ("Error initializing source "
                                  +:+ sourceImageName srcRef)), w0)
        | OK rawSource =>
          let c := {| dest := dest; rawSource := rawSource |} in
          let '(r, w1) := copyAndCommit lib c policyContext options w0 in
          (deferredClose (SourceClose rawSource) "src" (resultError r),
           logged EvCloseSource w1)
        end in
      (deferredClose (DestinationClose dest (destState w)) "dest" retErr,
       Some (logged EvCloseDestination w))
    end.

(** ** What the log says *)

(** The manifests handed to [PutManifest], with their instance digests, in
    the order of the calls. *)
Fixpoint putManifests (evs : list Event) : list (list byte * option string) :=
  match evs with
  | [] => []
  | EvPutManifest m i :: rest => (m, i) :: putManifests rest
  | _ :: rest => putManifests rest
  end.

Definition isPutManifest (e : Event) : bool :=
  match e with EvPutManifest _ _ => true | _ => false end.

Definition isPutBlob (e : Event) : bool :=
  match e with EvPutBlob _ _ => true | _ => false end.

Definition isGetBlob (e : Event) : bool :=
  match e with EvGetBlob _ => true | _ => false end.

(** [m] only appends to the log, and only events that satisfy [P]. *)
Definition emitsOnly {D A} (P : Event -> Prop) (m : M (D:=D) A) : Prop :=
  forall w r w', m w = (r, w') ->
    exists evs, log w' = log w ++ evs /\ Forall P evs.

(** An error of the "Internal error" kind of the specification. *)
Definition isInternalError (e : error) : Prop :=
  exists rest, e = New ("Internal error" +:+ rest).

(** ** What a digested stream looks like *)

(** The error of [digestingReader.Read] on a digest mismatch. *)
Definition mismatchError (expected actual : string) : error :=
  New ("Digest did not match, expected " +:+ expected +:+ ", got " +:+ actual).

(** The stream ends with [io.EOF]. *)
Definition endsCleanly (s : Stream) : bool :=
  match ending s with
  | None | Some EOF => true
  | Some _ => false
  end.

(** The error that ends the reads of a digesting reader over [s] which has
    digested [acc] so far. *)
Definition digestedEnding (lib : Libraries) (alg expected : string)
    (acc : list byte) (s : Stream) : option error :=
  if endsCleanly s then
    if bool_decide (FromBytes lib alg (acc ++ content s) <> expected)
    then Some (mismatchError expected (FromBytes lib alg (acc ++ content s)))
    else Some EOF
  else ending s.

(** [s] as seen through a fresh digesting reader that expects [expected]. *)
Definition digested (lib : Libraries) (expected : string) (s : Stream) : Stream :=
  Pipeline.asStream
    (content s, digestedEnding lib (Algorithm lib expected) expected [] s).

(** The bytes of [s] end cleanly and do not have the digest [expected]. *)
Definition failsValidation (lib : Libraries) (expected : string) (s : Stream) : bool :=
  endsCleanly s
  && bool_decide (FromBytes lib (Algorithm lib expected) (content s) <> expected).

(** [expected] is a digest that [newDigestingReader] accepts. *)
Definition usableDigest (lib : Libraries) (expected : string) : Prop :=
  Validate lib expected = None /\ Available lib (Algorithm lib expected) = true.

(** The events of the layer phase and of the copy of a config: messages and
    calls about blobs. *)
Definition blobPhaseEvent (e : Event) : Prop :=
  match e with
  | EvPrintf _ | EvHasBlob _ | EvReapplyBlob _ | EvGetBlob _ | EvPutBlob _ _ => True
  | _ => False
  end.

(** ** A small registry, library and images to run the copier on *)

Module Demo.

Definition bytes (s : string) : list byte := list_byte_of_string s.

(** A digest function that is easy to read: the algorithm, a colon, and the
    text itself. *)
Definition demoFromBytes (alg : string) (b : list byte) : string :=
  alg +:+ ":" +:+ string_of_list_byte b.

(** Compression puts "gz:" in front; detection looks for it. *)
Definition demoGzip (b : list byte) : list byte := bytes "gz:" ++ b.

Definition demoGunzip : DecompressorFunc :=
  fun s => OK {| content := drop 3 (content s); ending := ending s |}.

Definition demoDetect (s : Stream) : result (option DecompressorFunc) :=
  if bool_decide (string_of_list_byte (take 3 (content s)) = "gz:")
  then OK (Some demoGunzip) else OK None.

Definition demoSerialize (l : ManifestList) : list byte :=
  bytes (listMIMEType l +:+ "|"
         +:+ Join (map InstanceDigest (listInstances l)) ","%string).

(** The instances of the one manifest list of this registry. *)
Definition demoInstances : list ListUpdate :=
  [ {| InstanceDigest := "sha256:amd64"; InstanceSize := 10;
       InstanceMediaType := MediaTypeImageManifest |} ].

Definition demoLib (goos : string) : Libraries := {|
  Validate := fun d => if bool_decide (d = EmptyString)
                       then Some (New "invalid checksum digest format") else None;
  Algorithm := fun _ => "sha256";
  Available := fun alg => bool_decide (alg = "sha256");
  FromBytes := demoFromBytes;
  manifestDigest := fun m => OK (demoFromBytes "sha256" m);
  DetectCompression := demoDetect;
  gzipCompress := demoGzip;
  GOOS := goos;
  ListFromBlob := fun _ t => OK {| listMIMEType := t; listInstances := demoInstances |};
  ChooseInstance := fun l _ =>
    match listInstances l with
    | i :: _ => OK (InstanceDigest i)
    | [] => Err (New "no image found in manifest list")
    end;
  UpdateInstances := fun l updates =>
    OK {| listMIMEType := listMIMEType l; listInstances := updates |};
  ToSchema2List := fun l =>
    OK {| listMIMEType := DockerV2ListMediaType; listInstances := listInstances l |};
  ToOCI1Index := fun l =>
    OK {| listMIMEType := MediaTypeImageIndex; listInstances := listInstances l |};
  Serialize := fun l => OK (demoSerialize l);
  createSignature := fun _ key => OK (bytes ("signed by " +:+ key))
|}.

(** The state of the registry: the digests of the blobs and the manifests it
    holds. *)
Record Registry : Type := {
  blobs : list (string * Z);
  manifests : list (list byte)
}.

Definition emptyRegistry : Registry := {| blobs := []; manifests := [] |}.

(** What distinguishes one registry from another. *)
Record Settings : Type := {
  supported : list string;
  compressLayers : bool;
  acceptsForeign : bool;
  matchOS : bool;
  dockerReference : option string;
  manifestVerdict : list byte -> option error;
  closeVerdict : option error
}.

Definition lookupBlob (r : Registry) (d : string) : option Z :=
  (fun found => snd (snd found)) <$> list_find (fun p => fst p = d) (blobs r).

(** The registry as an [ImageDestination].  [PutBlob] reads its stream to
    the end, gives up on a read error, and names the blob by the digest of
    what it read. *)
Definition registry (s : Settings) : ImageDestination Registry := {|
  SupportedManifestMIMETypes := fun _ => supported s;
  SupportsSignatures := fun _ => None;
  ShouldCompressLayers := fun _ => compressLayers s;
  AcceptsForeignLayerURLs := fun _ => acceptsForeign s;
  MustMatchRuntimeOS := fun _ => matchOS s;
  DockerReference := fun _ => dockerReference s;
  DestinationName := fun _ => "docker://registry.example/demo";
  TransportName := fun _ => "docker";
  HasBlob := fun r info =>
    match lookupBlob r (Digest info) with
    | Some size => OK (true, size)
    | None => OK (false, -1)
    end;
  ReapplyBlob := fun r info => (OK info, r);
  PutBlob := fun r stream info =>
    match ending stream with
    | Some e => ((Err e, true), r)
    | None =>
      let stored := {| Digest := demoFromBytes "sha256" (content stream);
                       Size := Z.of_nat (length (content stream));
                       URLs := None; MediaType := EmptyString |} in
      ((OK stored, true),
       {| blobs := blobs r ++ [(Digest stored, Size stored)];
          manifests := manifests r |})
    end;
  PutManifest := fun r m _ =>
    match manifestVerdict s m with
    | Some e => (Some e, r)
    | None => (None, {| blobs := blobs r; manifests := manifests r ++ [m] |})
    end;
  PutSignatures := fun r _ _ => (None, r);
  Commit := fun r => (None, r);
  DestinationClose := fun _ => closeVerdict s
|}.

Definition plainSettings : Settings := {|
  supported := [MediaTypeImageManifest; DockerV2Schema2MediaType];
  compressLayers := false;
  acceptsForeign := false;
  matchOS := false;
  dockerReference := None;
  manifestVerdict := fun _ => None;
  closeVerdict := None
|}.

(** The text of a manifest of type [mime] over [layers]. *)
Definition manifestText (mime : string) (layers : list BlobInfo) : list byte :=
  bytes (mime +:+ "|" +:+ Join (map Digest layers) ","%string).

(** An image of type [mime] with the given layers, signatures and OS, and no
    config.  Its updated images take the type and the layers of the updates;
    they are not updated again. *)
Definition image (mime : string) (layers : list BlobInfo)
    (sigs : list (list byte)) (os : string) : TypesImage :=
  let updated (mu : ManifestUpdateOptions) : TypesImage :=
    let mime' := if bool_decide (ManifestMIMEType mu <> EmptyString)
                 then ManifestMIMEType mu else mime in
    let layers' := match LayerInfos mu with Some l => l | None => layers end in
    mkImage (OK (manifestText mime' layers', mime')) (OK sigs) BlobInfo_zero
      (Err (New "no config")) (OK os) (Some layers') None (fun _ => false)
      (fun _ => false) (fun _ => Err (New "already updated")) in
  mkImage (OK (manifestText mime layers, mime)) (OK sigs) BlobInfo_zero
    (Err (New "no config")) (OK os) (Some layers) None (fun _ => false)
    (fun _ => false) (fun mu => OK (updated mu)).

(** A layer of plain text, named by its digest. *)
Definition layerText : list byte := bytes "layer one".

Definition layer : BlobInfo :=
  {| Digest := demoFromBytes "sha256" layerText; Size := 9;
     URLs := None; MediaType := EmptyString |}.

Definition unparsed (img : TypesImage) : UnparsedImage :=
  {| unparsedManifest := imgManifest img; FromUnparsedImage := OK img |}.

(** A source with one image, whose layer blobs hold [layerText]. *)
Definition source (img : TypesImage) (closes : option error) : ImageSource := {|
  instances := fun _ => unparsed img;
  GetBlob := fun _ => OK (bytesReader layerText, 9);
  GetSignatures := fun _ => imgSignatures img;
  SourceName := "docker://source.example/demo";
  SourceClose := closes
|}.

Definition admitAll : PolicyContext := fun _ => (true, None).

Definition emptyWorld : World Registry :=
  {| destState := emptyRegistry; cachedDiffIDs := ∅; log := [] |}.

(** A world whose registry already holds the layer. *)
Definition worldWithLayer : World Registry :=
  {| destState := {| blobs := [(Digest layer, 9)]; manifests := [] |};
     cachedDiffIDs := ∅; log := [] |}.

(** An OCI image for linux with one layer and no signature, and the same
    image with one signature. *)
Definition plainImage : TypesImage := image MediaTypeImageManifest [layer] [] "linux".

Definition signedImage : TypesImage :=
  image MediaTypeImageManifest [layer] [bytes "signature"] "linux".

(** The image copier of [img] at the registry [s], as [copyOneImage] sets it
    up before the layers are copied. *)
Definition imageCopierOf (s : Settings) (img : TypesImage) (needDiffIDs canModify : bool)
  : imageCopier Registry :=
  {| c := {| dest := registry s; rawSource := source img None |};
     manifestUpdates := onlyInformation {| InfoLayerInfos := None; InfoLayerDiffIDs := None |};
     src := img;
     diffIDsAreNeeded := needDiffIDs;
     canModifyManifest := canModify |}.

(** A layer that lives elsewhere. *)
Definition foreignLayer : BlobInfo :=
  {| Digest := "sha256:foreign"; Size := 7;
     URLs := Some ["https://mirror.example/foreign"]; MediaType := EmptyString |}.

Definition foreignSettings : Settings := {|
  supported := supported plainSettings;
  compressLayers := false;
  acceptsForeign := true;
  matchOS := false;
  dockerReference := None;
  manifestVerdict := fun _ => None;
  closeVerdict := None
|}.

(** A registry that wants its layers compressed. *)
Definition compressingSettings : Settings := {|
  supported := supported plainSettings;
  compressLayers := true;
  acceptsForeign := false;
  matchOS := false;
  dockerReference := None;
  manifestVerdict := fun _ => None;
  closeVerdict := None
|}.

(** The layer as a compressing registry names it. *)
Definition compressedLayer : BlobInfo :=
  {| Digest := demoFromBytes "sha256" (demoGzip layerText); Size := 12;
     URLs := None; MediaType := EmptyString |}.

(** A registry that checks the OS of what it is given. *)
Definition matchingSettings : Settings := {|
  supported := supported plainSettings;
  compressLayers := false;
  acceptsForeign := false;
  matchOS := true;
  dockerReference := None;
  manifestVerdict := fun _ => None;
  closeVerdict := None
|}.

(** A registry whose [Close] fails. *)
Definition failingCloseSettings : Settings := {|
  supported := supported plainSettings;
  compressLayers := false;
  acceptsForeign := false;
  matchOS := false;
  dockerReference := None;
  manifestVerdict := fun _ => None;
  closeVerdict := Some (New "closing the destination failed")
|}.

(** A registry that rejects the type of OCI manifests, loses the connection
    on schema2 manifests, and takes anything else. *)
Definition sameText (m : list byte) (text : list byte) : bool :=
  bool_decide (string_of_list_byte m = string_of_list_byte text).

Definition pickySettings : Settings := {|
  supported := [MediaTypeImageManifest; DockerV2Schema2MediaType;
                DockerV2Schema1SignedMediaType];
  compressLayers := false;
  acceptsForeign := false;
  matchOS := false;
  dockerReference := None;
  manifestVerdict := fun m =>
    if sameText m (manifestText MediaTypeImageManifest [layer]) then
      Some (ManifestTypeRejectedError (New "manifest type not accepted"))
    else if sameText m (manifestText DockerV2Schema2MediaType [layer]) then
      Some (New "connection reset by peer")
    else None;
  closeVerdict := None
|}.

(** A registry that takes schema2 manifests only. *)
Definition schema2Settings : Settings := {|
  supported := [DockerV2Schema2MediaType];
  compressLayers := false;
  acceptsForeign := false;
  matchOS := false;
  dockerReference := None;
  manifestVerdict := fun _ => None;
  closeVerdict := None
|}.

(** A registry that takes OCI manifests, and schema2 lists as the only lists. *)
Definition schema2ListSettings : Settings := {|
  supported := [DockerV2ListMediaType; MediaTypeImageManifest];
  compressLayers := false;
  acceptsForeign := false;
  matchOS := false;
  dockerReference := None;
  manifestVerdict := fun _ => None;
  closeVerdict := None
|}.

(** A source whose top level is a signed OCI index of one unsigned image. *)
Definition indexText : list byte := bytes "index of one image".

Definition indexSource : ImageSource := {|
  instances := fun instance =>
    match instance with
    | None => {| unparsedManifest := OK (indexText, MediaTypeImageIndex);
                 FromUnparsedImage := Err (New "a list is not an image") |}
    | Some _ => unparsed plainImage
    end;
  GetBlob := fun _ => OK (bytesReader layerText, 9);
  GetSignatures := fun instance =>
    match instance with
    | None => OK [bytes "signature of the index"]
    | Some _ => OK []
    end;
  SourceName := "docker://source.example/index";
  SourceClose := None
|}.

(** An image with a config blob. *)
Definition configText : list byte := bytes "config".

Definition imageWithConfig : TypesImage :=
  mkImage (OK (manifestText MediaTypeImageManifest [layer], MediaTypeImageManifest))
    (OK [])
    {| Digest := demoFromBytes "sha256" configText; Size := 6;
       URLs := None; MediaType := EmptyString |}
    (OK configText) (OK "linux") (Some [layer]) None (fun _ => false)
    (fun _ => false) (fun _ => Err (New "not updated")).

Definition destinationReference (s : Settings) : DestinationReference Registry :=
  {| NewImageDestination := fun _ => OK emptyRegistry;
     destinationMethods := registry s;
     destinationImageName := "docker://registry.example/demo" |}.

Definition sourceReference (img : TypesImage) (closes : option error) : SourceReference :=
  {| NewImageSource := fun _ => OK (source img closes);
     sourceImageName := "docker://source.example/demo" |}.

(** A reader that has three bytes and then reports [io.EOF] with them, in
    front of a digester that expects something else. *)
Definition shortReader : DigestingReader.Reader := DigestingReader.scriptedReader.

Definition textDigester : DigestingReader.Digester :=
  DigestingReader.keepingDigester (demoFromBytes "sha256").

Definition mismatchedReader
  : @DigestingReader.digestingReader shortReader textDigester :=
  @DigestingReader.Build_digestingReader shortReader textDigester
    [(bytes "abc", Some EOF)] [] "sha256:xyz" false.

(** A reader whose bytes have the digest that is expected. *)
Definition matchedReader
  : @DigestingReader.digestingReader shortReader textDigester :=
  @DigestingReader.Build_digestingReader shortReader textDigester
    [(bytes "abc", Some EOF)] [] "sha256:abc" false.

(** A hash that takes one byte less than it is given and reports no error,
    and a reader in front of it. *)
Definition shortDigester : DigestingReader.Digester := {|
  DigestingReader.hash_state := list byte;
  DigestingReader.hashWrite := fun h data => ((Nat.pred (length data), None), h ++ data);
  DigestingReader.digesterDigest := demoFromBytes "sha256"
|}.

Definition shortWriteReader
  : @DigestingReader.digestingReader shortReader shortDigester :=
  @DigestingReader.Build_digestingReader shortReader shortDigester
    [(bytes "abc", None)] [] "sha256:abc" false.

(** A registry that takes OCI manifests and OCI indexes. *)
Definition indexSettings : Settings := {|
  supported := [MediaTypeImageIndex; MediaTypeImageManifest];
  compressLayers := false;
  acceptsForeign := false;
  matchOS := false;
  dockerReference := None;
  manifestVerdict := fun _ => None;
  closeVerdict := None
|}.

(** Options that remove the signatures of the source, and options that ask
    for a new signature. *)
Definition unsignedOptions : Options :=
  {| RemoveSignatures := true; SignBy := EmptyString; SourceCtx := None;
     DestinationCtx := None; ForceManifestMIMEType := EmptyString;
     MultipleImages := CopyAllImages |}.

Definition signingOptions : Options :=
  {| RemoveSignatures := false; SignBy := "alice"; SourceCtx := None;
     DestinationCtx := None; ForceManifestMIMEType := EmptyString;
     MultipleImages := CopyOnlyCurrentRuntimeImage |}.

(** A policy that says no, and gives no error. *)
Definition refuseQuietly : PolicyContext := fun _ => (false, None).

(** A registry with a Docker reference, and a schema1 image whose embedded
    reference is another one. *)
Definition namedSettings : Settings := {|
  supported := [DockerV2Schema1SignedMediaType];
  compressLayers := false;
  acceptsForeign := false;
  matchOS := false;
  dockerReference := Some "registry.example/demo:latest";
  manifestVerdict := fun _ => None;
  closeVerdict := None
|}.

Definition foreignNameImage : TypesImage :=
  mkImage (OK (manifestText DockerV2Schema1SignedMediaType [layer],
               DockerV2Schema1SignedMediaType))
    (OK []) BlobInfo_zero (Err (New "no config")) (OK "linux") (Some [layer]) None
    (fun destRef => negb (bool_decide (destRef = "source.example/demo:latest")))
    (fun _ => false) (fun _ => Err (New "not updated")).

(** A registry that holds layers like the plain one, and answers
    [ReapplyBlob] with a digest of its own. *)
Definition renamingRegistry : ImageDestination Registry :=
  let plain := registry plainSettings in
  {| SupportedManifestMIMETypes := SupportedManifestMIMETypes plain;
     SupportsSignatures := SupportsSignatures plain;
     ShouldCompressLayers := ShouldCompressLayers plain;
     AcceptsForeignLayerURLs := AcceptsForeignLayerURLs plain;
     MustMatchRuntimeOS := MustMatchRuntimeOS plain;
     DockerReference := DockerReference plain;
     DestinationName := DestinationName plain;
     TransportName := TransportName plain;
     HasBlob := HasBlob plain;
     ReapplyBlob := fun r info =>
       (OK {| Digest := "sha256:renamed"; Size := Size info;
              URLs := URLs info; MediaType := MediaType info |}, r);
     PutBlob := PutBlob plain;
     PutManifest := PutManifest plain;
     PutSignatures := PutSignatures plain;
     Commit := Commit plain;
     DestinationClose := DestinationClose plain |}.

End Demo.

(** ** The fallback attempts, as a chain of runs *)

(** How one attempt is reported in the combined error: [%s(%v)]. *)
Definition attemptReport (mimeType : string) (e : error) : string :=
  mimeType +:+ "(" +:+ Error e +:+ ")".

(** [fallbackAttempts lib ti ic candidates w es w' stored]: starting in the
    world [w], [copyUpdatedConfigAndManifest] is run for the candidates in
    order, each with its type recorded in the updates; the runs fail with the
    errors [es], of whatever kind, until one stores a manifest ([stored]) or
    the candidates are used up; [w'] is the world at the end. *)
Inductive fallbackAttempts {D : Type} (lib : Libraries) (ti : option string)
  : imageCopier D -> list string -> World D -> list error -> World D
    -> option (list byte * string) -> Prop :=
| attempts_used_up ic w :
    fallbackAttempts lib ti ic [] w [] w None
| attempts_failed ic t rest w e w1 es w2 stored :
    copyUpdatedConfigAndManifest lib (setManifestMIMEType ic t) ti w = (Err e, w1) ->
    fallbackAttempts lib ti (setManifestMIMEType ic t) rest w1 es w2 stored ->
    fallbackAttempts lib ti ic (t :: rest) w (e :: es) w2 stored
| attempts_stored ic t rest w m w1 :
    copyUpdatedConfigAndManifest lib (setManifestMIMEType ic t) ti w = (OK m, w1) ->
    fallbackAttempts lib ti ic (t :: rest) w [] w1 (Some (m, t)).

(** Whether [copyOneImage] goes on to the fallback candidates after the
    preferred type failed with [err]. *)
Definition retries {D : Type} (ic : imageCopier D) (others : list string)
    (err : error) : bool :=
  isManifestRejected err && negb (length others =? 0)%nat && canModifyManifest ic.

(** ** Signature safety *)

(** Every manifest handed to [PutManifest] satisfies [ok]. *)
Definition putsOnly (ok : list byte -> option string -> Prop) (e : Event) : Prop :=
  match e with
  | EvPutManifest m i => ok m i
  | _ => True
  end.

(** The manifest [m] is the manifest of [img], as the source has it. *)
Definition isManifestOf (img : TypesImage) (m : list byte) : Prop :=
  exists t, imgManifest img = OK (m, t).

(** The [imageCopier] that [copyOneImage] builds for [src]. *)
Definition newImageCopier {D : Type} (c : copier D) (src : TypesImage)
    (canModify : bool) : imageCopier D :=
  {| c := c;
     manifestUpdates := onlyInformation {| InfoLayerInfos := None; InfoLayerDiffIDs := None |};
     src := src;
     diffIDsAreNeeded := false;
     canModifyManifest := canModify |}.

(** A copy of [src] to the destination in state [d] has to rewrite the
    manifest for a reason that is known before anything is copied: the
    embedded Docker reference conflicts, the source substitutes layers, or
    the negotiation records another media type. *)
Definition rewriteRequired {D : Type} (c : copier D) (src : TypesImage)
    (options : Options) (d : D) : bool :=
  match DockerReference (dest c) d with
  | Some destRef => imgEmbeddedDockerReferenceConflicts src destRef
  | None => false
  end
  || (bool_decide (imgLayerInfosForCopy src <> None)
      && bool_decide (imgLayerInfos src <> imgLayerInfosForCopy src))
  || match determineManifestConversion (newImageCopier c src false)
             (SupportedManifestMIMETypes (dest c) d) (ForceManifestMIMEType options) with
     | OK (_, ic) => bool_decide (ManifestMIMEType (manifestUpdates ic) <> EmptyString)
     | Err _ => false
     end.

(** [ic'] copies the same image for the same copier as [ic], under the same
    permission to modify the manifest. *)
Definition sameImage {D : Type} (ic ic' : imageCopier D) : Prop :=
  src ic' = src ic /\ canModifyManifest ic' = canModifyManifest ic /\ c ic' = c ic.

Definition printfEvent (e : Event) : Prop :=
  match e with EvPrintf _ => True | _ => False end.

(** [copyOneImage] stopped before it copied anything: it failed, or the
    policy said no without an error (the source then returns no error
    either); it has printed at most. *)
Definition stoppedEarly {D : Type} (policyContext : PolicyContext) (u : UnparsedImage)
    (w : World D) (r : result (list byte * string)) (w' : World D) : Prop :=
  destState w' = destState w
  /\ (exists evs, log w' = log w ++ evs /\ Forall printfEvent evs)
  /\ (isOK r = false
      \/ (r = OK ([], EmptyString) /\ policyContext u = (false, None))).

(** The image copier with which [copyOneImage] starts on the layers of the
    signed image [src], when none of the rewrites of [rewriteRequired] is
    needed: nothing is recorded in the updates yet. *)
Definition signedCopier {D : Type} (c : copier D) (src : TypesImage) : imageCopier D :=
  setDiffIDsAreNeeded (newImageCopier c src false)
    (imgUpdatedImageNeedsLayerDiffIDs src (manifestUpdates (newImageCopier c src false))).

(** The world in which it starts on them: the two messages about the
    signatures were printed. *)
Definition afterSignatureChecks {D : Type} (w : World D) : World D :=
  logged (EvPrintf ("Checking if image destination supports signatures" +:+ nl))
    (logged (EvPrintf ("Getting image source signatures" +:+ nl)) w).

(** The layers of the signed image [src], copied from the world [w] on,
    come back from the destination under other digests: [copyLayers] has
    recorded them as an update of the manifest. *)
Definition layersRenamed {D : Type} (lib : Libraries) (c : copier D) (src : TypesImage)
    (w : World D) : bool :=
  match copyLayers lib (signedCopier c src) (afterSignatureChecks w) with
  | (OK ic, _) => bool_decide (LayerInfos (manifestUpdates ic) <> None)
  | (Err _, _) => false
  end.

(** The world in which [copyMultipleImages] starts on the instances of a
    signed list. *)
Definition afterListSignatureChecks {D : Type} (w : World D) : World D :=
  logged (EvPrintf ("Checking if image list destination supports signatures" +:+ nl))
    (logged (EvPrintf ("Getting image list signatures" +:+ nl)) w).

(** The copy of the signed list [listBytes], started in the world [w], has
    to change the list: the updates that the copies of its instances report
    change its instances, or the list type negotiated with the destination,
    as the copies of the instances left it, is not the type of the list. *)
Definition listChangeRequired {D : Type} (lib : Libraries) (c : copier D)
    (policyContext : PolicyContext) (options : Options)
    (listBytes : list byte) (listType : string) (w : World D) : bool :=
  match ListFromBlob lib listBytes listType with
  | Err _ => false
  | OK list =>
    match copyInstances lib c policyContext options (listInstances list)
            (afterListSignatureChecks w) with
    | (Err _, _) => false
    | (OK updates, w1) =>
      match UpdateInstances lib list updates with
      | Err _ => false
      | OK list' =>
        bool_decide (listInstances list' <> listInstances list)
        || match determineListConversion listType
                   (SupportedManifestMIMETypes (dest c) (destState w1)) EmptyString with
           | OK selected => bool_decide (fst selected <> listMIMEType list')
           | Err _ => false
           end
      end
    end
  end.

(** ** Copies that leave the manifest alone *)

(** The destination stores layers under the digests they come with: it does
    not ask for compression and [ReapplyBlob] answers with the digest it was
    given; and the digest library refuses the empty digest. *)
Definition storesLayersAsTheyAre {D : Type} (lib : Libraries)
    (dest : ImageDestination D) : Prop :=
  Validate lib EmptyString <> None
  /\ (forall d, ShouldCompressLayers dest d = false)
  /\ (forall d info blobinfo d',
        ReapplyBlob dest d info = (OK blobinfo, d') -> Digest blobinfo = Digest info).

(** No signature comes with the copy of [img]. *)
Definition carriesNoSignature (options : Options) (img : TypesImage) : Prop :=
  RemoveSignatures options = true \/ imgSignatures img = OK [].

(** [PutManifest] was not called. *)
Definition quietEvent (e : Event) : Prop := isPutManifest e = false.

(** ** The cache of diffIDs *)

(** [m] leaves the [cachedDiffIDs] map of the copier as it is. *)
Definition keepsCachedDiffIDs {D A} (m : M (D:=D) A) : Prop :=
  forall w r w', m w = (r, w') -> cachedDiffIDs w' = cachedDiffIDs w.

(** ** The phases of a copy *)

(** What happens before the signatures are stored: messages, and calls
    about blobs and manifests. *)
Definition beforeSignatures (e : Event) : Prop :=
  match e with
  | EvPutSignatures _ _ | EvCommit | EvCloseDestination | EvCloseSource => False
  | _ => True
  end.

(** What happens while images are copied: everything but [Commit] and the
    two [Close] calls. *)
Definition copyEvent (e : Event) : Prop :=
  match e with
  | EvCommit | EvCloseDestination | EvCloseSource => False
  | _ => True
  end.

Definition isPutSignatures (e : Event) : bool :=
  match e with EvPutSignatures _ _ => true | _ => false end.

(** What [copyOneImage] may do for the target instance [ti] ([None] for the
    image of the reference itself): it prints and handles blobs; a manifest
    goes with an instance digest exactly when an instance is copied; the
    signatures are stored for [ti]; nothing is committed or closed. *)
Definition eventFor (ti : option string) (e : Event) : Prop :=
  match e with
  | EvPutManifest _ i => ti = None <-> i = None
  | EvPutSignatures _ i => i = ti
  | EvCommit | EvCloseDestination | EvCloseSource => False
  | _ => True
  end.

(** What the copies of the instances of a list may do: as [eventFor], for
    some instance. *)
Definition instanceEvent (e : Event) : Prop :=
  match e with
  | EvPutManifest _ i | EvPutSignatures _ i => i <> None
  | EvCommit | EvCloseDestination | EvCloseSource => False
  | _ => True
  end.

(** Neither [Close] call. *)
Definition notClose (e : Event) : Prop :=
  e <> EvCloseSource /\ e <> EvCloseDestination.

(** * Properties *)

(** ** The digesting reader *)

Module DigestingReaderFacts.
Import DigestingReader.

Section WithReader.
Context {R : Reader} {H : Digester}.

Lemma Read_validationFailed_sticky (d : digestingReader) (lenp : nat) :
  validationFailed d = true -> validationFailed (snd (Read d lenp)) = true.
Proof.
  intros Hd. unfold Read.
  destruct (sourceRead (source d) lenp) as [[data e] s'].
  destruct (if (0 <? length data)%nat then hashWrite (digester d) data
            else (length data, None, digester d)) as [[n2 werr] h'].
  repeat (case_match; simpl; auto).
Qed.

Lemma ReadMore_validationFailed_sticky (k lenp : nat) (d : digestingReader) :
  validationFailed d = true -> validationFailed (ReadMore k lenp d) = true.
Proof.
  revert d. induction k as [|k IH]; intros d Hd; simpl; [exact Hd|].
  apply IH, Read_validationFailed_sticky, Hd.
Qed.

(** C2.  When the source reports end-of-input and the digest of what was read
    differs from the expected one, [Read] returns no bytes and the error
    "Digest did not match, expected E, got A", and sets [validationFailed],
    which stays set whatever is read afterwards. *)
Theorem Read_digest_mismatch_at_EOF (d : digestingReader) (lenp : nat)
    (data : list byte) (source' : reader_state) (h' : hash_state) :
  sourceRead (source d) lenp = ((data, Some EOF), source') ->
  accepted d data h' ->
  digesterDigest h' <> expectedDigest d ->
  exists d',
    Read d lenp
    = (([], Some (New ("Digest did not match, expected " +:+ expectedDigest d
                       +:+ ", got " +:+ digesterDigest h'))), d')
    /\ validationFailed d' = true
    /\ forall k lenp', validationFailed (ReadMore k lenp' d') = true.
Proof.
  intros Hsrc Hacc Hne. unfold Read, accepted in *. rewrite Hsrc.
  destruct (0 <? length data)%nat eqn:Hn.
  - rewrite Hacc. simpl. rewrite Nat.eqb_refl. simpl.
    rewrite bool_decide_eq_true_2 by exact Hne.
    eexists. split; [reflexivity|]. split; [reflexivity|].
    intros k lenp'. apply ReadMore_validationFailed_sticky. reflexivity.
  - subst h'. simpl.
    rewrite bool_decide_eq_true_2 by exact Hne.
    eexists. split; [reflexivity|]. split; [reflexivity|].
    intros k lenp'. apply ReadMore_validationFailed_sticky. reflexivity.
Qed.

End WithReader.
End DigestingReaderFacts.

(** ** Reasoning about computations in [M] *)

Section MonadFacts.
Context {D : Type}.
Implicit Types (w : World D) (P : Event -> Prop).
#[local] Abbreviation M := (@M D).

Lemma bind_run {A B} (m : M A) (k : A -> M B) w r w' :
  bind m k w = (r, w') ->
  (exists a w1, m w = (OK a, w1) /\ k a w1 = (r, w'))
  \/ (exists e, m w = (Err e, w') /\ r = Err e).
Proof.
  unfold bind. destruct (m w) as [[a|e] w1]; intros Hk.
  - left. eauto.
  - right. inversion Hk; subst. eauto.
Qed.

Lemma bind_OK {A B} (m : M A) (k : A -> M B) w a w1 :
  m w = (OK a, w1) -> bind m k w = k a w1.
Proof. intros Hm. unfold bind. rewrite Hm. reflexivity. Qed.

Lemma bind_Err {A B} (m : M A) (k : A -> M B) w e w1 :
  m w = (Err e, w1) -> bind m k w = (Err e, w1).
Proof. intros Hm. unfold bind. rewrite Hm. reflexivity. Qed.

Lemma try_run {A B} (m : M A) (k : result A -> M B) w r1 w1 :
  m w = (r1, w1) -> try m k w = k r1 w1.
Proof. intros Hm. unfold try. rewrite Hm. reflexivity. Qed.

Lemma liftR_wrap_OK {A} (x : result A) msg w a w' :
  liftR (wrapResult x msg) w = (OK a, w') -> x = OK a.
Proof. destruct x; simpl; [by intros [= -> _] | discriminate]. Qed.

Lemma liftR_OK {A} (x : result A) w a w' :
  liftR x w = (OK a, w') -> x = OK a /\ w' = w.
Proof. by intros [= -> ->]. Qed.

Lemma wrapM_run {A} (m : M A) msg w r1 w1 :
  m w = (r1, w1) -> wrapM m msg w = (wrapResult r1 msg, w1).
Proof. intros Hm. unfold wrapM. rewrite Hm. reflexivity. Qed.

Lemma emitsOnly_weaken {A} P Q (m : M A) :
  (forall e, P e -> Q e) -> emitsOnly P m -> emitsOnly Q m.
Proof.
  intros HPQ Hm w r w' Hrun. destruct (Hm _ _ _ Hrun) as (evs & Hlog & Hevs).
  exists evs. split; [exact Hlog|]. eapply Forall_impl; eauto.
Qed.

Lemma emitsOnly_silent {A} P (m : M A) :
  (forall w, snd (m w) = w) -> emitsOnly P m.
Proof.
  intros Hm w r w' Hrun. specialize (Hm w). rewrite Hrun in Hm. simpl in Hm. subst w'.
  exists []. split; [by rewrite app_nil_r | constructor].
Qed.

Lemma emitsOnly_ret {A} P (a : A) : emitsOnly (D:=D) P (ret a).
Proof. apply emitsOnly_silent. reflexivity. Qed.

Lemma emitsOnly_fail {A} P e : emitsOnly (D:=D) (A:=A) P (fail e).
Proof. apply emitsOnly_silent. reflexivity. Qed.

Lemma emitsOnly_liftR {A} P (r : result A) : emitsOnly (D:=D) P (liftR r).
Proof. apply emitsOnly_silent. reflexivity. Qed.

Lemma emitsOnly_check P e : emitsOnly (D:=D) P (check e).
Proof. apply emitsOnly_silent. destruct e; reflexivity. Qed.

Lemma emitsOnly_getDest P : emitsOnly (D:=D) P getDest.
Proof. apply emitsOnly_silent. reflexivity. Qed.

Lemma emitsOnly_getCachedDiffIDs P : emitsOnly (D:=D) P getCachedDiffIDs.
Proof. apply emitsOnly_silent. reflexivity. Qed.

Lemma emitsOnly_putDest P d : emitsOnly (D:=D) P (putDest d).
Proof.
  intros w r w' Hrun. inversion Hrun; subst. exists []. simpl.
  split; [by rewrite app_nil_r | constructor].
Qed.

Lemma emitsOnly_putCachedDiffIDs P m : emitsOnly (D:=D) P (putCachedDiffIDs m).
Proof.
  intros w r w' Hrun. inversion Hrun; subst. exists []. simpl.
  split; [by rewrite app_nil_r | constructor].
Qed.

Lemma emitsOnly_emit P e : P e -> emitsOnly (D:=D) P (emit e).
Proof.
  intros He w r w' Hrun. inversion Hrun; subst. exists [e]. simpl.
  split; [reflexivity | by constructor].
Qed.

Lemma emitsOnly_bind {A B} P (m : M A) (k : A -> M B) :
  emitsOnly P m -> (forall a, emitsOnly P (k a)) -> emitsOnly P (bind m k).
Proof.
  intros Hm Hk w r w' Hrun.
  destruct (bind_run _ _ _ _ _ Hrun) as [(a & w1 & H1 & H2)|(e & H1 & ->)].
  - destruct (Hm _ _ _ H1) as (evs1 & Hl1 & Hf1).
    destruct (Hk a _ _ _ H2) as (evs2 & Hl2 & Hf2).
    exists (evs1 ++ evs2). split.
    + rewrite Hl2, Hl1. by rewrite app_assoc.
    + by apply Forall_app.
  - exact (Hm _ _ _ H1).
Qed.

(** The same, with something known about the value that [m] returns. *)
Lemma emitsOnly_bind_post {A B} P (Q : A -> Prop) (m : M A) (k : A -> M B) :
  (forall w a w', m w = (OK a, w') -> Q a) ->
  emitsOnly P m -> (forall a, Q a -> emitsOnly P (k a)) -> emitsOnly P (bind m k).
Proof.
  intros HQ Hm Hk w r w' Hrun.
  destruct (bind_run _ _ _ _ _ Hrun) as [(a & w1 & H1 & H2)|(e & H1 & ->)].
  - destruct (Hm _ _ _ H1) as (evs1 & Hl1 & Hf1).
    destruct (Hk a (HQ _ _ _ H1) _ _ _ H2) as (evs2 & Hl2 & Hf2).
    exists (evs1 ++ evs2). split.
    + rewrite Hl2, Hl1. by rewrite app_assoc.
    + by apply Forall_app.
  - exact (Hm _ _ _ H1).
Qed.

Lemma emitsOnly_try {A B} P (m : M A) (k : result A -> M B) :
  emitsOnly P m -> (forall r, emitsOnly P (k r)) -> emitsOnly P (try m k).
Proof.
  intros Hm Hk w r w' Hrun. unfold try in Hrun.
  destruct (m w) as [r1 w1] eqn:H1.
  destruct (Hm _ _ _ H1) as (evs1 & Hl1 & Hf1).
  destruct (Hk r1 _ _ _ Hrun) as (evs2 & Hl2 & Hf2).
  exists (evs1 ++ evs2). split.
  - rewrite Hl2, Hl1. by rewrite app_assoc.
  - by apply Forall_app.
Qed.

Lemma emitsOnly_wrapM {A} P (m : M A) msg :
  emitsOnly P m -> emitsOnly P (wrapM m msg).
Proof.
  intros Hm w r w' Hrun. unfold wrapM in Hrun.
  destruct (m w) as [r1 w1] eqn:H1. inversion Hrun; subst.
  exact (Hm _ _ _ H1).
Qed.

End MonadFacts.

Create HintDb emits.

(** Breaks a goal [emitsOnly P m] down along the structure of [m]; the
    lemmas of the [emits] database are tried first. *)
Ltac emits_step :=
  first
    [ solve [auto 2 with emits nocore]
    | apply emitsOnly_ret | apply emitsOnly_fail | apply emitsOnly_liftR
    | apply emitsOnly_check | apply emitsOnly_getDest
    | apply emitsOnly_getCachedDiffIDs | apply emitsOnly_putDest
    | apply emitsOnly_putCachedDiffIDs
    | apply emitsOnly_wrapM
    | apply emitsOnly_bind; [|intros ?]
    | apply emitsOnly_try; [|intros ?]
    | apply emitsOnly_emit
    | match goal with
      | |- emitsOnly _ (match ?x with _ => _ end) => destruct x
      | |- emitsOnly _ (if ?b then _ else _) => destruct b
      | |- emitsOnly _ (let '(_, _) := ?x in _) => destruct x
      end ].

Ltac emits := repeat emits_step.

(** ** Reading a stream through the digesting reader *)

Section ReadAllFacts.
Context (lib : Libraries).
Import DigestingReader Pipeline.

#[local] Existing Instance streamReader.
#[local] Existing Instance goDigester.

(** With non-empty buffers and a budget above the length of the stream,
    [readAll] returns the whole content, ends as [digestedEnding] says, and
    has set [validationFailed] exactly on a mismatch at a clean end. *)
Lemma readAll_any_buffer (budget lenp : nat)
    (d : @digestingReader streamReader (goDigester lib)) :
  (1 <= lenp)%nat ->
  (length (content (source d)) < budget)%nat ->
  readAll budget lenp d
  = ((content (source d),
      digestedEnding lib (fst (digester d)) (expectedDigest d) (snd (digester d)) (source d)),
     @Build_digestingReader streamReader (goDigester lib)
       {| content := []; ending := ending (source d) |}
       (fst (digester d), snd (digester d) ++ content (source d))
       (expectedDigest d)
       (validationFailed d
        || (endsCleanly (source d)
            && bool_decide (FromBytes lib (fst (digester d))
                              (snd (digester d) ++ content (source d))
                            <> expectedDigest d)))).
Proof.
  intros Hlen. revert d. induction budget as [|budget IH]; intros d Hb; [lia|].
  destruct d as [[cont e] [alg acc] expected vf]. simpl in *.
  destruct cont as [|x cont].
  - unfold Read. simpl. rewrite app_nil_r.
    unfold digestedEnding, endsCleanly. simpl. rewrite app_nil_r.
    destruct e as [[| | |]|]; simpl;
      try (rewrite orb_false_r; reflexivity);
      destruct (bool_decide (FromBytes lib alg acc <> expected)); simpl;
      rewrite ?orb_true_r, ?orb_false_r; reflexivity.
  - destruct lenp as [|lenp]; [lia|].
    unfold Read. simpl.
    rewrite length_take.
    assert (Hmin : (lenp `min` length cont)%nat = length (take lenp cont)) by
      (by rewrite length_take).
    rewrite Nat.eqb_refl. simpl.
    change (length (x :: cont)) with (S (length cont)) in Hb.
    rewrite IH by (simpl; rewrite length_drop; lia).
    simpl. unfold digestedEnding, endsCleanly. simpl.
    rewrite <- !app_assoc. simpl. rewrite take_drop. reflexivity.
Qed.

(** What [readToEnd] returns for a fresh digesting reader. *)
Lemma readToEnd_fresh (s : Stream) (expected : string)
    (d : @digestingReader streamReader (goDigester lib)) :
  newDigestingReader lib s expected = OK d ->
  exists d', readToEnd lib d = (digested lib expected s, d')
             /\ validationFailed d' = failsValidation lib expected s
             /\ validationFailed d = false.
Proof.
  unfold newDigestingReader. destruct (Validate lib expected); [discriminate|].
  destruct (negb (Available lib (Algorithm lib expected))); [discriminate|].
  intros [= <-]. unfold readToEnd.
  rewrite readAll_any_buffer by (simpl; lia). simpl.
  eexists. split; [reflexivity|]. split; reflexivity.
Qed.

Lemma newDigestingReader_usable (s : Stream) (expected : string) :
  usableDigest lib expected ->
  exists d, newDigestingReader lib s expected = OK d.
Proof.
  intros [Hv Ha]. unfold newDigestingReader. rewrite Hv, Ha. simpl. eauto.
Qed.

Lemma newDigestingReader_OK (s : Stream) (expected : string) d :
  newDigestingReader lib s expected = OK d -> usableDigest lib expected.
Proof.
  unfold newDigestingReader, usableDigest.
  destruct (Validate lib expected); [discriminate|].
  destruct (Available lib (Algorithm lib expected)); [|discriminate]. auto.
Qed.

End ReadAllFacts.

(** ** The blob pipeline *)

Section BlobFacts.
Context {D : Type} (lib : Libraries).
Implicit Types (w : World D) (c : copier D).

(** [copyBlobFromStream], once the digest is usable and the compression
    detected: one [PutBlob], whose stream and [inputInfo] are the original
    ones unless the blob is compressed on the fly, and the checks that follow. *)
Lemma copyBlobFromStream_run {R : Type} c (srcStream : Stream) (srcInfo : BlobInfo)
    (writer : option (option DecompressorFunc -> Stream -> R)) (canCompress : bool)
    w dec uploaded readByPutBlob d' :
  usableDigest lib (Digest srcInfo) ->
  let seen := digested lib (Digest srcInfo) srcStream in
  DetectCompression lib seen = OK dec ->
  let unchanged :=
    negb canCompress || match dec with Some _ => true | None => false end
    || negb (ShouldCompressLayers (dest c) (destState w)) in
  let sent := if unchanged then seen else compressed lib seen in
  let inputInfo :=
    if unchanged then srcInfo
    else {| Digest := EmptyString; Size := -1; URLs := None; MediaType := EmptyString |} in
  PutBlob (dest c) (destState w) sent inputInfo = ((uploaded, readByPutBlob), d') ->
  copyBlobFromStream lib c srcStream srcInfo writer canCompress w
  = (match uploaded with
     | Err e => Err (WithMessage e "Error writing blob")
     | OK u =>
       match writer, ending seen with
       | Some _, Some e =>
         Err (WithMessage e ("Error reading input blob " +:+ Digest srcInfo))
       | _, _ =>
         if (readByPutBlob || match writer with Some _ => true | None => false end)
            && failsValidation lib (Digest srcInfo) srcStream then
           Err (New ("Internal error writing blob " +:+ Digest srcInfo
                     +:+ ", digest verification failed but was ignored"))
         else if bool_decide (Digest inputInfo <> EmptyString)
                 && bool_decide (Digest u <> Digest inputInfo) then
           Err (New ("Internal error writing blob " +:+ Digest srcInfo
                     +:+ ", blob with digest " +:+ Digest inputInfo
                     +:+ " saved with digest " +:+ Digest u))
         else OK (u, option_map (fun wr => wr dec seen) writer)
       end
     end,
     {| destState := d'; cachedDiffIDs := cachedDiffIDs w;
        log := log w ++ [EvPutBlob sent inputInfo] |}).
Proof.
  intros Huse seen Hdet unchanged sent inputInfo Hput.
  destruct (newDigestingReader_usable lib srcStream _ Huse) as [dr Hdr].
  destruct (readToEnd_fresh lib _ _ _ Hdr) as (dr' & Hread & Hvf' & Hvf).
  fold seen in Hread. clearbody seen.
  unfold copyBlobFromStream. rewrite Hdr. simpl.
  unfold bind at 1. simpl. rewrite Hread. rewrite Hdet. simpl.
  unfold bind at 1. simpl. unfold bind at 1. simpl.
  fold unchanged.
  assert (Hpair : (if unchanged then (seen, srcInfo)
                   else (compressed lib seen,
                         {| Digest := EmptyString; Size := -1; URLs := None;
                            MediaType := EmptyString |}))
                  = (sent, inputInfo)) by (subst sent inputInfo; destruct unchanged; reflexivity).
  rewrite Hpair.
  unfold destPutBlob, bind, emit, getDest, putDest, ret, liftR, fail. simpl.
  rewrite Hput. simpl.
  destruct uploaded as [u|e]; simpl; [|reflexivity].
  destruct writer as [wr|]; simpl.
  - destruct (ending seen) as [e|]; simpl; [reflexivity|].
    rewrite orb_true_r. rewrite Hvf'.
    destruct (failsValidation lib (Digest srcInfo) srcStream); simpl; [reflexivity|].
    destruct (bool_decide (Digest inputInfo <> EmptyString)
              && bool_decide (Digest u <> Digest inputInfo)); reflexivity.
  - rewrite orb_false_r.
    destruct readByPutBlob; simpl.
    + rewrite Hvf'.
      destruct (failsValidation lib (Digest srcInfo) srcStream); simpl.
      * destruct (ending seen); reflexivity.
      * destruct (bool_decide (Digest inputInfo <> EmptyString)
                  && bool_decide (Digest u <> Digest inputInfo));
          destruct (ending seen); reflexivity.
    + rewrite Hvf.
      destruct (bool_decide (Digest inputInfo <> EmptyString)
                && bool_decide (Digest u <> Digest inputInfo));
        destruct (ending seen); reflexivity.
Qed.

(** A blob that is copied without compression (none allowed, or none wanted
    by the destination) keeps its digest. *)
Lemma copyBlobFromStream_uncompressed_digest {R : Type} c (srcStream : Stream)
    (srcInfo : BlobInfo) (writer : option (option DecompressorFunc -> Stream -> R))
    (canCompress : bool) w u recorded w' :
  negb canCompress || negb (ShouldCompressLayers (dest c) (destState w)) = true ->
  copyBlobFromStream lib c srcStream srcInfo writer canCompress w = (OK (u, recorded), w') ->
  Digest srcInfo <> EmptyString ->
  Digest u = Digest srcInfo.
Proof.
  intros Hunch Hrun Hne.
  destruct (newDigestingReader lib srcStream (Digest srcInfo)) as [dr|e] eqn:Hdr.
  2:{ unfold copyBlobFromStream in Hrun. rewrite Hdr in Hrun. discriminate. }
  pose proof (newDigestingReader_OK lib _ _ _ Hdr) as Huse.
  destruct (DetectCompression lib (digested lib (Digest srcInfo) srcStream))
    as [dec|e] eqn:Hdet.
  2:{ destruct (readToEnd_fresh lib _ _ _ Hdr) as (dr' & Hread & _).
      unfold copyBlobFromStream in Hrun. rewrite Hdr in Hrun. simpl in Hrun.
      unfold bind at 1 in Hrun. simpl in Hrun. rewrite Hread, Hdet in Hrun.
      discriminate. }
  assert (Hunch' : negb canCompress
                   || match dec with Some _ => true | None => false end
                   || negb (ShouldCompressLayers (dest c) (destState w)) = true).
  { destruct (negb canCompress), dec, (negb (ShouldCompressLayers _ _));
      try reflexivity; discriminate. }
  destruct (PutBlob (dest c) (destState w) (digested lib (Digest srcInfo) srcStream)
              srcInfo) as [[up rb] d'] eqn:Hput.
  pose proof (copyBlobFromStream_run c srcStream srcInfo writer canCompress w dec up rb d'
                Huse Hdet) as Hrun'.
  cbv zeta in Hrun'. rewrite Hunch' in Hrun'. rewrite (Hrun' Hput) in Hrun. clear Hrun'.
  rewrite (bool_decide_eq_true_2 _ Hne) in Hrun. cbn [andb] in Hrun.
  destruct up as [u0|e]; [|discriminate].
  assert (Hok : (if bool_decide (Digest u0 <> Digest srcInfo)
                 then Err (New ("Internal error writing blob " +:+ Digest srcInfo
                                +:+ ", blob with digest " +:+ Digest srcInfo
                                +:+ " saved with digest " +:+ Digest u0))
                 else OK (u0, option_map (fun wr => wr dec (digested lib (Digest srcInfo)
                                                              srcStream)) writer))
                = OK (u, recorded)).
  { destruct writer, (ending (digested lib (Digest srcInfo) srcStream));
      cbv beta iota in Hrun; try discriminate;
      destruct ((rb || _) && failsValidation lib (Digest srcInfo) srcStream);
      cbv beta iota in Hrun; try discriminate;
      injection Hrun as Hr _; exact Hr. }
  destruct (bool_decide (Digest u0 <> Digest srcInfo)) eqn:Hd; [discriminate|].
  apply bool_decide_eq_false in Hd. injection Hok as -> _.
  destruct (decide (Digest u = Digest srcInfo)); tauto.
Qed.

(** Without the permission to compress, a blob that is copied keeps its
    digest. *)
Lemma copyBlobFromStream_OK_digest {R : Type} c (srcStream : Stream) (srcInfo : BlobInfo)
    (writer : option (option DecompressorFunc -> Stream -> R)) w u recorded w' :
  copyBlobFromStream lib c srcStream srcInfo writer false w = (OK (u, recorded), w') ->
  Digest srcInfo <> EmptyString ->
  Digest u = Digest srcInfo.
Proof. apply copyBlobFromStream_uncompressed_digest. reflexivity. Qed.

(** A blob without a digest is not copied when the library refuses the
    empty digest. *)
Lemma copyBlobFromStream_OK_nonempty {R : Type} c (srcStream : Stream) (srcInfo : BlobInfo)
    (writer : option (option DecompressorFunc -> Stream -> R)) canCompress w r w' :
  Validate lib EmptyString <> None ->
  copyBlobFromStream lib c srcStream srcInfo writer canCompress w = (OK r, w') ->
  Digest srcInfo <> EmptyString.
Proof.
  intros Hval Hrun Hempty.
  unfold copyBlobFromStream, newDigestingReader in Hrun. rewrite Hempty in Hrun.
  destruct (Validate lib EmptyString); [discriminate | congruence].
Qed.

Lemma copyBlobFromStream_emits {R : Type} c srcStream srcInfo
    (writer : option (option DecompressorFunc -> Stream -> R)) canCompress :
  emitsOnly blobPhaseEvent (copyBlobFromStream lib c srcStream srcInfo writer canCompress).
Proof.
  unfold copyBlobFromStream, destPutBlob. emits; exact I.
Qed.
#[local] Hint Resolve copyBlobFromStream_emits : emits.

Lemma copyLayerFromStream_emits (ic : imageCopier D) srcStream srcInfo needed :
  emitsOnly blobPhaseEvent (copyLayerFromStream lib ic srcStream srcInfo needed).
Proof. unfold copyLayerFromStream. emits. Qed.
#[local] Hint Resolve copyLayerFromStream_emits : emits.

Lemma copyLayer_emits (ic : imageCopier D) srcInfo :
  emitsOnly blobPhaseEvent (copyLayer lib ic srcInfo).
Proof.
  unfold copyLayer, destHasBlob, destReapplyBlob, sourceGetBlob, Printf.
  emits; exact I.
Qed.
#[local] Hint Resolve copyLayer_emits : emits.

Lemma copyLayersBody_emits (ic : imageCopier D) srcLayer :
  emitsOnly blobPhaseEvent (copyLayersBody lib ic srcLayer).
Proof.
  unfold copyLayersBody, Printf. emits; exact I.
Qed.

Lemma copyLayersLoop_emits (ic : imageCopier D) srcInfos destInfos diffIDs :
  emitsOnly blobPhaseEvent (copyLayersLoop lib ic srcInfos destInfos diffIDs).
Proof.
  revert destInfos diffIDs.
  induction srcInfos as [|srcLayer rest IH]; intros destInfos diffIDs; simpl.
  - apply emitsOnly_ret.
  - apply emitsOnly_bind; [apply copyLayersBody_emits|].
    intros [destInfo diffID]. apply IH.
Qed.

Lemma copyLayers_emits (ic : imageCopier D) :
  emitsOnly blobPhaseEvent (copyLayers lib ic).
Proof.
  unfold copyLayers.
  apply emitsOnly_bind; [emits|]. intros [srcInfos updated].
  apply emitsOnly_bind; [apply copyLayersLoop_emits|]. intros [destInfos diffIDs].
  apply emitsOnly_ret.
Qed.

Lemma copyConfig_emits c (src : TypesImage) :
  emitsOnly blobPhaseEvent (copyConfig lib c src).
Proof.
  unfold copyConfig, Printf. emits; exact I.
Qed.

End BlobFacts.

#[export] Hint Resolve copyBlobFromStream_emits copyLayerFromStream_emits
  copyLayer_emits copyLayersBody_emits copyLayersLoop_emits copyLayers_emits
  copyConfig_emits : emits.

(** ** The config blob *)

Section ConfigFacts.
Context {D : Type} (lib : Libraries).
Implicit Types (w : World D) (c : copier D).

Lemma isInternalError_writing_blob (rest : string) :
  isInternalError (New ("Internal error writing blob " +:+ rest)).
Proof. exists (" writing blob " +:+ rest). reflexivity. Qed.

(** C8.  A config with a non-empty digest goes through the blob pipeline
    without compression: whatever the destination would like for layers,
    [PutBlob] receives the bytes of the config as they are (seen through the
    digesting reader) with the [BlobInfo] of the source.  When the
    destination then reports another digest than that of the source, the
    copy fails with an internal error; when it reports the same digest and no
    failed verification was overlooked, the copy of the config succeeds. *)
Theorem copyConfig_uncompressed_digest_checked c (src : TypesImage) w
    (configBlob : list byte) dec (uploaded : BlobInfo) readByPutBlob d' :
  Digest (imgConfigInfo src) <> EmptyString ->
  imgConfigBlob src = OK configBlob ->
  usableDigest lib (Digest (imgConfigInfo src)) ->
  DetectCompression lib
    (digested lib (Digest (imgConfigInfo src)) (bytesReader configBlob)) = OK dec ->
  PutBlob (dest c) (destState w)
    (digested lib (Digest (imgConfigInfo src)) (bytesReader configBlob))
    (imgConfigInfo src)
  = ((OK uploaded, readByPutBlob), d') ->
  exists r,
    copyConfig lib c src w
    = (r, {| destState := d'; cachedDiffIDs := cachedDiffIDs w;
             log := log w
                    ++ [EvPrintf ("Copying config " +:+ Digest (imgConfigInfo src) +:+ nl);
                        EvPutBlob (digested lib (Digest (imgConfigInfo src))
                                     (bytesReader configBlob))
                          (imgConfigInfo src)] |})
    /\ content (digested lib (Digest (imgConfigInfo src)) (bytesReader configBlob))
       = configBlob
    /\ (if bool_decide (Digest uploaded <> Digest (imgConfigInfo src))
        then exists e, r = Err e /\ isInternalError e
        else if readByPutBlob
                && failsValidation lib (Digest (imgConfigInfo src)) (bytesReader configBlob)
             then exists e, r = Err e /\ isInternalError e
             else r = OK tt).
Proof.
  intros Hne Hblob Huse Hdet Hput.
  unfold copyConfig.
  rewrite bool_decide_eq_true_2 by exact Hne.
  unfold Printf, bind at 1, emit. rewrite Hblob. simpl.
  unfold bind at 1. simpl. unfold bind at 1.
  erewrite (copyBlobFromStream_run lib (R:=unit)); [| exact Huse | exact Hdet | simpl; exact Hput].
  simpl. rewrite <- app_assoc. simpl.
  rewrite (bool_decide_eq_true_2 _ Hne). simpl.
  rewrite orb_false_r.
  set (fv := failsValidation lib _ _).
  destruct (bool_decide (Digest uploaded <> Digest (imgConfigInfo src))) eqn:Hd;
    destruct readByPutBlob, fv; simpl; rewrite ?Hd;
    (eexists; split; [reflexivity|]; split; [reflexivity|]);
    try reflexivity;
    (eexists; split; [reflexivity|]; apply isInternalError_writing_blob).
Qed.

End ConfigFacts.

(** ** Copying one layer *)

Section LayerFacts.
Context {D : Type} (lib : Libraries).
Implicit Types (w : World D) (ic : imageCopier D).

(** C6.  The skip path of [copyLayer]: the destination has the blob and no
    diffID is to be computed.  The copy fails with the size-mismatch error
    exactly when the source gives a size and it is not the size found;
    otherwise [ReapplyBlob] is called, on the [BlobInfo] of the source with
    the size found, and its [BlobInfo] is returned with the cached diffID,
    or its error.  The log shows that the source is never asked for the blob. *)
Theorem copyLayer_skip_path ic (srcInfo : BlobInfo) w (extantBlobSize : Z)
    (reapplied : result BlobInfo) d' :
  HasBlob (dest (c ic)) (destState w) srcInfo = OK (true, extantBlobSize) ->
  diffIDsAreNeeded ic
  && bool_decide (mapGet (cachedDiffIDs w) (Digest srcInfo) = EmptyString) = false ->
  ReapplyBlob (dest (c ic)) (destState w)
    {| Digest := Digest srcInfo; Size := extantBlobSize;
       URLs := URLs srcInfo; MediaType := MediaType srcInfo |} = (reapplied, d') ->
  copyLayer lib ic srcInfo w
  = if bool_decide (Size srcInfo <> -1) && bool_decide (Size srcInfo <> extantBlobSize)
    then
      (Err (New ("Error: blob " +:+ Digest srcInfo
                 +:+ " is already present, but with size " +:+ pretty extantBlobSize
                 +:+ " instead of " +:+ pretty (Size srcInfo))),
       logged (EvHasBlob srcInfo) w)
    else
      match reapplied with
      | OK blobinfo =>
        (OK (blobinfo, mapGet (cachedDiffIDs w) (Digest srcInfo)),
         {| destState := d'; cachedDiffIDs := cachedDiffIDs w;
            log := log w
                   ++ [EvHasBlob srcInfo;
                       EvReapplyBlob {| Digest := Digest srcInfo; Size := extantBlobSize;
                                        URLs := URLs srcInfo;
                                        MediaType := MediaType srcInfo |};
                       EvPrintf ("Skipping fetch of repeat blob " +:+ Digest srcInfo +:+ nl)] |})
      | Err e =>
        (Err (WithMessage e ("Error reapplying blob " +:+ Digest srcInfo
                             +:+ " at destination")),
         {| destState := d'; cachedDiffIDs := cachedDiffIDs w;
            log := log w
                   ++ [EvHasBlob srcInfo;
                       EvReapplyBlob {| Digest := Digest srcInfo; Size := extantBlobSize;
                                        URLs := URLs srcInfo;
                                        MediaType := MediaType srcInfo |}] |})
      end.
Proof.
  intros Hhas Hneeded Hre.
  unfold copyLayer, wrapM, destHasBlob, destReapplyBlob, Printf, bind, emit,
    getDest, putDest, liftR, getCachedDiffIDs, ret, fail. simpl.
  rewrite Hhas. simpl. rewrite Hneeded. simpl.
  destruct (bool_decide (Size srcInfo <> -1) && bool_decide (Size srcInfo <> extantBlobSize));
    [reflexivity|].
  simpl. rewrite Hre. simpl.
  destruct reapplied as [bi|e]; simpl; rewrite <- ?app_assoc; reflexivity.
Qed.

(** C7.  A layer with URLs, at a destination that accepts foreign layers:
    the loop of [copyLayers] fails with the "unimplemented" error when
    diffIDs are needed; otherwise it does nothing but print, and goes on with
    the [BlobInfo] of the source as destination info and an empty diffID. *)
Theorem copyLayers_foreign_layer ic (srcLayer : BlobInfo) (rest : list BlobInfo)
    (destInfos : list BlobInfo) (diffIDs : list string) w :
  AcceptsForeignLayerURLs (dest (c ic)) (destState w) = true ->
  elems (URLs srcLayer) <> [] ->
  copyLayersBody lib ic srcLayer w
  = (if diffIDsAreNeeded ic
     then (Err (New "getting DiffID for foreign layers is unimplemented"), w)
     else (OK (srcLayer, EmptyString),
           logged (EvPrintf ("Skipping foreign layer " +:+ quoted (Digest srcLayer)
                             +:+ " copy to "
                             +:+ TransportName (dest (c ic)) (destState w) +:+ nl)) w))
  /\ copyLayersLoop lib ic (srcLayer :: rest) destInfos diffIDs w
     = (if diffIDsAreNeeded ic
        then (Err (New "getting DiffID for foreign layers is unimplemented"), w)
        else copyLayersLoop lib ic rest (destInfos ++ [srcLayer])
               (diffIDs ++ [EmptyString])
               (logged (EvPrintf ("Skipping foreign layer " +:+ quoted (Digest srcLayer)
                                  +:+ " copy to "
                                  +:+ TransportName (dest (c ic)) (destState w) +:+ nl)) w)).
Proof.
  intros Hacc Hurls.
  assert (Hbody : copyLayersBody lib ic srcLayer w
    = (if diffIDsAreNeeded ic
       then (Err (New "getting DiffID for foreign layers is unimplemented"), w)
       else (OK (srcLayer, EmptyString),
             logged (EvPrintf ("Skipping foreign layer " +:+ quoted (Digest srcLayer)
                               +:+ " copy to "
                               +:+ TransportName (dest (c ic)) (destState w) +:+ nl)) w))).
  { unfold copyLayersBody, bind at 1, getDest. rewrite Hacc.
    destruct (elems (URLs srcLayer)) as [|u us]; [congruence|]. simpl.
    destruct (diffIDsAreNeeded ic); reflexivity. }
  split; [exact Hbody|].
  simpl. unfold bind at 1. rewrite Hbody.
  destruct (diffIDsAreNeeded ic); reflexivity.
Qed.

(** C9.  The fetch path of [copyLayer].  [copyLayerFromStream] hands
    [canModifyManifest] to the blob pipeline as its [canCompress]; so
    [PutBlob] receives the compressed stream, without digest and size, only
    when [canModifyManifest] holds, the blob is not compressed already and
    the destination wants compressed layers.  With [canModifyManifest] false
    it receives the bytes of the source under the digest of the source, and
    a layer that is copied keeps that digest. *)
Theorem copyLayer_fetch_compression ic (srcInfo : BlobInfo) w (haveBlob : bool)
    (extantBlobSize : Z) (srcStream : Stream) (srcBlobSize : Z) dec
    (uploaded : result BlobInfo) readByPutBlob d' :
  HasBlob (dest (c ic)) (destState w) srcInfo = OK (haveBlob, extantBlobSize) ->
  haveBlob
  && negb (diffIDsAreNeeded ic
           && bool_decide (mapGet (cachedDiffIDs w) (Digest srcInfo) = EmptyString))
  = false ->
  GetBlob (rawSource (c ic)) srcInfo = OK (srcStream, srcBlobSize) ->
  Digest srcInfo <> EmptyString ->
  usableDigest lib (Digest srcInfo) ->
  DetectCompression lib (digested lib (Digest srcInfo) srcStream) = OK dec ->
  let seen := digested lib (Digest srcInfo) srcStream in
  let fetched := {| Digest := Digest srcInfo; Size := srcBlobSize;
                    URLs := None; MediaType := EmptyString |} in
  let compress :=
    canModifyManifest ic
    && negb (match dec with Some _ => true | None => false end)
    && ShouldCompressLayers (dest (c ic)) (destState w) in
  let sent := if compress then compressed lib seen else seen in
  let inputInfo :=
    if compress
    then {| Digest := EmptyString; Size := -1; URLs := None; MediaType := EmptyString |}
    else fetched in
  PutBlob (dest (c ic)) (destState w) sent inputInfo = ((uploaded, readByPutBlob), d') ->
  (forall srcStream srcInfo needed,
     copyLayerFromStream lib ic srcStream srcInfo needed
     = copyBlobFromStream lib (c ic) srcStream srcInfo
         (if needed : bool
          then Some (fun decompressor layerStream =>
                       diffIDComputationGoroutine lib layerStream decompressor)
          else None)
         (canModifyManifest ic))
  /\ exists r w',
       copyLayer lib ic srcInfo w = (r, w')
       /\ log w' = log w ++ [EvHasBlob srcInfo;
                             EvPrintf ("Copying blob " +:+ Digest srcInfo +:+ nl);
                             EvGetBlob srcInfo;
                             EvPutBlob sent inputInfo]
       /\ content seen = content srcStream
       /\ (if canModifyManifest ic then True
           else sent = seen /\ inputInfo = fetched
                /\ match r with
                   | OK (blobInfo, _) => Digest blobInfo = Digest srcInfo
                   | Err _ => True
                   end).
Proof.
  intros Hhas Hfetch Hget Hne Huse Hdet seen fetched compress sent inputInfo Hput.
  split; [reflexivity|].
  set (needed := diffIDsAreNeeded ic
                 && bool_decide (mapGet (cachedDiffIDs w) (Digest srcInfo) = EmptyString))
    in *.
  set (w3 := {| destState := destState w; cachedDiffIDs := cachedDiffIDs w;
                log := (log w ++ [EvHasBlob srcInfo])
                       ++ [EvPrintf ("Copying blob " +:+ Digest srcInfo +:+ nl)]
                       ++ [EvGetBlob srcInfo] |}).
  (* the run of the pipeline *)
  assert (Hkeep : canModifyManifest ic = false -> sent = seen /\ inputInfo = fetched).
  { intros Hc. subst sent inputInfo compress. rewrite Hc. auto. }
  assert (Hrun : exists r1,
             copyLayerFromStream lib ic srcStream fetched needed w3
             = (r1, {| destState := d'; cachedDiffIDs := cachedDiffIDs w;
                       log := log w3 ++ [EvPutBlob sent inputInfo] |})).
  { pose proof (copyBlobFromStream_run lib (c ic) srcStream fetched
                  (if needed
                   then Some (fun decompressor layerStream =>
                                diffIDComputationGoroutine lib layerStream decompressor)
                   else None)
                  (canModifyManifest ic) w3 dec uploaded readByPutBlob d' Huse Hdet)
      as Hrun.
    cbv zeta in Hrun.
    change (Digest fetched) with (Digest srcInfo) in Hrun.
    change (destState w3) with (destState w) in Hrun.
    change (cachedDiffIDs w3) with (cachedDiffIDs w) in Hrun.
    assert (Hunch : negb (canModifyManifest ic)
                    || match dec with Some _ => true | None => false end
                    || negb (ShouldCompressLayers (dest (c ic)) (destState w))
                    = negb compress).
    { subst compress. destruct (canModifyManifest ic), dec, (ShouldCompressLayers _ _);
        reflexivity. }
    rewrite Hunch in Hrun.
    replace (if negb compress then digested lib (Digest srcInfo) srcStream
             else compressed lib (digested lib (Digest srcInfo) srcStream))
      with sent in Hrun by (subst sent seen; destruct compress; reflexivity).
    replace (if negb compress then fetched
             else {| Digest := EmptyString; Size := -1; URLs := None;
                     MediaType := EmptyString |})
      with inputInfo in Hrun by (subst inputInfo; destruct compress; reflexivity).
    eexists. unfold copyLayerFromStream. exact (Hrun Hput). }
  destruct Hrun as [r1 Hrun].
  (* what follows the pipeline leaves the log alone and keeps the [BlobInfo] *)
  unfold copyLayer, wrapM, destHasBlob, sourceGetBlob, Printf.
  unfold bind at 1. unfold bind at 1. unfold emit at 1. unfold bind at 1.
  unfold getDest at 1. unfold liftR at 1. cbn [destState]. rewrite Hhas. cbn [wrapResult].
  unfold bind at 1. unfold getCachedDiffIDs at 1. cbn [cachedDiffIDs].
  fold needed. rewrite Hfetch.
  unfold bind at 1. unfold emit at 1. cbn [destState cachedDiffIDs log].
  unfold bind at 1. unfold bind at 1. unfold emit at 1. unfold liftR at 1.
  rewrite Hget. cbn [wrapResult destState cachedDiffIDs log].
  unfold bind at 1. fold fetched.
  replace {| destState := destState w; cachedDiffIDs := cachedDiffIDs w;
             log := ((log w ++ [EvHasBlob srcInfo])
                     ++ [EvPrintf ("Copying blob " +:+ Digest srcInfo +:+ nl)])
                    ++ [EvGetBlob srcInfo] |} with w3
    by (subst w3; f_equal; by rewrite <- !app_assoc).
  rewrite Hrun.
  assert (Hlog : log w3 ++ [EvPutBlob sent inputInfo]
                 = log w ++ [EvHasBlob srcInfo;
                             EvPrintf ("Copying blob " +:+ Digest srcInfo +:+ nl);
                             EvGetBlob srcInfo; EvPutBlob sent inputInfo])
    by (subst w3; simpl; by rewrite <- !app_assoc).
  assert (Hdigest : canModifyManifest ic = false ->
                    forall bi chan, r1 = OK (bi, chan) -> Digest bi = Digest srcInfo).
  { intros Hc bi chan ->. unfold copyLayerFromStream in Hrun. rewrite Hc in Hrun.
    exact (copyBlobFromStream_OK_digest lib _ _ fetched _ _ _ _ _ Hrun Hne). }
  destruct r1 as [[blobInfo chan]|e].
  2:{ eexists _, _. split; [reflexivity|]. split; [exact Hlog|]. split; [reflexivity|].
      destruct (canModifyManifest ic); [exact I|]. destruct Hkeep as [-> ->]; auto. }
  assert (Hpost : exists r w',
             (match chan with
              | Some diffIDResult =>
                match err diffIDResult with
                | Some e => fail (WithMessage e "Error computing layer DiffID")
                | None =>
                  bind getCachedDiffIDs (fun cached =>
                    bind (putCachedDiffIDs (<[Digest srcInfo := digest diffIDResult]> cached))
                      (fun _ => ret (blobInfo, digest diffIDResult)))
                end
              | None => ret (blobInfo, EmptyString)
              end) {| destState := d'; cachedDiffIDs := cachedDiffIDs w;
                      log := log w3 ++ [EvPutBlob sent inputInfo] |} = (r, w')
             /\ log w' = log w3 ++ [EvPutBlob sent inputInfo]
             /\ match r with
                | OK (bi, _) => bi = blobInfo
                | Err _ => True
                end).
  { destruct chan as [dr|]; [destruct (err dr)|];
      eexists _, _; (split; [reflexivity|]); split; reflexivity || exact I. }
  destruct Hpost as (r & w' & Hpost & Hlog' & Hr).
  exists r, w'. split; [exact Hpost|]. split; [by rewrite Hlog', Hlog|].
  split; [reflexivity|].
  destruct (canModifyManifest ic) eqn:Hcan; [exact I|].
  destruct Hkeep as [Hs Hi]; [reflexivity|]. split; [exact Hs|]. split; [exact Hi|].
  destruct r as [[bi diffID]|e]; [|exact I]. subst bi.
  exact (Hdigest eq_refl _ _ eq_refl).
Qed.

End LayerFacts.

(** ** The runtime OS check and the teardown of [Image] *)

Section ImageFacts.
Context {D : Type} (lib : Libraries).

(** C5, as the code has it.  When the destination requires a matching OS and
    the configuration of the image parses, the image is rejected exactly when
    the wanted OS is "windows" and the image is for "linux", or the wanted OS
    is not "windows" and the image is for "windows"; the error names both. *)
Theorem checkImageDestinationForCurrentRuntimeOS_rejects (ctx : option SystemContext)
    (src : TypesImage) (dest : ImageDestination D) (d : D) (os : string) :
  MustMatchRuntimeOS dest d = true ->
  imgOCIConfigOS src = OK os ->
  (checkImageDestinationForCurrentRuntimeOS lib ctx src dest d <> None
   <-> (wantedOS lib ctx = "windows" /\ os = "linux")
       \/ (wantedOS lib ctx <> "windows" /\ os = "windows"))
  /\ (checkImageDestinationForCurrentRuntimeOS lib ctx src dest d = None
      \/ checkImageDestinationForCurrentRuntimeOS lib ctx src dest d
         = Some (New ("image operating system " +:+ quoted os
                      +:+ " cannot be used on " +:+ quoted (wantedOS lib ctx)))).
Proof.
  intros Hmust Hos. unfold checkImageDestinationForCurrentRuntimeOS.
  rewrite Hmust, Hos.
  destruct (decide (wantedOS lib ctx = "windows")) as [Hw|Hw];
    destruct (decide (os = "linux")) as [Hl|Hl];
    destruct (decide (os = "windows")) as [Ho|Ho];
    rewrite ?(bool_decide_eq_true_2 _ Hw), ?(bool_decide_eq_false_2 _ Hw),
      ?(bool_decide_eq_true_2 _ Hl), ?(bool_decide_eq_false_2 _ Hl),
      ?(bool_decide_eq_true_2 _ Ho), ?(bool_decide_eq_false_2 _ Ho);
    try rewrite (bool_decide_eq_true_2 (wantedOS lib ctx <> "windows")) by exact Hw;
    try rewrite (bool_decide_eq_false_2 (wantedOS lib ctx <> "windows")) by tauto;
    simpl; (split; [split; [intros Hr; try tauto; try (exfalso; apply Hr; reflexivity)
                           | intros [[? ?]|[? ?]] ?; congruence]
                   | auto]).
Qed.

(** C10.  When the copy and [Commit] succeed, [Image] returns nil whatever
    the two [Close] calls return: a close error is wrapped around the nil
    [retErr], which leaves nil. *)
Theorem Image_close_errors_are_dropped (policyContext : PolicyContext)
    (destRef : DestinationReference D) (srcRef : SourceReference)
    (options : option Options) (d0 : D) (rawSource : ImageSource) (w1 : World D) :
  MultipleImages (default Options_zero options) = CopyAllImages
  \/ MultipleImages (default Options_zero options) = CopyOnlyCurrentRuntimeImage ->
  NewImageDestination destRef (DestinationCtx (default Options_zero options)) = OK d0 ->
  NewImageSource srcRef (SourceCtx (default Options_zero options)) = OK rawSource ->
  copyAndCommit lib {| dest := destinationMethods destRef; rawSource := rawSource |}
    policyContext (default Options_zero options)
    {| destState := d0; cachedDiffIDs := ∅; log := [] |} = (OK tt, w1) ->
  Image lib policyContext destRef srcRef options
  = (None, Some (logged EvCloseDestination (logged EvCloseSource w1)))
  /\ forall closeErr label, deferredClose closeErr label None = None.
Proof.
  intros Hopt Hdest Hsrc Hrun. split.
  - unfold Image.
    assert (Hvalid : bool_decide (MultipleImages (default Options_zero options)
                                  <> CopyAllImages)
                     && bool_decide (MultipleImages (default Options_zero options)
                                     <> CopyOnlyCurrentRuntimeImage) = false).
    { destruct Hopt as [-> | ->]; reflexivity. }
    rewrite Hvalid, Hdest, Hsrc, Hrun. simpl.
    destruct (SourceClose rawSource), (DestinationClose _ _); reflexivity.
  - intros [e|] label; reflexivity.
Qed.

End ImageFacts.

(** ** The retry loop of the manifest commit *)

Section RetryFacts.
Context {D : Type} (lib : Libraries).
Implicit Types (w : World D) (ic : imageCopier D).

Lemma tryOtherCandidates_attempts ti ic candidates w es w' stored :
  fallbackAttempts lib ti ic candidates w es w' stored ->
  forall errs,
    tryOtherCandidates lib ic ti candidates errs w
    = (OK (match stored with
           | Some found => inl found
           | None => inr (errs ++ zip_with attemptReport candidates es)
           end), w').
Proof.
  induction 1 as [ic w | ic t rest w e w1 es w2 stored Hrun _ IH
                 | ic t rest w m w1 Hrun]; intros errs; cbn [tryOtherCandidates zip_with].
  - by rewrite app_nil_r.
  - erewrite try_run by exact Hrun. cbv beta iota. rewrite IH.
    destruct stored; [reflexivity|]. by rewrite <- app_assoc.
  - erewrite try_run by exact Hrun. reflexivity.
Qed.

(** The attempts always run to an end. *)
Lemma fallbackAttempts_total ti ic candidates w :
  exists es w' stored, fallbackAttempts lib ti ic candidates w es w' stored.
Proof.
  revert ic w. induction candidates as [|t rest IH]; intros ic w.
  - eexists _, _, _. constructor.
  - destruct (copyUpdatedConfigAndManifest lib (setManifestMIMEType ic t) ti w)
      as [[m|e] w1] eqn:Hrun.
    + eexists _, _, _. eapply attempts_stored. exact Hrun.
    + destruct (IH (setManifestMIMEType ic t) w1) as (es & w2 & stored & Hrest).
      eexists _, _, _. eapply attempts_failed; eassumption.
Qed.

(** C3, as the code has it.  After the preferred type failed with [err], the
    fallback candidates are tried only if [err] is a rejection of the
    manifest type, there are candidates, and the manifest may be modified;
    otherwise nothing more is attempted and the copy fails, with [err], or
    with [err] wrapped when only [canModifyManifest] stands in the way.  Once
    the candidates are tried, each failure, of whatever kind, leads to the
    next candidate; the first manifest stored is the result, and when every
    candidate failed the errors are reported together. *)
Theorem commitManifest_retry ic (ti : option string) (preferred : string)
    (others : list string) w (err : error) w1 (es : list error) w2
    (stored : option (list byte * string)) :
  copyUpdatedConfigAndManifest lib ic ti w = (Err err, w1) ->
  fallbackAttempts lib ti ic (if retries ic others err then others else []) w1 es w2 stored ->
  commitManifest lib ic ti preferred others w
  = (match stored with
     | Some found => OK found
     | None =>
       Err (if retries ic others err then
              New ("Uploading manifest failed, attempted the following formats: "
                   +:+ Join (zip_with attemptReport (preferred :: others) (err :: es)) ", ")
            else if isManifestRejected err && negb (length others =? 0)%nat then
              WithMessage err "Writing manifest failed (and converting it is not possible)"
            else err)
     end, w2).
Proof.
  intros Hfirst Hrest. unfold commitManifest. erewrite try_run by exact Hfirst.
  unfold retries in *.
  destruct (isManifestRejected err); simpl in *.
  2:{ inversion Hrest; subst. reflexivity. }
  destruct (length others =? 0)%nat; simpl in *.
  { inversion Hrest; subst. reflexivity. }
  destruct (canModifyManifest ic); simpl in *.
  2:{ inversion Hrest; subst. reflexivity. }
  unfold bind.
  rewrite (tryOtherCandidates_attempts _ _ _ _ _ _ _ Hrest).
  destruct stored; reflexivity.
Qed.

End RetryFacts.

(** ** Signature safety *)

Section SignatureFacts.
Context {D : Type} (lib : Libraries).
Implicit Types (w : World D) (ic : imageCopier D) (c : copier D).

Lemma Printf_emits (P : Event -> Prop) text :
  P (EvPrintf text) -> emitsOnly (D:=D) P (Printf text).
Proof. apply emitsOnly_emit. Qed.

Lemma destPutManifest_emits (P : Event -> Prop) c m i :
  P (EvPutManifest m i) -> emitsOnly P (destPutManifest c m i).
Proof. intros HP. unfold destPutManifest. emits; exact HP. Qed.

Lemma destPutSignatures_emits (P : Event -> Prop) c sigs i :
  P (EvPutSignatures sigs i) -> emitsOnly P (destPutSignatures c sigs i).
Proof. intros HP. unfold destPutSignatures. emits; exact HP. Qed.

Lemma blobPhaseEvent_putsOnly ok (e : Event) : blobPhaseEvent e -> putsOnly ok e.
Proof. destruct e; simpl; tauto. Qed.

Lemma emitsOnly_blobPhase_putsOnly {A} ok (m : M A) :
  emitsOnly blobPhaseEvent m -> emitsOnly (D:=D) (putsOnly ok) m.
Proof. apply emitsOnly_weaken, blobPhaseEvent_putsOnly. Qed.
#[local] Hint Resolve emitsOnly_blobPhase_putsOnly : emits.

Lemma sameImage_refl ic : sameImage ic ic.
Proof. repeat split. Qed.

Lemma sameImage_trans ic1 ic2 ic3 :
  sameImage ic1 ic2 -> sameImage ic2 ic3 -> sameImage ic1 ic3.
Proof. intros (?&?&?) (?&?&?). repeat split; congruence. Qed.

Lemma updateEmbeddedDockerReference_same ic w ic' w' :
  updateEmbeddedDockerReference ic w = (OK ic', w') -> sameImage ic ic'.
Proof.
  unfold updateEmbeddedDockerReference, bind, getDest. simpl.
  destruct (DockerReference _ _); [|intros [= <- _]; apply sameImage_refl].
  destruct (negb _); [intros [= <- _]; apply sameImage_refl|].
  destruct (negb _); [discriminate|]. intros [= <- _]. repeat split.
Qed.

Lemma determineManifestConversion_same ic supported force negotiated ic' :
  determineManifestConversion ic supported force = OK (negotiated, ic') ->
  sameImage ic ic'.
Proof.
  unfold determineManifestConversion.
  destruct (imgManifest (src ic)) as [[m srcType]|e]; [|discriminate].
  destruct (if bool_decide (force <> EmptyString) then [force] else supported);
    [intros [= _ <-]; apply sameImage_refl|].
  destruct (appendUnique _ _); [discriminate|].
  destruct (bool_decide _); intros [= _ <-]; repeat split.
Qed.

Lemma copyLayers_same ic w ic' w' :
  copyLayers lib ic w = (OK ic', w') -> sameImage ic ic'.
Proof.
  unfold copyLayers. intros Hrun.
  destruct (bind_run _ _ _ _ _ Hrun) as [(chosen & w1 & _ & H2)|(e & _ & ?)];
    [|discriminate].
  destruct chosen as [srcInfos updated].
  destruct (bind_run _ _ _ _ _ H2) as [(copied & w2 & _ & H3)|(e & _ & ?)];
    [|discriminate].
  destruct copied as [destInfos diffIDs]. injection H3 as <- _. repeat split.
Qed.

(** With ic.canModifyManifest false, [copyUpdatedConfigAndManifest] hands
    nothing but the manifest of the source to [PutManifest]. *)
Lemma copyUpdatedConfigAndManifest_unmodifiable ic ti :
  canModifyManifest ic = false ->
  emitsOnly (putsOnly (fun m _ => isManifestOf (src ic) m))
    (copyUpdatedConfigAndManifest lib ic ti).
Proof.
  intros Hcan. unfold copyUpdatedConfigAndManifest.
  apply (emitsOnly_bind_post _ (fun pending => pending = src ic)).
  - intros w a w'. rewrite Hcan. simpl.
    destruct (bool_decide _); [discriminate|]. by intros [= <- _].
  - emits.
  - intros ? ->.
    apply (emitsOnly_bind_post _ (fun read => imgManifest (src ic) = OK read)).
    { intros w a w'. apply liftR_wrap_OK. }
    { emits. }
    intros [man t] Hman. unfold Printf, destPutManifest. emits; try exact I.
    all: simpl; exists t; exact Hman.
Qed.

Lemma commitManifest_unmodifiable ic ti preferred others :
  canModifyManifest ic = false ->
  emitsOnly (putsOnly (fun m _ => isManifestOf (src ic) m))
    (commitManifest lib ic ti preferred others).
Proof.
  intros Hcan. unfold commitManifest.
  apply emitsOnly_try; [by apply copyUpdatedConfigAndManifest_unmodifiable|].
  intros [m|e]; [emits|]. rewrite Hcan. simpl.
  destruct (negb (isManifestRejected e) || _); emits.
Qed.

Lemma signIfAsked_emits P options manifest sigs :
  emitsOnly (D:=D) P (signIfAsked lib options manifest sigs).
Proof. unfold signIfAsked. emits. Qed.

Lemma copyOneImageLayersAndManifest_unmodifiable c options ti sigs ic preferred others :
  canModifyManifest ic = false ->
  emitsOnly (putsOnly (fun m _ => isManifestOf (src ic) m))
    (copyOneImageLayersAndManifest lib c options ti sigs ic preferred others).
Proof.
  intros Hcan. unfold copyOneImageLayersAndManifest.
  apply (emitsOnly_bind_post _ (sameImage ic));
    [intros w a w'; apply copyLayers_same
    | apply emitsOnly_blobPhase_putsOnly, copyLayers_emits | intros ic4 (Hs & Hc & _)].
  apply emitsOnly_bind.
  { rewrite <- Hs. apply commitManifest_unmodifiable. congruence. }
  intros [manifest retManifestType].
  apply emitsOnly_bind; [apply signIfAsked_emits|]. intros sigs'.
  unfold Printf, destPutSignatures. emits; exact I.
Qed.

(** With signatures carried over, [copyOneImage] hands nothing but the
    manifest of the source to [PutManifest]. *)
Lemma copyOneImage_signed_emits c policyContext options u si ti (src : TypesImage)
    (sigs : list (list byte)) :
  FromUnparsedImage u = OK src ->
  RemoveSignatures options = false ->
  imgSignatures src = OK sigs ->
  sigs <> [] ->
  emitsOnly (putsOnly (fun m _ => isManifestOf src m))
    (copyOneImage lib c policyContext options u si ti).
Proof.
  intros Hsrc Hkeep Hsigs Hne. unfold copyOneImage.
  apply emitsOnly_bind; [emits|]. intros multiImage.
  destruct multiImage; [emits|].
  destruct (policyContext u) as [allowed policyErr].
  destruct (negb allowed || _); [emits|].
  rewrite Hsrc, Hkeep. simpl.
  apply (emitsOnly_bind_post _ (fun a => a = src));
    [intros w a w'; by intros [= -> _] | emits | intros ? ->].
  rewrite Hsigs. simpl.
  apply emitsOnly_bind; [emits|]. intros d.
  apply emitsOnly_bind; [emits|]. intros _.
  apply (emitsOnly_bind_post _ (fun a => a = sigs)).
  { intros w a w' Hrun. unfold Printf, bind, emit, liftR in Hrun. by injection Hrun as -> _. }
  { unfold Printf. emits. exact I. }
  intros ? ->.
  assert (Hlen : (length sigs =? 0)%nat = false) by (destruct sigs; [congruence|reflexivity]).
  rewrite Hlen.
  apply emitsOnly_bind; [unfold Printf; emits; exact I|]. intros _.
  apply (emitsOnly_bind_post _ (sameImage (newImageCopier c src false)));
    [intros w a w'; apply updateEmbeddedDockerReference_same
    | unfold updateEmbeddedDockerReference; emits | intros ic1 Hic1].
  apply emitsOnly_bind; [emits|]. intros d1.
  apply (emitsOnly_bind_post _ (fun n => sameImage ic1 (snd n))).
  { intros w [p ic2] w' Hrun. apply liftR_OK in Hrun as [Hrun _].
    exact (determineManifestConversion_same _ _ _ _ _ Hrun). }
  { emits. }
  intros [[preferred others] ic2] Hic2. simpl in Hic2.
  pose proof (sameImage_trans _ _ _ Hic1 Hic2) as H12.
  set (ic3 := setDiffIDsAreNeeded ic2 _).
  assert (H3 : sameImage (newImageCopier c src false) ic3)
    by (destruct H12 as (?&?&?); repeat split; assumption).
  clearbody ic3. destruct H3 as (Hs & Hc & _). simpl in Hs, Hc.
  rewrite <- Hs. by apply copyOneImageLayersAndManifest_unmodifiable.
Qed.

Lemma updateEmbeddedDockerReference_world ic w r w' :
  updateEmbeddedDockerReference ic w = (r, w') -> w' = w.
Proof.
  unfold updateEmbeddedDockerReference, bind, getDest. simpl.
  destruct (DockerReference _ _); [|by intros [= _ <-]].
  destruct (negb _); [by intros [= _ <-]|].
  destruct (negb _); by intros [= _ <-].
Qed.

(** The first half of [copyOneImage]: it stops early, or it reaches
    [copyOneImageLayersAndManifest] with the image copier that the
    negotiation leaves, in a world that differs from the first by what was
    printed. *)
Lemma copyOneImage_prelude c policyContext options u si ti w r w' :
  copyOneImage lib c policyContext options u si ti w = (r, w') ->
  stoppedEarly policyContext u w r w'
  \/ exists src sigs ic1 preferred others ic2 w1,
       FromUnparsedImage u = OK src
       /\ policyContext u = (true, None)
       /\ ((RemoveSignatures options = true /\ sigs = [])
           \/ (RemoveSignatures options = false /\ imgSignatures src = OK sigs))
       /\ updateEmbeddedDockerReference (newImageCopier c src (length sigs =? 0)%nat) w1
          = (OK ic1, w1)
       /\ determineManifestConversion ic1
            (SupportedManifestMIMETypes (dest c) (destState w))
            (ForceManifestMIMEType options) = OK ((preferred, others), ic2)
       /\ destState w1 = destState w
       /\ (exists evs, log w1 = log w ++ evs /\ Forall printfEvent evs)
       /\ copyOneImageLayersAndManifest lib c options ti sigs
            (setDiffIDsAreNeeded ic2
               (imgUpdatedImageNeedsLayerDiffIDs src (manifestUpdates ic2)))
            preferred others w1 = (r, w').
Proof.
  intros Hrun. unfold copyOneImage in Hrun.
  assert (Hstop0 : forall e, stoppedEarly policyContext u w (Err e) w).
  { intros e. split; [reflexivity|]. split; [|by left].
    exists []. split; [by rewrite app_nil_r | constructor]. }
  apply bind_run in Hrun as [(multi & w0 & Hm & Hrun)|(e & Hm & ->)].
  2:{ left. injection Hm as _ <-. apply Hstop0. }
  apply liftR_OK in Hm as [_ ->].
  destruct multi; [left; injection Hrun as <- <-; apply Hstop0|].
  destruct (policyContext u) as [allowed policyErr] eqn:Hpol.
  destruct (negb allowed || bool_decide (policyErr <> None)) eqn:Hdeny.
  { left. destruct policyErr as [pe|]; simpl in Hrun; injection Hrun as <- <-;
      [apply Hstop0|].
    split; [reflexivity|]. split; [exists []; split; [by rewrite app_nil_r|constructor]|].
    right. split; [reflexivity|]. destruct allowed; [discriminate|exact Hpol]. }
  assert (allowed = true /\ policyErr = None) as [-> ->].
  { destruct allowed; [|discriminate]. split; [reflexivity|].
    destruct policyErr; [discriminate|reflexivity]. }
  apply bind_run in Hrun as [(src & w0 & Hsrc & Hrun)|(e & Hsrc & ->)].
  2:{ left. injection Hsrc as _ <-. apply Hstop0. }
  pose proof (liftR_wrap_OK _ _ _ _ _ Hsrc) as Hsrc'.
  apply liftR_OK in Hsrc as [_ ->].
  apply bind_run in Hrun as [(d & w0 & Hd & Hrun)|(e & Hd & ->)]; [|discriminate].
  injection Hd as <- <-.
  apply bind_run in Hrun as [([] & w0 & Hos & Hrun)|(e & Hos & ->)].
  2:{ left. unfold check in Hos. destruct (checkImageDestinationForCurrentRuntimeOS _ _ _ _ _);
        [injection Hos as _ <-; apply Hstop0 | discriminate]. }
  assert (w0 = w) as ->.
  { unfold check in Hos. destruct (checkImageDestinationForCurrentRuntimeOS _ _ _ _ _);
      [discriminate | by injection Hos]. }
  clear Hos.
  (* the signatures *)
  apply bind_run in Hrun as [(sigs & w1 & Hsigs & Hrun)|(e & Hsigs & ->)].
  2:{ left. destruct (RemoveSignatures options); [discriminate|].
      unfold Printf, bind, emit, liftR in Hsigs. simpl in Hsigs. injection Hsigs as _ <-.
      split; [reflexivity|]. split; [|by left].
      eexists [_]. split; [reflexivity|]. repeat constructor. }
  assert (Hw1 : destState w1 = destState w
                /\ (exists evs, log w1 = log w ++ evs /\ Forall printfEvent evs)
                /\ ((RemoveSignatures options = true /\ sigs = [])
                    \/ (RemoveSignatures options = false /\ imgSignatures src = OK sigs))).
  { destruct (RemoveSignatures options).
    - injection Hsigs as <- <-. split; [reflexivity|].
      split; [exists []; split; [by rewrite app_nil_r|constructor]|]. by left.
    - unfold Printf, bind, emit, liftR in Hsigs. simpl in Hsigs.
      destruct (imgSignatures src) as [s|e]; simpl in Hsigs; [|discriminate].
      injection Hsigs as <- <-. split; [reflexivity|].
      split; [eexists [_]; split; [reflexivity|repeat constructor]|]. by right. }
  destruct Hw1 as (Hd1 & (evs1 & Hl1 & Hp1) & Hsig). clear Hsigs.
  (* the destination must take signatures *)
  apply bind_run in Hrun as [([] & w2 & Hsup & Hrun)|(e & Hsup & ->)].
  2:{ left. destruct (negb (length sigs =? 0)%nat); [|discriminate].
      unfold Printf, bind, emit, getDest, check in Hsup. simpl in Hsup.
      destruct (Wrap _ _); [|discriminate]. injection Hsup as _ <-.
      split; [exact Hd1|]. split; [|by left].
      exists (evs1 ++ [EvPrintf ("Checking if image destination supports signatures" +:+ nl)]).
      simpl. split; [by rewrite Hl1, app_assoc|].
      apply Forall_app. split; [exact Hp1 | repeat constructor]. }
  assert (Hw2 : destState w2 = destState w
                /\ exists evs, log w2 = log w ++ evs /\ Forall printfEvent evs).
  { destruct (negb (length sigs =? 0)%nat).
    - unfold Printf, bind, emit, getDest, check in Hsup. simpl in Hsup.
      destruct (Wrap _ _); [discriminate|]. injection Hsup as <-.
      split; [exact Hd1|].
      exists (evs1 ++ [EvPrintf ("Checking if image destination supports signatures" +:+ nl)]).
      simpl. split; [by rewrite Hl1, app_assoc|].
      apply Forall_app. split; [exact Hp1 | repeat constructor].
    - injection Hsup as <-. split; [exact Hd1|]. eauto. }
  destruct Hw2 as (Hd2 & evs2 & Hl2 & Hp2). clear Hsup.
  (* the embedded reference and the negotiation *)
  apply bind_run in Hrun as [(ic1 & w3 & Hemb & Hrun)|(e & Hemb & ->)].
  2:{ left. apply updateEmbeddedDockerReference_world in Hemb as ->.
      split; [exact Hd2|]. split; [eauto | by left]. }
  pose proof (updateEmbeddedDockerReference_world _ _ _ _ Hemb) as ->.
  apply bind_run in Hrun as [(d & w3 & Hd & Hrun)|(e & Hd & ->)]; [|discriminate].
  injection Hd as <- <-.
  apply bind_run in Hrun as [(negotiated & w3 & Hneg & Hrun)|(e & Hneg & ->)].
  2:{ left. injection Hneg as _ <-. split; [exact Hd2|]. split; [eauto | by left]. }
  apply liftR_OK in Hneg as [Hneg ->].
  destruct negotiated as [[preferred others] ic2].
  right. exists src, sigs, ic1, preferred, others, ic2, w2.
  rewrite Hd2 in Hneg. repeat split; try assumption; eauto.
Qed.

Lemma putManifests_app (evs1 evs2 : list Event) :
  putManifests (evs1 ++ evs2) = putManifests evs1 ++ putManifests evs2.
Proof.
  induction evs1 as [|e evs1 IH]; [reflexivity|].
  destruct e; simpl; rewrite ?IH; reflexivity.
Qed.

Lemma putManifests_blobPhase (evs : list Event) :
  Forall blobPhaseEvent evs -> putManifests evs = [].
Proof.
  induction 1 as [|e evs He _ IH]; [reflexivity|].
  destruct e; simpl in *; tauto.
Qed.

Lemma putManifests_printf (evs : list Event) :
  Forall printfEvent evs -> putManifests evs = [].
Proof.
  induction 1 as [|e evs He _ IH]; [reflexivity|].
  destruct e; simpl in *; tauto.
Qed.

Lemma putManifests_putsOnly ok (evs : list Event) m i :
  Forall (putsOnly ok) evs -> (m, i) ∈ putManifests evs -> ok m i.
Proof.
  induction 1 as [|e evs He _ IH]; simpl; [by intros ?%elem_of_nil|].
  destruct e; simpl in *; try exact IH.
  intros [[= -> ->]|Hin]%elem_of_cons; [exact He | exact (IH Hin)].
Qed.

(** Without the permission to modify, the embedded reference is left alone,
    and there was no conflict if the method returns. *)
Lemma updateEmbeddedDockerReference_unmodifiable ic w ic' w' :
  canModifyManifest ic = false ->
  updateEmbeddedDockerReference ic w = (OK ic', w') ->
  ic' = ic
  /\ match DockerReference (dest (c ic)) (destState w) with
     | Some destRef => imgEmbeddedDockerReferenceConflicts (src ic) destRef
     | None => false
     end = false.
Proof.
  intros Hcan. unfold updateEmbeddedDockerReference, bind, getDest. simpl.
  destruct (DockerReference _ _); [|by intros [= <- _]].
  destruct (imgEmbeddedDockerReferenceConflicts _ _); simpl; [|by intros [= <- _]].
  rewrite Hcan. discriminate.
Qed.

Lemma copyLayers_keeps_type ic w ic' w' :
  copyLayers lib ic w = (OK ic', w') ->
  ManifestMIMEType (manifestUpdates ic') = ManifestMIMEType (manifestUpdates ic)
  /\ EmbeddedDockerReference (manifestUpdates ic')
     = EmbeddedDockerReference (manifestUpdates ic).
Proof.
  unfold copyLayers. intros Hrun.
  destruct (bind_run _ _ _ _ _ Hrun) as [(chosen & w1 & _ & H2)|(e & _ & ?)];
    [|discriminate].
  destruct chosen as [srcInfos updated].
  destruct (bind_run _ _ _ _ _ H2) as [(copied & w2 & _ & H3)|(e & _ & ?)];
    [|discriminate].
  destruct copied as [destInfos diffIDs]. injection H3 as <- _. split; reflexivity.
Qed.

(** A substitution of layers that the signatures forbid stops [copyLayers]
    at once. *)
Lemma copyLayers_forbidden ic w :
  canModifyManifest ic = false ->
  bool_decide (imgLayerInfosForCopy (src ic) <> None)
  && bool_decide (imgLayerInfos (src ic) <> imgLayerInfosForCopy (src ic)) = true ->
  copyLayers lib ic w
  = (Err (New "Internal error: copyLayers() needs to use an updated manifest but that was known to be forbidden"), w).
Proof.
  intros Hcan Hsub. unfold copyLayers. rewrite Hsub, Hcan. reflexivity.
Qed.

(** Updates that the signatures forbid stop [copyUpdatedConfigAndManifest]
    at once. *)
Lemma copyUpdatedConfigAndManifest_forbidden ic ti w :
  canModifyManifest ic = false ->
  manifestUpdates ic <> onlyInformation (InformationOnly (manifestUpdates ic)) ->
  copyUpdatedConfigAndManifest lib ic ti w
  = (Err (New "Internal error: copy needs an updated manifest but that was known to be forbidden"), w).
Proof.
  intros Hcan Hup. unfold copyUpdatedConfigAndManifest.
  rewrite (bool_decide_eq_true_2 _ Hup), Hcan. reflexivity.
Qed.

Lemma commitManifest_forbidden ic ti preferred others w :
  canModifyManifest ic = false ->
  manifestUpdates ic <> onlyInformation (InformationOnly (manifestUpdates ic)) ->
  commitManifest lib ic ti preferred others w
  = (Err (New "Internal error: copy needs an updated manifest but that was known to be forbidden"), w).
Proof.
  intros Hcan Hup. unfold commitManifest.
  erewrite try_run by (by apply copyUpdatedConfigAndManifest_forbidden).
  reflexivity.
Qed.

(** With signatures carried over, a copy that has to rewrite the manifest
    fails, and [PutManifest] is not called. *)
Lemma copyOneImage_rewrite_required c policyContext options u si ti
    (img : TypesImage) (sigs : list (list byte)) w r w' :
  FromUnparsedImage u = OK img ->
  policyContext u = (true, None) ->
  RemoveSignatures options = false ->
  imgSignatures img = OK sigs ->
  sigs <> [] ->
  rewriteRequired c img options (destState w) = true ->
  copyOneImage lib c policyContext options u si ti w = (r, w') ->
  isOK r = false /\ exists evs, log w' = log w ++ evs /\ putManifests evs = [].
Proof.
  intros Hsrc Hpol Hkeep Hsigs Hne Hreq Hrun.
  apply copyOneImage_prelude in Hrun
    as [(_ & (evs & Hlog & Hevs) & Hr)
       |(src' & sigs' & ic1 & preferred & others & ic2 & w1 & Hsrc' & _ & Hsig & Hemb
         & Hneg & Hd1 & (evs1 & Hl1 & Hp1) & Hrun)].
  { split.
    - destruct Hr as [Hr|[_ Hr]]; [exact Hr | congruence].
    - exists evs. split; [exact Hlog | by apply putManifests_printf]. }
  assert (src' = img) as -> by congruence. clear Hsrc'.
  assert (sigs' = sigs) as -> by (destruct Hsig as [[? ?]|[_ ?]]; congruence).
  assert (Hlen : (length sigs =? 0)%nat = false) by (destruct sigs; [congruence|reflexivity]).
  rewrite Hlen in Hemb.
  apply updateEmbeddedDockerReference_unmodifiable in Hemb as [-> Hconf]; [|reflexivity].
  simpl in Hconf. rewrite Hd1 in Hconf.
  unfold rewriteRequired in Hreq. rewrite Hconf, Hneg in Hreq. simpl in Hreq.
  destruct (determineManifestConversion_same _ _ _ _ _ Hneg) as (Hs2 & Hc2 & _).
  simpl in Hs2, Hc2.
  set (ic3 := setDiffIDsAreNeeded ic2 _) in Hrun.
  assert (Hs3 : src ic3 = img) by exact Hs2.
  assert (Hc3 : canModifyManifest ic3 = false) by exact Hc2.
  assert (Hm3 : ManifestMIMEType (manifestUpdates ic3)
                = ManifestMIMEType (manifestUpdates ic2)) by reflexivity.
  clearbody ic3.
  unfold copyOneImageLayersAndManifest in Hrun.
  apply orb_true_iff in Hreq as [Hsub|Hconv].
  - (* the source substitutes layers *)
    rewrite bind_Err with (e := New "Internal error: copyLayers() needs to use an updated manifest but that was known to be forbidden") (w1 := w1) in Hrun.
    2:{ apply copyLayers_forbidden; [exact Hc3 | by rewrite Hs3]. }
    injection Hrun as <- <-. split; [reflexivity|].
    exists evs1. split; [exact Hl1 | by apply putManifests_printf].
  - (* another media type is recorded *)
    apply bool_decide_eq_true in Hconv.
    apply bind_run in Hrun as [(ic4 & w2 & Hlay & Hrun)|(e & Hlay & ->)].
    2:{ split; [reflexivity|].
        destruct (copyLayers_emits lib _ _ _ _ Hlay) as (evs2 & Hl2 & Hp2).
        exists (evs1 ++ evs2). split; [by rewrite Hl2, Hl1, app_assoc|].
        rewrite putManifests_app, (putManifests_printf _ Hp1),
          (putManifests_blobPhase _ Hp2). reflexivity. }
    destruct (copyLayers_emits lib _ _ _ _ Hlay) as (evs2 & Hl2 & Hp2).
    destruct (copyLayers_same _ _ _ _ Hlay) as (_ & Hc4 & _).
    destruct (copyLayers_keeps_type _ _ _ _ Hlay) as [Hm4 _].
    rewrite bind_Err with (e := New "Internal error: copy needs an updated manifest but that was known to be forbidden") (w1 := w2) in Hrun.
    2:{ apply commitManifest_forbidden; [congruence|].
        intros Heq. apply Hconv. rewrite <- Hm3, <- Hm4, Heq. reflexivity. }
    injection Hrun as <- <-. split; [reflexivity|].
    exists (evs1 ++ evs2). split; [by rewrite Hl2, Hl1, app_assoc|].
    rewrite putManifests_app, (putManifests_printf _ Hp1),
      (putManifests_blobPhase _ Hp2). reflexivity.
Qed.

(** With a target instance, every manifest is stored under an instance
    digest. *)
Lemma copyUpdatedConfigAndManifest_instance ic (instance : string) :
  emitsOnly (putsOnly (fun _ i => i <> None))
    (copyUpdatedConfigAndManifest lib ic (Some instance)).
Proof.
  unfold copyUpdatedConfigAndManifest.
  apply emitsOnly_bind; [emits|]. intros pendingImage.
  apply emitsOnly_bind; [emits|]. intros read.
  apply emitsOnly_bind; [emits|]. intros _.
  apply emitsOnly_bind; [unfold Printf; emits; exact I|]. intros _.
  apply (emitsOnly_bind_post _ (fun i => i <> None)).
  { intros w a w' Hrun.
    apply bind_run in Hrun as [(tmp & w1 & _ & Hret)|(e & _ & ?)]; [|discriminate].
    injection Hret as <- _. discriminate. }
  { emits. }
  intros i Hi. unfold destPutManifest. emits; exact I || exact Hi.
Qed.
#[local] Hint Resolve copyUpdatedConfigAndManifest_instance : emits.

Lemma tryOtherCandidates_instance ic (instance : string) candidates errs :
  emitsOnly (putsOnly (fun _ i => i <> None))
    (tryOtherCandidates lib ic (Some instance) candidates errs).
Proof.
  revert ic errs. induction candidates as [|t rest IH]; intros ic errs; simpl; [emits|].
  apply emitsOnly_try; [emits|]. intros [m|e]; [emits | apply IH].
Qed.
#[local] Hint Resolve tryOtherCandidates_instance : emits.

Lemma commitManifest_instance ic (instance : string) preferred others :
  emitsOnly (putsOnly (fun _ i => i <> None))
    (commitManifest lib ic (Some instance) preferred others).
Proof. unfold commitManifest. emits. Qed.
#[local] Hint Resolve commitManifest_instance : emits.

Lemma copyOneImage_instance c policyContext options u si (instance : string) :
  emitsOnly (putsOnly (fun _ i => i <> None))
    (copyOneImage lib c policyContext options u si (Some instance)).
Proof.
  unfold copyOneImage, copyOneImageLayersAndManifest, updateEmbeddedDockerReference,
    signIfAsked, Printf, destPutSignatures.
  emits; exact I.
Qed.
#[local] Hint Resolve copyOneImage_instance : emits.

Lemma copyInstances_instance c policyContext options instanceBlobs :
  emitsOnly (putsOnly (fun _ i => i <> None))
    (copyInstances lib c policyContext options instanceBlobs).
Proof.
  induction instanceBlobs as [|instance rest IH]; simpl; emits.
Qed.

(** With the signatures of the list carried over, [copyMultipleImages]
    hands no list to [PutManifest] but that of the source. *)
Lemma copyMultipleImages_signed_emits c policyContext options (toplevel : UnparsedImage)
    (listBytes : list byte) (listType : string) (sigs : list (list byte)) :
  unparsedManifest toplevel = OK (listBytes, listType) ->
  RemoveSignatures options = false ->
  GetSignatures (rawSource c) None = OK sigs ->
  sigs <> [] ->
  emitsOnly (putsOnly (fun m i => i = None -> m = listBytes))
    (copyMultipleImages lib c policyContext options toplevel).
Proof.
  intros Hman Hkeep Hsigs Hne. unfold copyMultipleImages.
  rewrite Hman, Hkeep, Hsigs. simpl.
  assert (Hlen : (length sigs =? 0)%nat = false) by (destruct sigs; [congruence|reflexivity]).
  apply (emitsOnly_bind_post _ (fun a => a = (listBytes, listType)));
    [intros w a w'; by intros [= -> _] | emits | intros ? ->].
  apply emitsOnly_bind; [emits|]. intros list.
  apply (emitsOnly_bind_post _ (fun a => a = sigs)).
  { intros w a w' Hrun. unfold Printf, bind, emit, liftR in Hrun. by injection Hrun as -> _. }
  { unfold Printf. emits. exact I. }
  intros ? ->. rewrite Hlen. simpl.
  apply emitsOnly_bind; [unfold Printf; emits; exact I|]. intros _.
  apply emitsOnly_bind.
  { eapply emitsOnly_weaken; [|apply copyInstances_instance].
    intros [] He; simpl in *; try exact I. congruence. }
  intros updates.
  apply emitsOnly_bind; [emits|]. intros list'.
  apply emitsOnly_bind; [emits|]. intros d.
  apply emitsOnly_bind; [emits|]. intros selected.
  apply emitsOnly_bind; [emits|]. intros [list'' modified].
  apply (emitsOnly_bind_post _ (fun a => a = listBytes)).
  { intros w a w'. destruct modified; [discriminate | by intros [= -> _]]. }
  { emits. }
  intros ? ->.
  apply emitsOnly_bind; [apply emitsOnly_wrapM, destPutManifest_emits; by simpl|].
  intros _.
  apply emitsOnly_bind; [apply signIfAsked_emits|]. intros sigs'.
  apply emitsOnly_bind; [apply Printf_emits; exact I|]. intros _.
  apply emitsOnly_wrapM, destPutSignatures_emits. exact I.
Qed.

(** A negotiation that records no media type leaves the image copier of a
    signed image as it was. *)
Lemma determineManifestConversion_unrecorded c (img : TypesImage)
    (supported : list string) (force : string) negotiated ic2 :
  determineManifestConversion (newImageCopier c img false) supported force
  = OK (negotiated, ic2) ->
  ManifestMIMEType (manifestUpdates ic2) = EmptyString ->
  ic2 = newImageCopier c img false.
Proof.
  unfold determineManifestConversion. simpl.
  destruct (imgManifest img) as [[m srcType]|e]; [|discriminate].
  destruct (if bool_decide (force <> EmptyString) then [force] else supported)
    as [|t0 rest]; [by intros [= _ <-]|].
  destruct (appendUnique _ _) as [|preferred others]; [discriminate|].
  destruct (bool_decide (preferred <> srcType)); [|by intros [= _ <-]].
  intros [= _ <-]. simpl. intros ->. reflexivity.
Qed.

(** A signed image whose manifest needs none of the rewrites of
    [rewriteRequired]: [copyOneImage] fails before the layers, having printed
    at most, or goes on to the layers with [signedCopier], in the world
    [afterSignatureChecks]. *)
Lemma copyOneImage_signed_reaches_layers c policyContext options u si ti
    (img : TypesImage) (sigs : list (list byte)) w r w' :
  FromUnparsedImage u = OK img ->
  policyContext u = (true, None) ->
  RemoveSignatures options = false ->
  imgSignatures img = OK sigs ->
  sigs <> [] ->
  rewriteRequired c img options (destState w) = false ->
  copyOneImage lib c policyContext options u si ti w = (r, w') ->
  (isOK r = false /\ exists evs, log w' = log w ++ evs /\ Forall printfEvent evs)
  \/ exists preferred others,
       copyOneImageLayersAndManifest lib c options ti sigs (signedCopier c img)
         preferred others (afterSignatureChecks w) = (r, w').
Proof.
  intros Hsrc Hpol Hkeep Hsigs Hne Hreq Hrun. unfold copyOneImage in Hrun.
  assert (Hstop0 : forall e (w0 : World D), w0 = w ->
            isOK (Err e : result (list byte * string)) = false
            /\ exists evs, log w0 = log w ++ evs /\ Forall printfEvent evs).
  { intros e w0 ->. split; [reflexivity|]. exists []. by rewrite app_nil_r. }
  apply bind_run in Hrun as [(multi & w0 & Hm & Hrun)|(e & Hm & ->)].
  2:{ left. injection Hm as _ <-. by apply Hstop0. }
  apply liftR_OK in Hm as [_ ->].
  destruct multi; [left; injection Hrun as <- <-; by apply Hstop0|].
  rewrite Hpol, Hsrc in Hrun. simpl in Hrun.
  unfold bind at 1 in Hrun. simpl in Hrun. unfold bind at 1 in Hrun. simpl in Hrun.
  destruct (checkImageDestinationForCurrentRuntimeOS lib (DestinationCtx options) img
              (dest c) (destState w)) as [osErr|] eqn:Hos.
  { simpl in Hrun. unfold bind at 1 in Hrun. simpl in Hrun.
    left. injection Hrun as <- <-. by apply Hstop0. }
  simpl in Hrun. unfold bind at 1 in Hrun. simpl in Hrun.
  rewrite Hkeep, Hsigs in Hrun.
  unfold bind at 1 in Hrun. unfold bind at 1 in Hrun. simpl in Hrun.
  assert (Hlen : (length sigs =? 0)%nat = false) by (by destruct sigs).
  rewrite Hlen in Hrun. simpl in Hrun.
  unfold bind at 1 in Hrun. unfold bind at 1 in Hrun. simpl in Hrun.
  unfold bind at 1 in Hrun. simpl in Hrun.
  destruct (SupportsSignatures (dest c) (destState w)) as [e|].
  { simpl in Hrun. left. injection Hrun as <- <-. split; [reflexivity|].
    eexists [_; _]. simpl. split; [by rewrite <- app_assoc|]. by repeat constructor. }
  simpl in Hrun. fold (afterSignatureChecks w) in Hrun.
  change {| destState := destState w; cachedDiffIDs := cachedDiffIDs w;
            log := (log w ++ [EvPrintf ("Getting image source signatures" +:+ nl)])
                   ++ [EvPrintf ("Checking if image destination supports signatures"
                                 +:+ nl)] |}
    with (afterSignatureChecks w) in Hrun.
  assert (Hafter : isOK (Err (New EmptyString) : result (list byte * string)) = false
                   /\ exists evs, log (afterSignatureChecks w) = log w ++ evs
                                  /\ Forall printfEvent evs).
  { split; [reflexivity|]. eexists [_; _]. simpl. split; [by rewrite <- app_assoc|].
    by repeat constructor. }
  destruct Hafter as [_ Hafter].
  unfold rewriteRequired in Hreq.
  apply orb_false_iff in Hreq as [Hreq Hconv]. apply orb_false_iff in Hreq as [Hconf Hsub].
  apply bind_run in Hrun as [(ic1 & w3 & Hemb & Hrun)|(e & Hemb & ->)].
  2:{ left. apply updateEmbeddedDockerReference_world in Hemb as ->. by split. }
  pose proof (updateEmbeddedDockerReference_world _ _ _ _ Hemb) as ->.
  apply updateEmbeddedDockerReference_unmodifiable in Hemb as [-> _]; [|reflexivity].
  apply bind_run in Hrun as [(d & w3 & Hd & Hrun)|(e & Hd & ->)]; [|discriminate].
  injection Hd as <- <-.
  apply bind_run in Hrun as [(negotiated & w3 & Hneg & Hrun)|(e & Hneg & ->)].
  2:{ left. injection Hneg as _ <-. by split. }
  apply liftR_OK in Hneg as [Hneg ->].
  destruct negotiated as [[preferred others] ic2].
  change (determineManifestConversion (newImageCopier c img false)
            (SupportedManifestMIMETypes (dest c) (destState w))
            (ForceManifestMIMEType options) = OK (preferred, others, ic2)) in Hneg.
  rewrite Hneg in Hconv. apply bool_decide_eq_false in Hconv.
  assert (Hnone : ManifestMIMEType (manifestUpdates ic2) = EmptyString).
  { destruct (decide (ManifestMIMEType (manifestUpdates ic2) = EmptyString)); tauto. }
  pose proof (determineManifestConversion_unrecorded _ _ _ _ _ _ Hneg Hnone) as ->.
  right. exists preferred, others. exact Hrun.
Qed.

(** Layers of a signed image that come back under other digests: the copy
    fails without a call of [PutManifest]. *)
Lemma copyOneImage_layers_renamed c policyContext options u si ti
    (img : TypesImage) (sigs : list (list byte)) w r w' :
  FromUnparsedImage u = OK img ->
  policyContext u = (true, None) ->
  RemoveSignatures options = false ->
  imgSignatures img = OK sigs ->
  sigs <> [] ->
  rewriteRequired c img options (destState w) = false ->
  layersRenamed lib c img w = true ->
  copyOneImage lib c policyContext options u si ti w = (r, w') ->
  isOK r = false /\ exists evs, log w' = log w ++ evs /\ putManifests evs = [].
Proof.
  intros Hsrc Hpol Hkeep Hsigs Hne Hreq Hren Hrun.
  apply (copyOneImage_signed_reaches_layers c policyContext options u si ti img sigs)
    in Hrun as [(Hfail & evs & Hlog & Hevs)|(preferred & others & Hrun)];
    try assumption.
  { split; [exact Hfail|]. exists evs. split; [exact Hlog|by apply putManifests_printf]. }
  unfold layersRenamed in Hren. unfold copyOneImageLayersAndManifest in Hrun.
  destruct (copyLayers lib (signedCopier c img) (afterSignatureChecks w))
    as [[ic'|e] w2] eqn:Hlay; [|discriminate].
  apply bool_decide_eq_true in Hren.
  rewrite (bind_OK _ _ _ _ _ Hlay) in Hrun.
  destruct (copyLayers_same _ _ _ _ Hlay) as (_ & Hcan & _).
  destruct (copyLayers_emits lib _ _ _ _ Hlay) as (evs2 & Hl2 & Hp2).
  rewrite bind_Err with (e := New "Internal error: copy needs an updated manifest but that was known to be forbidden") (w1 := w2) in Hrun.
  2:{ apply commitManifest_forbidden; [exact Hcan|].
      intros Heq. apply Hren. by rewrite Heq. }
  injection Hrun as <- <-. split; [reflexivity|].
  exists ([EvPrintf ("Getting image source signatures" +:+ nl);
           EvPrintf ("Checking if image destination supports signatures" +:+ nl)]
          ++ evs2).
  split; [rewrite Hl2; simpl; by rewrite <- !app_assoc|].
  rewrite putManifests_app, (putManifests_blobPhase _ Hp2). reflexivity.
Qed.

(** A signed list that has to change: [copyMultipleImages] fails, and no
    list was handed to [PutManifest]. *)
Lemma copyMultipleImages_signed_change c policyContext options
    (toplevel : UnparsedImage) (listBytes : list byte) (listType : string)
    (sigs : list (list byte)) w r w' :
  unparsedManifest toplevel = OK (listBytes, listType) ->
  RemoveSignatures options = false ->
  GetSignatures (rawSource c) None = OK sigs ->
  sigs <> [] ->
  listChangeRequired lib c policyContext options listBytes listType w = true ->
  copyMultipleImages lib c policyContext options toplevel w = (r, w') ->
  isOK r = false
  /\ exists evs, log w' = log w ++ evs
                 /\ Forall (putsOnly (fun _ i => i <> None)) evs.
Proof.
  intros Hman Hkeep Hsigs Hne Hreq Hrun. unfold listChangeRequired in Hreq.
  destruct (ListFromBlob lib listBytes listType) as [list|e] eqn:Hlist; [|discriminate].
  destruct (copyInstances lib c policyContext options (listInstances list)
              (afterListSignatureChecks w)) as [[updates|e] w1] eqn:Hinst;
    [|discriminate].
  destruct (UpdateInstances lib list updates) as [list'|e] eqn:Hupd; [|discriminate].
  unfold copyMultipleImages in Hrun.
  rewrite Hman, Hkeep, Hsigs in Hrun. simpl in Hrun.
  unfold bind at 1 in Hrun. simpl in Hrun. rewrite Hlist in Hrun. simpl in Hrun.
  unfold bind at 1 in Hrun. simpl in Hrun.
  unfold bind at 1 in Hrun. unfold bind at 1 in Hrun. simpl in Hrun.
  assert (Hlen : (length sigs =? 0)%nat = false) by (by destruct sigs).
  rewrite Hlen in Hrun. simpl in Hrun.
  unfold bind at 1 in Hrun. unfold bind at 1 in Hrun. simpl in Hrun.
  unfold bind at 1 in Hrun. simpl in Hrun.
  destruct (SupportsSignatures (dest c) (destState w)) as [e|].
  { simpl in Hrun. injection Hrun as <- <-. split; [reflexivity|].
    eexists [_; _]. simpl. split; [by rewrite <- app_assoc|]. by repeat constructor. }
  simpl in Hrun.
  change {| destState := destState w; cachedDiffIDs := cachedDiffIDs w;
            log := (log w ++ [EvPrintf ("Getting image list signatures" +:+ nl)])
                   ++ [EvPrintf ("Checking if image list destination supports signatures"
                                 +:+ nl)] |}
    with (afterListSignatureChecks w) in Hrun.
  rewrite (bind_OK _ _ _ _ _ Hinst) in Hrun.
  apply copyInstances_instance in Hinst as (evs1 & Hlog1 & Hevs1).
  assert (Hdone : isOK r = false /\ w' = w1).
  { rewrite Hupd in Hrun. simpl in Hrun.
    unfold bind at 1 in Hrun. simpl in Hrun. unfold bind at 1 in Hrun. simpl in Hrun.
    unfold bind at 1 in Hrun. simpl in Hrun.
    destruct (determineListConversion listType _ EmptyString) as [selected|e];
      simpl in Hrun; [|by injection Hrun as <- <-].
    destruct (bool_decide (fst selected <> listMIMEType list')) eqn:Htype.
    - destruct (bool_decide (fst selected = DockerV2ListMediaType)).
      + unfold bind at 1 in Hrun. unfold bind at 1 in Hrun. simpl in Hrun.
        destruct (ToSchema2List lib list'); simpl in Hrun;
          [|by injection Hrun as <- <-].
        unfold bind at 1 in Hrun. simpl in Hrun. rewrite ?Hlen in Hrun.
        simpl in Hrun. by injection Hrun as <- <-.
      + destruct (bool_decide (fst selected = MediaTypeImageIndex)).
        * unfold bind at 1 in Hrun. unfold bind at 1 in Hrun. simpl in Hrun.
          destruct (ToOCI1Index lib list'); simpl in Hrun;
            [|by injection Hrun as <- <-].
          unfold bind at 1 in Hrun. simpl in Hrun. rewrite ?Hlen in Hrun.
          simpl in Hrun. by injection Hrun as <- <-.
        * unfold bind at 1 in Hrun. simpl in Hrun. by injection Hrun as <- <-.
    - rewrite orb_false_r in Hreq. rewrite Hreq in Hrun.
      unfold bind at 1 in Hrun. simpl in Hrun.
      unfold bind at 1 in Hrun. simpl in Hrun. rewrite ?Hlen in Hrun.
      simpl in Hrun. by injection Hrun as <- <-. }
  destruct Hdone as [Hfail ->]. split; [exact Hfail|].
  exists ([EvPrintf ("Getting image list signatures" +:+ nl);
           EvPrintf ("Checking if image list destination supports signatures" +:+ nl)]
          ++ evs1).
  split; [rewrite Hlog1; simpl; by rewrite <- !app_assoc|].
  apply Forall_app. split; [by repeat constructor|exact Hevs1].
Qed.

(** C4, as the code has it.  With signatures carried over, the manifest they
    cover is never rewritten.  For one image: whatever [copyOneImage] hands
    to [PutManifest] is the manifest of the source, and when the copy has to
    rewrite the manifest (embedded reference, layers substituted by the
    source, another media type, or layers that the destination returns under
    other digests) it fails without a call of [PutManifest].  For a list: the
    only list that [copyMultipleImages] hands to [PutManifest] is that of the
    source, and when the list has to change (its instances as the copies
    report them, or its type) the copy fails and no list was handed to
    [PutManifest]; the manifests of the instances are stored before that. *)
Theorem signed_manifests_are_not_rewritten :
  (forall c policyContext options u si ti (img : TypesImage) (sigs : list (list byte))
          w r w',
      FromUnparsedImage u = OK img ->
      policyContext u = (true, None) ->
      RemoveSignatures options = false ->
      imgSignatures img = OK sigs ->
      sigs <> [] ->
      copyOneImage lib c policyContext options u si ti w = (r, w') ->
      exists evs,
        log w' = log w ++ evs
        /\ Forall (fun stored => isManifestOf img (fst stored)) (putManifests evs)
        /\ (if rewriteRequired c img options (destState w) || layersRenamed lib c img w
            then isOK r = false /\ putManifests evs = []
            else True))
  /\ (forall c policyContext options (toplevel : UnparsedImage) (listBytes : list byte)
             (listType : string) (sigs : list (list byte)) w r w',
         unparsedManifest toplevel = OK (listBytes, listType) ->
         RemoveSignatures options = false ->
         GetSignatures (rawSource c) None = OK sigs ->
         sigs <> [] ->
         copyMultipleImages lib c policyContext options toplevel w = (r, w') ->
         exists evs,
           log w' = log w ++ evs
           /\ Forall (fun stored => snd stored = None -> fst stored = listBytes)
                (putManifests evs)
           /\ (if listChangeRequired lib c policyContext options listBytes listType w
               then isOK r = false
                    /\ Forall (fun stored => snd stored <> None) (putManifests evs)
               else True)).
Proof.
  split.
  - intros c policyContext options u si ti img sigs w r w' Hsrc Hpol Hkeep Hsigs Hne Hrun.
    destruct (copyOneImage_signed_emits c policyContext options u si ti img sigs
                Hsrc Hkeep Hsigs Hne _ _ _ Hrun) as (evs & Hlog & Hevs).
    exists evs. split; [exact Hlog|]. split.
    + apply Forall_forall. intros [m i] Hin.
      exact (putManifests_putsOnly _ _ _ _ Hevs Hin).
    + destruct (rewriteRequired c img options (destState w)) eqn:Hreq; simpl.
      * destruct (copyOneImage_rewrite_required c policyContext options u si ti img sigs
                    w r w' Hsrc Hpol Hkeep Hsigs Hne Hreq Hrun)
          as (Hr & evs' & Hlog' & Hputs).
        rewrite Hlog in Hlog'. apply app_inv_head in Hlog'. subst evs'. auto.
      * destruct (layersRenamed lib c img w) eqn:Hren; [|exact I].
        destruct (copyOneImage_layers_renamed c policyContext options u si ti img sigs
                    w r w' Hsrc Hpol Hkeep Hsigs Hne Hreq Hren Hrun)
          as (Hr & evs' & Hlog' & Hputs).
        rewrite Hlog in Hlog'. apply app_inv_head in Hlog'. subst evs'. auto.
  - intros c policyContext options toplevel listBytes listType sigs w r w'
      Hman Hkeep Hsigs Hne Hrun.
    destruct (copyMultipleImages_signed_emits c policyContext options toplevel listBytes
                listType sigs Hman Hkeep Hsigs Hne _ _ _ Hrun) as (evs & Hlog & Hevs).
    exists evs. split; [exact Hlog|]. split.
    + apply Forall_forall. intros [m i] Hin.
      exact (putManifests_putsOnly _ _ _ _ Hevs Hin).
    + destruct (listChangeRequired lib c policyContext options listBytes listType w)
        eqn:Hreq; [|exact I].
      destruct (copyMultipleImages_signed_change c policyContext options toplevel
                  listBytes listType sigs w r w' Hman Hkeep Hsigs Hne Hreq Hrun)
        as (Hr & evs' & Hlog' & Hputs).
      rewrite Hlog in Hlog'. apply app_inv_head in Hlog'. subst evs'.
      split; [exact Hr|]. apply Forall_forall. intros [m i] Hin.
      exact (putManifests_putsOnly _ _ _ _ Hputs Hin).
Qed.

End SignatureFacts.

(** ** Copies that leave the manifest alone *)

Section PreservationFacts.
Context {D : Type} (lib : Libraries).
Implicit Types (w : World D) (ic : imageCopier D) (c : copier D).

Lemma copyLayer_keeps_digest ic (srcInfo : BlobInfo) w blobInfo diffID w' :
  storesLayersAsTheyAre lib (dest (c ic)) ->
  copyLayer lib ic srcInfo w = (OK (blobInfo, diffID), w') ->
  Digest blobInfo = Digest srcInfo.
Proof.
  intros (Hval & Hcompress & Hreapply) Hrun. unfold copyLayer in Hrun.
  apply bind_run in Hrun as [([haveBlob extant] & w1 & _ & Hrun)|(e & _ & ?)];
    [|discriminate].
  apply bind_run in Hrun as [(cached & w2 & _ & Hrun)|(e & _ & ?)]; [|discriminate].
  destruct (haveBlob && negb _).
  - (* the blob is there *)
    destruct (bool_decide (Size srcInfo <> -1) && _); [discriminate|].
    apply bind_run in Hrun as [(blobinfo & w3 & Hre & Hrun)|(e & _ & ?)]; [|discriminate].
    apply bind_run in Hrun as [([] & w4 & _ & Hrun)|(e & _ & ?)]; [|discriminate].
    apply bind_run in Hrun as [(cached' & w5 & _ & Hrun)|(e & _ & ?)]; [|discriminate].
    injection Hrun as <- _ _.
    unfold wrapM, destReapplyBlob, bind, emit, getDest in Hre. simpl in Hre.
    destruct (ReapplyBlob _ _ _) as [[bi|e] d'] eqn:Hcall; simpl in Hre; [|discriminate].
    injection Hre as <- _. exact (Hreapply _ _ _ _ Hcall).
  - (* the blob is fetched *)
    apply bind_run in Hrun as [([] & w3 & _ & Hrun)|(e & _ & ?)]; [|discriminate].
    apply bind_run in Hrun as [([srcStream srcBlobSize] & w4 & _ & Hrun)|(e & _ & ?)];
      [|discriminate].
    apply bind_run in Hrun as [([bi chan] & w5 & Hcopy & Hrun)|(e & _ & ?)];
      [|discriminate].
    assert (blobInfo = bi) as ->.
    { destruct chan as [dr|]; [destruct (err dr)|]; try discriminate.
      - apply bind_run in Hrun as [(cached' & w6 & _ & Hrun)|(e & _ & ?)]; [|discriminate].
        apply bind_run in Hrun as [([] & w7 & _ & Hrun)|(e & _ & ?)]; [|discriminate].
        by injection Hrun as <- _ _.
      - by injection Hrun as <- _ _. }
    unfold copyLayerFromStream in Hcopy.
    pose proof (copyBlobFromStream_OK_nonempty lib _ _ _ _ _ _ _ _ Hval Hcopy) as Hne.
    apply (copyBlobFromStream_uncompressed_digest lib _ _ _ _ _ _ _ _ _) in Hcopy;
      [exact Hcopy | | exact Hne].
    rewrite Hcompress. apply orb_true_r.
Qed.

Lemma copyLayersBody_keeps_digest ic (srcLayer : BlobInfo) w destInfo diffID w' :
  storesLayersAsTheyAre lib (dest (c ic)) ->
  copyLayersBody lib ic srcLayer w = (OK (destInfo, diffID), w') ->
  Digest destInfo = Digest srcLayer.
Proof.
  intros Hkeeps Hrun. unfold copyLayersBody in Hrun.
  apply bind_run in Hrun as [(d & w1 & _ & Hrun)|(e & _ & ?)]; [|discriminate].
  destruct (AcceptsForeignLayerURLs _ _ && _).
  - destruct (diffIDsAreNeeded ic); [discriminate|].
    apply bind_run in Hrun as [([] & w2 & _ & Hrun)|(e & _ & ?)]; [|discriminate].
    by injection Hrun as <- _ _.
  - exact (copyLayer_keeps_digest _ _ _ _ _ _ Hkeeps Hrun).
Qed.

Lemma copyLayersLoop_keeps_digests ic (srcInfos destInfos : list BlobInfo)
    (diffIDs : list string) w destInfos' diffIDs' w' :
  storesLayersAsTheyAre lib (dest (c ic)) ->
  copyLayersLoop lib ic srcInfos destInfos diffIDs w = (OK (destInfos', diffIDs'), w') ->
  exists added, destInfos' = destInfos ++ added
                /\ map Digest added = map Digest srcInfos.
Proof.
  intros Hkeeps. revert destInfos diffIDs w.
  induction srcInfos as [|srcLayer rest IH]; intros destInfos diffIDs w Hrun; simpl in Hrun.
  - injection Hrun as <- _ _. exists []. by rewrite app_nil_r.
  - apply bind_run in Hrun as [([destInfo diffID] & w1 & Hbody & Hrun)|(e & _ & ?)];
      [|discriminate].
    apply IH in Hrun as (added & -> & Hdigests).
    exists (destInfo :: added). split; [by rewrite <- app_assoc|].
    simpl. f_equal; [|exact Hdigests].
    exact (copyLayersBody_keeps_digest _ _ _ _ _ _ Hkeeps Hbody).
Qed.

Lemma layerDigestsDiffer_same (a b : list BlobInfo) :
  map Digest b = map Digest a -> layerDigestsDiffer a b = false.
Proof.
  intros Hmap. unfold layerDigestsDiffer.
  assert (Hlen : length a = length b)
    by (rewrite <- (length_map Digest a), <- Hmap; apply length_map).
  rewrite bool_decide_eq_false_2 by (intros Hne; apply Hne; exact Hlen).
  clear Hlen. revert b Hmap. induction a as [|x a IH]; intros [|y b] Hmap;
    try discriminate; [reflexivity|].
  injection Hmap as Hd Hmap. simpl.
  rewrite bool_decide_eq_false_2 by (intros Hne; apply Hne; congruence).
  by apply IH.
Qed.

(** Layers that keep their digests, and no substitution by the source:
    [copyLayers] records information only. *)
Lemma copyLayers_records_information_only ic w ic' w' :
  storesLayersAsTheyAre lib (dest (c ic)) ->
  bool_decide (imgLayerInfosForCopy (src ic) <> None)
  && bool_decide (imgLayerInfos (src ic) <> imgLayerInfosForCopy (src ic)) = false ->
  manifestUpdates ic = onlyInformation (InformationOnly (manifestUpdates ic)) ->
  copyLayers lib ic w = (OK ic', w') ->
  manifestUpdates ic' = onlyInformation (InformationOnly (manifestUpdates ic')).
Proof.
  intros Hkeeps Hsub Htrivial Hrun. unfold copyLayers in Hrun. rewrite Hsub in Hrun.
  apply bind_run in Hrun as [([srcInfos updated] & w1 & Hchosen & Hrun)|(e & _ & ?)];
    [|discriminate].
  injection Hchosen as <- <- <-.
  apply bind_run in Hrun as [([destInfos diffIDs] & w2 & Hloop & Hrun)|(e & _ & ?)];
    [|discriminate].
  apply copyLayersLoop_keeps_digests in Hloop as (added & -> & Hdigests); [|exact Hkeeps].
  injection Hrun as <- _. simpl.
  rewrite (layerDigestsDiffer_same _ _ Hdigests). simpl.
  rewrite Htrivial. reflexivity.
Qed.

Lemma updateEmbeddedDockerReference_no_conflict ic w ic' w' :
  match DockerReference (dest (c ic)) (destState w) with
  | Some destRef => imgEmbeddedDockerReferenceConflicts (src ic) destRef
  | None => false
  end = false ->
  updateEmbeddedDockerReference ic w = (OK ic', w') -> ic' = ic.
Proof.
  intros Hquiet. unfold updateEmbeddedDockerReference, bind, getDest. simpl.
  destruct (DockerReference _ _) as [destRef|]; [|by intros [= <- _]].
  rewrite Hquiet. simpl. by intros [= <- _].
Qed.

Lemma appendUnique_extends (seen l : list string) :
  exists more, appendUnique seen l = seen ++ more.
Proof.
  revert seen. induction l as [|t rest IH]; intros seen; simpl.
  - exists []. by rewrite app_nil_r.
  - destruct (bool_decide (t ∈ seen)); [apply IH|].
    destruct (IH (seen ++ [t])) as (more & ->).
    exists (t :: more). by rewrite <- app_assoc.
Qed.

Lemma appendUnique_NoDup (seen l : list string) :
  NoDup seen -> NoDup (appendUnique seen l).
Proof.
  revert seen. induction l as [|t rest IH]; intros seen Hseen; simpl; [exact Hseen|].
  apply IH. case_bool_decide as Hin; [exact Hseen|].
  apply NoDup_app. split; [exact Hseen|]. split.
  - intros x Hx Hxt. apply list_elem_of_singleton in Hxt as ->. exact (Hin Hx).
  - apply NoDup_singleton.
Qed.

(** A supported source type, and no forced type: the negotiation prefers the
    type of the source, records nothing, and keeps that type out of the
    fallbacks. *)
Lemma determineManifestConversion_supported ic (supported : list string)
    (manifest : list byte) (srcType preferred : string) (others : list string) ic' :
  imgManifest (src ic) = OK (manifest, srcType) ->
  srcType ∈ supported ->
  determineManifestConversion ic supported EmptyString = OK ((preferred, others), ic') ->
  preferred = srcType /\ ic' = ic /\ srcType ∉ others.
Proof.
  intros Hman Hin. unfold determineManifestConversion. rewrite Hman.
  rewrite bool_decide_eq_false_2 by (intros Hne; by apply Hne).
  destruct supported as [|t0 rest]; [by apply elem_of_nil in Hin|].
  rewrite (bool_decide_eq_true_2 _ Hin).
  pose proof (appendUnique_extends [srcType]
                (prioritized preferredManifestMIMETypes (t0 :: rest))) as (more & Hext).
  pose proof (appendUnique_NoDup [srcType]
                (prioritized preferredManifestMIMETypes (t0 :: rest))
                (NoDup_singleton srcType)) as Hnodup.
  rewrite Hext in Hnodup |- *. simpl.
  rewrite bool_decide_eq_false_2 by (intros Hne; by apply Hne).
  intros [= <- <- <-]. split; [reflexivity|]. split; [reflexivity|].
  by apply NoDup_cons in Hnodup as [Hnot _].
Qed.

Lemma putManifests_quiet (evs : list Event) :
  Forall quietEvent evs -> putManifests evs = [].
Proof.
  induction 1 as [|e evs He _ IH]; [reflexivity|].
  destruct e; simpl; try exact IH. discriminate He.
Qed.

Lemma blobPhaseEvent_quiet (e : Event) : blobPhaseEvent e -> quietEvent e.
Proof. by destruct e. Qed.

Lemma printfEvent_quiet (e : Event) : printfEvent e -> quietEvent e.
Proof. by destruct e. Qed.

(** What follows the manifest in [copyOneImage], the signatures, does not
    call [PutManifest]. *)
Lemma signatures_quiet c options (manifest : list byte) (sigs : list (list byte))
    ti (stored : list byte * string) :
  emitsOnly quietEvent
    (sigs <- signIfAsked lib options manifest sigs ;;
     Printf ("Storing signatures" +:+ nl) ;;;
     wrapM (destPutSignatures c sigs ti) "Error writing signatures" ;;;
     ret stored).
Proof.
  apply emitsOnly_bind; [apply signIfAsked_emits|]. intros sigs'.
  apply emitsOnly_bind; [by apply Printf_emits|]. intros [].
  apply emitsOnly_bind; [|intros []; apply emitsOnly_ret].
  apply emitsOnly_wrapM. by apply destPutSignatures_emits.
Qed.

Lemma destPutManifest_log c (m : list byte) (i : option string) w r w' :
  destPutManifest c m i w = (r, w') -> log w' = log w ++ [EvPutManifest m i].
Proof.
  unfold destPutManifest, bind, emit, getDest, putDest, check. simpl.
  destruct (PutManifest _ _ _ _) as [[e|] d']; by intros [= _ <-].
Qed.

(** Nothing to update: the manifest of the source is stored as it is, in
    one call of [PutManifest]. *)
Lemma copyUpdatedConfigAndManifest_as_is ic ti (manifest : list byte) (t : string)
    w m w' :
  manifestUpdates ic = onlyInformation (InformationOnly (manifestUpdates ic)) ->
  imgManifest (src ic) = OK (manifest, t) ->
  copyUpdatedConfigAndManifest lib ic ti w = (OK m, w') ->
  m = manifest
  /\ exists evs i, log w' = log w ++ evs /\ putManifests evs = [(manifest, i)].
Proof.
  intros Htrivial Hman Hrun. unfold copyUpdatedConfigAndManifest in Hrun.
  rewrite bool_decide_eq_false_2 in Hrun by (intros Hne; by apply Hne).
  apply bind_run in Hrun as [(pending & w1 & Hpending & Hrun)|(e & _ & ?)];
    [|discriminate].
  injection Hpending as <- <-. rewrite Hman in Hrun.
  apply bind_run in Hrun as [(read & w2 & Hread & Hrun)|(e & _ & ?)]; [|discriminate].
  injection Hread as <- <-.
  apply bind_run in Hrun as [([] & w3 & Hconfig & Hrun)|(e & _ & ?)]; [|discriminate].
  apply bind_run in Hrun as [([] & w4 & Hprintf & Hrun)|(e & _ & ?)]; [|discriminate].
  apply bind_run in Hrun as [(i & w5 & Hdigest & Hrun)|(e & _ & ?)]; [|discriminate].
  apply bind_run in Hrun as [([] & w6 & Hput & Hrun)|(e & _ & ?)]; [|discriminate].
  injection Hrun as <- <-. split; [reflexivity|].
  apply copyConfig_emits in Hconfig as (evs1 & Hlog1 & Hevs1).
  apply (Printf_emits quietEvent) in Hprintf as (evs2 & Hlog2 & Hevs2); [|reflexivity].
  assert (w5 = w4) as ->.
  { destruct ti as [instance|]; [|by injection Hdigest as _ <-].
    apply bind_run in Hdigest as [(tmp & w' & Hd & Hret)|(e & _ & ?)]; [|discriminate].
    apply liftR_OK in Hd as [_ ->]. by injection Hret as _ <-. }
  unfold wrapM in Hput.
  destruct (destPutManifest _ _ _ _) as [r6 w6'] eqn:Hcall. injection Hput as _ <-.
  apply destPutManifest_log in Hcall.
  exists (evs1 ++ evs2 ++ [EvPutManifest manifest i]), i. split.
  - rewrite Hcall, Hlog2, Hlog1. by rewrite <- !app_assoc.
  - rewrite !putManifests_app, (putManifests_blobPhase _ Hevs1),
      (putManifests_quiet _ Hevs2). reflexivity.
Qed.

Lemma copyUpdatedConfigAndManifest_appends ic ti :
  emitsOnly (fun _ => True) (copyUpdatedConfigAndManifest lib ic ti).
Proof.
  unfold copyUpdatedConfigAndManifest.
  apply emitsOnly_bind; [emits|]. intros pending.
  apply emitsOnly_bind; [emits|]. intros read.
  apply emitsOnly_bind;
    [apply (emitsOnly_weaken blobPhaseEvent); [done|apply copyConfig_emits]|].
  intros [].
  apply emitsOnly_bind; [by apply Printf_emits|]. intros [].
  apply emitsOnly_bind; [emits|]. intros i.
  apply emitsOnly_bind; [|intros []; apply emitsOnly_ret].
  apply emitsOnly_wrapM. by apply destPutManifest_emits.
Qed.

Lemma tryOtherCandidates_appends ic ti candidates errs :
  emitsOnly (fun _ => True) (tryOtherCandidates lib ic ti candidates errs).
Proof.
  revert ic errs. induction candidates as [|t rest IH]; intros ic errs; simpl.
  - apply emitsOnly_ret.
  - apply emitsOnly_try; [apply copyUpdatedConfigAndManifest_appends|].
    intros [m|e]; [apply emitsOnly_ret | apply IH].
Qed.

Lemma commitManifest_appends ic ti preferred others :
  emitsOnly (fun _ => True) (commitManifest lib ic ti preferred others).
Proof.
  unfold commitManifest.
  apply emitsOnly_try; [apply copyUpdatedConfigAndManifest_appends|].
  intros [m|e]; [apply emitsOnly_ret|].
  destruct (negb (isManifestRejected e) || _); [apply emitsOnly_fail|].
  destruct (negb (canModifyManifest ic)); [apply emitsOnly_fail|].
  apply emitsOnly_bind; [apply tryOtherCandidates_appends|].
  intros [stored|errs]; [apply emitsOnly_ret | apply emitsOnly_fail].
Qed.

(** A manifest stored by the fallback loop has one of the fallback types. *)
Lemma tryOtherCandidates_type ic ti candidates errs w m t w' :
  tryOtherCandidates lib ic ti candidates errs w = (OK (inl (m, t)), w') ->
  t ∈ candidates.
Proof.
  revert ic errs w. induction candidates as [|t0 rest IH]; intros ic errs w; simpl.
  - discriminate.
  - unfold try. destruct (copyUpdatedConfigAndManifest _ _ _ _) as [[m0|e] w1].
    + intros [= _ <- _]. apply list_elem_of_here.
    + intros Hrest. apply list_elem_of_further. exact (IH _ _ _ Hrest).
Qed.

(** A stored manifest comes from the first attempt, with the preferred
    type, or has one of the fallback types. *)
Lemma commitManifest_stored ic ti preferred others w m t w' :
  commitManifest lib ic ti preferred others w = (OK (m, t), w') ->
  (t = preferred /\ copyUpdatedConfigAndManifest lib ic ti w = (OK m, w'))
  \/ t ∈ others.
Proof.
  unfold commitManifest, try.
  destruct (copyUpdatedConfigAndManifest _ _ _ _) as [[m0|e] w1].
  - intros [= <- <- <-]. by left.
  - destruct (negb (isManifestRejected e) || _); [discriminate|].
    destruct (negb (canModifyManifest ic)); [discriminate|]. intros Hrun.
    apply bind_run in Hrun as [([[m1 t1]|errs] & w2 & Htry & Hrun)|(e' & _ & ?)];
      try discriminate.
    injection Hrun as <- <- <-. right. exact (tryOtherCandidates_type _ _ _ _ _ _ _ _ Htry).
Qed.

(** C1, as the code has it.  A single image that the policy allows, whose
    manifest type the destination supports, copied without signatures and
    without a conflict of the embedded Docker reference; and moreover no
    forced manifest type, no layers substituted by the source, and a
    destination that stores layers under the digests they come with (it asks
    for no compression).  When such a copy succeeds with the manifest type of
    the source, it returns the manifest of the source byte for byte, and
    [PutManifest] was called once, with these very bytes. *)
Theorem copyOneImage_keeps_manifest_bytes c policyContext options u si ti
    (img : TypesImage) (manifest : list byte) (srcType : string) w r w' :
  FromUnparsedImage u = OK img ->
  policyContext u = (true, None) ->
  imgManifest img = OK (manifest, srcType) ->
  srcType ∈ SupportedManifestMIMETypes (dest c) (destState w) ->
  carriesNoSignature options img ->
  match DockerReference (dest c) (destState w) with
  | Some destRef => imgEmbeddedDockerReferenceConflicts img destRef
  | None => false
  end = false ->
  ForceManifestMIMEType options = EmptyString ->
  bool_decide (imgLayerInfosForCopy img <> None)
  && bool_decide (imgLayerInfos img <> imgLayerInfosForCopy img) = false ->
  storesLayersAsTheyAre lib (dest c) ->
  copyOneImage lib c policyContext options u si ti w = (r, w') ->
  exists evs,
    log w' = log w ++ evs
    /\ forall m, r = OK (m, srcType) ->
         m = manifest /\ exists i, putManifests evs = [(manifest, i)].
Proof.
  intros Himg Hpolicy Hman Hin Hnosig Hquiet Hforce Hsub Hkeeps Hrun.
  apply copyOneImage_prelude in Hrun
    as [(_ & (evs & Hlog & _) & Hr)
       |(src0 & sigs & ic1 & preferred & others & ic2 & w1 & Hsrc & _ & Hsigs & Href
         & Hneg & Hd1 & (evs0 & Hlog0 & Hevs0) & Hrun)].
  { exists evs. split; [exact Hlog|]. intros m ->.
    destruct Hr as [?|[_ Hno]]; [discriminate|congruence]. }
  assert (src0 = img) as -> by congruence.
  assert (sigs = []) as ->.
  { destruct Hsigs as [[_ ->]|[Hkeep Hsigs]]; [reflexivity|].
    destruct Hnosig as [?|Hnone]; congruence. }
  apply updateEmbeddedDockerReference_no_conflict in Href;
    [|simpl; rewrite Hd1; exact Hquiet].
  subst ic1. rewrite Hforce in Hneg.
  apply (determineManifestConversion_supported _ _ manifest srcType) in Hneg
    as (-> & -> & Hnot); [|exact Hman|exact Hin].
  unfold copyOneImageLayersAndManifest in Hrun.
  set (ic := setDiffIDsAreNeeded _ _) in Hrun.
  destruct (copyLayers lib ic w1) as [[ic3|e] w2] eqn:Hlay.
  2: { rewrite (bind_Err _ _ _ _ _ Hlay) in Hrun. injection Hrun as <- <-.
       apply copyLayers_emits in Hlay as (evs2 & Hlog2 & _).
       exists (evs0 ++ evs2). split; [|discriminate].
       rewrite Hlog2, Hlog0. by rewrite <- app_assoc. }
  rewrite (bind_OK _ _ _ _ _ Hlay) in Hrun.
  pose proof (copyLayers_same lib _ _ _ _ Hlay) as (Hsrc3 & _ & _).
  pose proof (copyLayers_records_information_only ic _ _ _ Hkeeps Hsub eq_refl Hlay)
    as Htrivial.
  apply copyLayers_emits in Hlay as (evs2 & Hlog2 & Hevs2).
  destruct (commitManifest lib ic3 ti srcType others w2) as [[[m t]|e] w3] eqn:Hcommit.
  2: { rewrite (bind_Err _ _ _ _ _ Hcommit) in Hrun. injection Hrun as <- <-.
       apply commitManifest_appends in Hcommit as (evs3 & Hlog3 & _).
       exists (evs0 ++ evs2 ++ evs3). split; [|discriminate].
       rewrite Hlog3, Hlog2, Hlog0. by rewrite <- !app_assoc. }
  rewrite (bind_OK _ _ _ _ _ Hcommit) in Hrun.
  pose proof (signatures_quiet c options m [] ti (m, t) _ _ _ Hrun)
    as (evs4 & Hlog4 & Hevs4).
  pose proof (commitManifest_appends _ _ _ _ _ _ _ Hcommit) as (evs3 & Hlog3 & _).
  exists (evs0 ++ evs2 ++ evs3 ++ evs4). split.
  { rewrite Hlog4, Hlog3, Hlog2, Hlog0. by rewrite <- !app_assoc. }
  intros m0 ->.
  assert (m = m0 /\ t = srcType) as [-> ->].
  { apply bind_run in Hrun as [(sigs' & w4 & _ & Hrun)|(e & _ & ?)]; [|discriminate].
    apply bind_run in Hrun as [([] & w5 & _ & Hrun)|(e & _ & ?)]; [|discriminate].
    apply bind_run in Hrun as [([] & w6 & _ & Hrun)|(e & _ & ?)]; [|discriminate].
    by injection Hrun as -> -> _. }
  apply commitManifest_stored in Hcommit as [[_ Hfirst]|Hother]; [|contradiction].
  apply (copyUpdatedConfigAndManifest_as_is _ _ manifest srcType) in Hfirst
    as (-> & evs3' & i & Hlog3' & Hputs); [|exact Htrivial|by rewrite Hsrc3].
  split; [reflexivity|]. exists i.
  rewrite Hlog3 in Hlog3'. apply app_inv_head in Hlog3' as ->.
  rewrite !putManifests_app, (putManifests_printf _ Hevs0),
    (putManifests_blobPhase _ Hevs2), (putManifests_quiet _ Hevs4), Hputs.
  reflexivity.
Qed.

End PreservationFacts.

(** ** More on the digesting reader *)

Section ReadFacts.
Import DigestingReader.
Context {R : Reader} {H : Digester}.

(** X1.  [Read] reports [io.EOF] only when the digest of what was read is the
    expected one: the bytes and the error are then those of the source, and
    [validationFailed] is left as it was. *)
Theorem Read_EOF_only_on_match (d : digestingReader) (lenp : nat)
    (data : list byte) (d' : digestingReader) :
  Read d lenp = ((data, Some EOF), d') ->
  digesterDigest (digester d') = expectedDigest d
  /\ validationFailed d' = validationFailed d
  /\ fst (sourceRead (source d) lenp) = (data, Some EOF).
Proof.
  unfold Read.
  destruct (sourceRead (source d) lenp) as [[data0 err0] source'].
  destruct (if (0 <? length data0)%nat then hashWrite (digester d) data0
            else (length data0, None, digester d)) as [[n2 werr] h'].
  destruct ((0 <? length data0)%nat && _).
  { destruct werr; simpl; intros [= _ ? _]; discriminate. }
  destruct (is_EOF err0) eqn:Heof.
  - case_bool_decide as Hne; [discriminate|].
    intros [= <- -> <-]. simpl. split; [|done].
    destruct (decide (digesterDigest h' = expectedDigest d)); [done|contradiction].
  - intros [= <- -> <-]. discriminate Heof.
Qed.

(** X2.  [Read] sets [validationFailed] only together with the error that names
    both digests, and hands out no bytes then. *)
Theorem Read_validationFailed_only_on_mismatch (d : digestingReader) (lenp : nat) :
  validationFailed d = false ->
  validationFailed (snd (Read d lenp)) = true ->
  exists actual,
    actual <> expectedDigest d
    /\ fst (Read d lenp) = ([], Some (mismatchError (expectedDigest d) actual)).
Proof.
  intros Hd. unfold Read.
  destruct (sourceRead (source d) lenp) as [[data0 err0] source'].
  destruct (if (0 <? length data0)%nat then hashWrite (digester d) data0
            else (length data0, None, digester d)) as [[n2 werr] h'].
  destruct ((0 <? length data0)%nat && _); simpl; [congruence|].
  destruct (is_EOF err0); simpl; [|congruence].
  case_bool_decide as Hne; simpl; [|congruence].
  intros _. exists (digesterDigest h'). split; [exact Hne|reflexivity].
Qed.

(** X3.  A hash that takes fewer bytes than it was given and reports no error:
    [errors.Wrapf] of the nil error is nil, so [Read] returns no bytes and no
    error, and the bytes of the source are lost to the consumer. *)
Theorem Read_short_hash_write (d : digestingReader) (lenp : nat)
    (data : list byte) (err : option error) (source' : reader_state)
    (n2 : nat) (h' : hash_state) :
  sourceRead (source d) lenp = ((data, err), source') ->
  data <> [] ->
  hashWrite (digester d) data = ((n2, None), h') ->
  n2 <> length data ->
  fst (Read d lenp) = ([], None)
  /\ validationFailed (snd (Read d lenp)) = validationFailed d.
Proof.
  intros Hsrc Hdata Hwrite Hshort. unfold Read. rewrite Hsrc.
  assert (Hpos : (0 <? length data)%nat = true).
  { apply Nat.ltb_lt. destruct data; [contradiction|simpl; lia]. }
  rewrite Hpos, Hwrite. simpl.
  assert (Hneq : (n2 =? length data)%nat = false) by (by apply Nat.eqb_neq).
  rewrite Hneq. simpl. done.
Qed.

End ReadFacts.

(** ** Reading a whole stream, and the integrity of copied blobs *)

Section WholeStreamFacts.
Import DigestingReader Pipeline.
Context (digestOf : list byte -> string).

#[local] Existing Instance scriptedReader.

Lemma Read_scripted (script : list (list byte * option error)) (data : list byte)
    (err : option error) (acc : list byte) (expected : string) (failed : bool) (lenp : nat) :
  Read (@Build_digestingReader scriptedReader (keepingDigester digestOf)
          ((data, err) :: script) acc expected failed) lenp
  = if is_EOF err && bool_decide (digestOf (acc ++ data) <> expected) then
      (([], Some (mismatchError expected (digestOf (acc ++ data)))),
       @Build_digestingReader scriptedReader (keepingDigester digestOf)
         script (acc ++ data) expected true)
    else
      ((data, err),
       @Build_digestingReader scriptedReader (keepingDigester digestOf)
         script (acc ++ data) expected failed).
Proof.
  unfold Read. simpl. destruct data as [|b data]; simpl.
  - rewrite app_nil_r. destruct (is_EOF err); simpl; [|reflexivity].
    destruct (bool_decide (digestOf acc <> expected)); reflexivity.
  - rewrite Nat.eqb_refl. simpl. destruct (is_EOF err); simpl; [|reflexivity].
    destruct (bool_decide (digestOf (acc ++ b :: data) <> expected)); reflexivity.
Qed.

(** X4.  A source whose reads come without an error, up to one that comes
    with an error, and a consumer that reads the digesting reader until it
    sees an error.  The consumer gets the bytes of the source in their order,
    up to and with those of the last read, and the error of the source;
    except that, when that error is [io.EOF] and the bytes do not have the
    expected digest, the consumer gets the mismatch error instead, without
    the bytes that came together with [io.EOF], and [validationFailed] is
    set. *)
Theorem digestingReader_reads_whole_stream
    (reads : list (list byte * option error)) (data : list byte) (e : error)
    (rest : list (list byte * option error)) (acc : list byte) (expected : string)
    (budget lenp : nat) :
  Forall (fun read => snd read = None) reads ->
  (length reads < budget)%nat ->
  let d := @Build_digestingReader scriptedReader (keepingDigester digestOf)
             (reads ++ (data, Some e) :: rest) acc expected false in
  let seen := concat (map fst reads) in
  let actual := digestOf (acc ++ seen ++ data) in
  let mismatch := is_EOF (Some e) && bool_decide (actual <> expected) in
  fst (readAll budget lenp d)
  = (if mismatch then (seen, Some (mismatchError expected actual))
     else (seen ++ data, Some e))
  /\ validationFailed (snd (readAll budget lenp d)) = mismatch
  /\ source (snd (readAll budget lenp d)) = rest.
Proof.
  intros Hreads. revert acc budget.
  induction Hreads as [|[x err] reads Hx _ IH]; intros acc budget Hbudget;
    (destruct budget as [|budget]; [simpl in Hbudget; lia|]).
  - cbv zeta. cbn [app concat map readAll fst]. rewrite Read_scripted.
    destruct (is_EOF (Some e) && bool_decide (digestOf (acc ++ data) <> expected));
      simpl; done.
  - simpl in Hx. subst err. cbv zeta. cbn [app concat map readAll fst].
    rewrite Read_scripted. change (is_EOF None) with false. cbn [andb].
    specialize (IH (acc ++ x) budget ltac:(simpl in Hbudget; lia)).
    cbv zeta in IH. rewrite <- !app_assoc in IH. rewrite <- !app_assoc.
    set (mismatch := is_EOF (Some e)
                     && bool_decide (digestOf (acc ++ x ++ concat (map fst reads) ++ data)
                                     <> expected)) in *.
    clearbody mismatch.
    destruct (readAll budget lenp _) as [[got e'] d'].
    cbn [fst snd] in IH |- *.
    destruct mismatch; destruct IH as (Hgot & Hfailed & Hsource);
      injection Hgot as -> ->; repeat split; done.
Qed.

End WholeStreamFacts.

Section BlobIntegrity.
Context {D : Type} (lib : Libraries).
Implicit Types (w : World D) (c : copier D).

(** What a successful [copyBlobFromStream] has done. *)
Lemma copyBlobFromStream_OK_inv {R : Type} c (srcStream : Stream) (srcInfo : BlobInfo)
    (writer : option (option DecompressorFunc -> Stream -> R)) (canCompress : bool)
    w u recorded w' :
  copyBlobFromStream lib c srcStream srcInfo writer canCompress w = (OK (u, recorded), w') ->
  let seen := digested lib (Digest srcInfo) srcStream in
  usableDigest lib (Digest srcInfo)
  /\ exists dec rb,
       DetectCompression lib seen = OK dec
       /\ let unchanged :=
            negb canCompress || match dec with Some _ => true | None => false end
            || negb (ShouldCompressLayers (dest c) (destState w)) in
          let sent := if unchanged then seen else compressed lib seen in
          let inputInfo :=
            if unchanged then srcInfo
            else {| Digest := EmptyString; Size := -1; URLs := None;
                    MediaType := EmptyString |} in
          PutBlob (dest c) (destState w) sent inputInfo = ((OK u, rb), destState w')
          /\ cachedDiffIDs w' = cachedDiffIDs w
          /\ log w' = log w ++ [EvPutBlob sent inputInfo]
          /\ recorded = option_map (fun wr => wr dec seen) writer
          /\ (writer <> None -> ending seen = None)
          /\ (rb || match writer with Some _ => true | None => false end)
             && failsValidation lib (Digest srcInfo) srcStream = false
          /\ (Digest inputInfo <> EmptyString -> Digest u = Digest inputInfo).
Proof.
  intros Hrun seen.
  destruct (newDigestingReader lib srcStream (Digest srcInfo)) as [dr|e] eqn:Hdr.
  2:{ unfold copyBlobFromStream in Hrun. rewrite Hdr in Hrun. discriminate. }
  pose proof (newDigestingReader_OK lib _ _ _ Hdr) as Huse. split; [exact Huse|].
  destruct (DetectCompression lib seen) as [dec|e] eqn:Hdet.
  2:{ destruct (readToEnd_fresh lib _ _ _ Hdr) as (dr' & Hread & _).
      unfold copyBlobFromStream in Hrun. rewrite Hdr in Hrun. simpl in Hrun.
      unfold bind at 1 in Hrun. simpl in Hrun. fold seen in Hread.
      rewrite Hread, Hdet in Hrun. discriminate. }
  exists dec.
  pose proof (copyBlobFromStream_run lib c srcStream srcInfo writer canCompress w dec)
    as Hclosed.
  cbv zeta in Hclosed. fold seen in Hclosed.
  set (unchanged := negb canCompress || match dec with Some _ => true | None => false end
                    || negb (ShouldCompressLayers (dest c) (destState w))) in *.
  set (sent := if unchanged then seen else compressed lib seen) in *.
  set (inputInfo := if unchanged then srcInfo
                    else {| Digest := EmptyString; Size := -1; URLs := None;
                            MediaType := EmptyString |}) in *.
  destruct (PutBlob (dest c) (destState w) sent inputInfo) as [[up rb] d'] eqn:Hput.
  rewrite (Hclosed up rb d' Huse Hdet eq_refl) in Hrun. clear Hclosed.
  exists rb. split; [reflexivity|].
  destruct up as [u0|e]; [|discriminate].
  assert (Hshape :
    (writer <> None -> ending seen = None)
    /\ (rb || match writer with Some _ => true | None => false end)
       && failsValidation lib (Digest srcInfo) srcStream = false
    /\ bool_decide (Digest inputInfo <> EmptyString)
       && bool_decide (Digest u0 <> Digest inputInfo) = false
    /\ (OK (u0, option_map (fun wr => wr dec seen) writer),
        {| destState := d'; cachedDiffIDs := cachedDiffIDs w;
           log := log w ++ [EvPutBlob sent inputInfo] |})
       = (OK (u, recorded), w')).
  { destruct writer as [wr|], (ending seen) as [e|];
      cbv beta iota in Hrun; try discriminate;
      destruct ((rb || _) && failsValidation lib (Digest srcInfo) srcStream);
      cbv beta iota in Hrun; try discriminate;
      destruct (bool_decide (Digest inputInfo <> EmptyString)
                && bool_decide (Digest u0 <> Digest inputInfo));
      cbv beta iota in Hrun; try discriminate;
      repeat split; try exact Hrun; try done. }
  destruct Hshape as (Hend & Hvalid & Hsame & Hres).
  injection Hres as <- <- <-. simpl.
  repeat split; try done.
  intros Hne. rewrite (bool_decide_eq_true_2 _ Hne) in Hsame. simpl in Hsame.
  apply bool_decide_eq_false in Hsame.
  destruct (decide (Digest u0 = Digest inputInfo)); tauto.
Qed.

(** X5.  Integrity.  A blob whose stream ends with [io.EOF] and is read to that
    end, by [PutBlob] or for the copy that [getOriginalLayerCopyWriter] asks
    for, is copied successfully only if its bytes have the digest that
    [srcInfo] declares. *)
Theorem copyBlobFromStream_verifies_digest {R : Type} c (srcStream : Stream)
    (srcInfo : BlobInfo) (writer : option (option DecompressorFunc -> Stream -> R))
    (canCompress : bool) w u recorded w' :
  copyBlobFromStream lib c srcStream srcInfo writer canCompress w = (OK (u, recorded), w') ->
  endsCleanly srcStream = true ->
  writer <> None
  \/ (forall d stream info, snd (fst (PutBlob (dest c) d stream info)) = true) ->
  FromBytes lib (Algorithm lib (Digest srcInfo)) (content srcStream) = Digest srcInfo.
Proof.
  intros Hrun Hclean Hread.
  apply copyBlobFromStream_OK_inv in Hrun
    as (_ & dec & rb & _ & Hput & _ & _ & _ & _ & Hvalid & _).
  assert (Hall : rb || match writer with Some _ => true | None => false end = true).
  { destruct Hread as [Hwriter|Hdest].
    - destruct writer; [apply orb_true_r|contradiction].
    - cbv zeta in Hput.
      match type of Hput with
      | PutBlob _ _ ?stream ?info = _ =>
        pose proof (Hdest (destState w) stream info) as Hd
      end.
      rewrite Hput in Hd. simpl in Hd. rewrite Hd. reflexivity. }
  rewrite Hall in Hvalid. simpl in Hvalid.
  unfold failsValidation in Hvalid. rewrite Hclean in Hvalid. simpl in Hvalid.
  apply bool_decide_eq_false in Hvalid.
  destruct (decide (FromBytes lib (Algorithm lib (Digest srcInfo)) (content srcStream)
                    = Digest srcInfo)); tauto.
Qed.

(** X6.  A blob whose declared digest is not one that [newDigestingReader] takes
    (an invalid digest, or an algorithm that is not available) is refused
    before anything is read or uploaded. *)
Theorem copyBlobFromStream_refuses_bad_digest {R : Type} c (srcStream : Stream)
    (srcInfo : BlobInfo) (writer : option (option DecompressorFunc -> Stream -> R))
    (canCompress : bool) w :
  ~ usableDigest lib (Digest srcInfo) ->
  copyBlobFromStream lib c srcStream srcInfo writer canCompress w
  = (Err (WithMessage
            (New (match Validate lib (Digest srcInfo) with
                  | Some _ => "Invalid digest specification " +:+ Digest srcInfo
                  | None => "Invalid digest specification " +:+ Digest srcInfo
                            +:+ ": unsupported digest algorithm "
                            +:+ Algorithm lib (Digest srcInfo)
                  end))
            ("Error preparing to verify blob " +:+ Digest srcInfo)), w).
Proof.
  intros Hbad. unfold copyBlobFromStream, newDigestingReader, usableDigest in *.
  destruct (Validate lib (Digest srcInfo)) as [e|] eqn:Hval; [reflexivity|].
  destruct (Available lib (Algorithm lib (Digest srcInfo))) eqn:Hav; [tauto|].
  reflexivity.
Qed.

End BlobIntegrity.

(** ** The cache of diffIDs *)

Section CacheFacts.
Context {D : Type} (lib : Libraries).
Implicit Types (w : World D) (ic : imageCopier D) (c : copier D).
#[local] Abbreviation M := (@M D).

Lemma keepsCachedDiffIDs_bind {A B} (m : M A) (k : A -> M B) :
  keepsCachedDiffIDs m -> (forall a, keepsCachedDiffIDs (k a)) ->
  keepsCachedDiffIDs (bind m k).
Proof.
  intros Hm Hk w r w' Hrun.
  apply bind_run in Hrun as [(a & w1 & Hfirst & Hrest)|(e & Hfirst & _)].
  - rewrite (Hk _ _ _ _ Hrest). exact (Hm _ _ _ Hfirst).
  - exact (Hm _ _ _ Hfirst).
Qed.

Lemma keepsCachedDiffIDs_silent {A} (m : M A) :
  (forall w, cachedDiffIDs (snd (m w)) = cachedDiffIDs w) -> keepsCachedDiffIDs m.
Proof. intros Hm w r w' Hrun. specialize (Hm w). by rewrite Hrun in Hm. Qed.

Lemma keepsCachedDiffIDs_wrapM {A} (m : M A) msg :
  keepsCachedDiffIDs m -> keepsCachedDiffIDs (wrapM m msg).
Proof.
  intros Hm w r w'. unfold wrapM. destruct (m w) as [r1 w1] eqn:Hrun.
  intros [= _ <-]. exact (Hm _ _ _ Hrun).
Qed.

Ltac keeps_step :=
  first
    [ assumption
    | apply keepsCachedDiffIDs_wrapM
    | apply keepsCachedDiffIDs_bind; [|intros ?]
    | apply keepsCachedDiffIDs_silent; intros ?; reflexivity
    | match goal with
      | |- keepsCachedDiffIDs (match ?x with _ => _ end) => destruct x
      | |- keepsCachedDiffIDs (if ?b then _ else _) => destruct b
      | |- keepsCachedDiffIDs (let '(_, _) := ?x in _) => destruct x
      end ].

Ltac keeps := repeat keeps_step.

Lemma destHasBlob_keepsCachedDiffIDs c info : keepsCachedDiffIDs (destHasBlob c info).
Proof. unfold destHasBlob. keeps. Qed.

Lemma destReapplyBlob_keepsCachedDiffIDs c info :
  keepsCachedDiffIDs (destReapplyBlob c info).
Proof. unfold destReapplyBlob. keeps. Qed.

Lemma destPutBlob_keepsCachedDiffIDs c stream info :
  keepsCachedDiffIDs (destPutBlob c stream info).
Proof. unfold destPutBlob. keeps. Qed.

Lemma sourceGetBlob_keepsCachedDiffIDs c info : keepsCachedDiffIDs (sourceGetBlob c info).
Proof. unfold sourceGetBlob. keeps. Qed.

Lemma copyBlobFromStream_keepsCachedDiffIDs {R : Type} c srcStream srcInfo
    (writer : option (option DecompressorFunc -> Stream -> R)) canCompress :
  keepsCachedDiffIDs (copyBlobFromStream lib c srcStream srcInfo writer canCompress).
Proof.
  unfold copyBlobFromStream.
  apply keepsCachedDiffIDs_bind; [keeps|]. intros dr.
  destruct (readToEnd lib dr) as [seen dr'].
  apply keepsCachedDiffIDs_bind; [keeps|]. intros dec.
  apply keepsCachedDiffIDs_bind; [keeps|]. intros d.
  destruct (negb canCompress || _ || _).
  all: apply keepsCachedDiffIDs_bind; [apply destPutBlob_keepsCachedDiffIDs|];
    intros [uploaded rb];
    apply keepsCachedDiffIDs_bind; [keeps|]; intros u;
    apply keepsCachedDiffIDs_bind; [keeps|]; intros recorded; keeps.
Qed.

(** X7.  [copyLayer] writes the cache of diffIDs only for a layer whose diffID is
    needed and not cached yet, only when the layer was copied successfully,
    and only under the digest of that layer: the entry is the diffID it
    returns. *)
Theorem copyLayer_writes_cache_only_when_needed ic (srcInfo : BlobInfo) w r w' :
  copyLayer lib ic srcInfo w = (r, w') ->
  cachedDiffIDs w' = cachedDiffIDs w
  \/ (diffIDsAreNeeded ic = true
      /\ mapGet (cachedDiffIDs w) (Digest srcInfo) = EmptyString
      /\ exists blobInfo diffID,
           r = OK (blobInfo, diffID)
           /\ cachedDiffIDs w' = <[Digest srcInfo := diffID]> (cachedDiffIDs w)).
Proof.
  intros Hrun. unfold copyLayer in Hrun.
  apply bind_run in Hrun as [([haveBlob extant] & w1 & Hhas & Hrun)|(e & Hhas & _)].
  2:{ left. revert Hhas. apply keepsCachedDiffIDs_wrapM, destHasBlob_keepsCachedDiffIDs. }
  assert (Hc1 : cachedDiffIDs w1 = cachedDiffIDs w).
  { revert Hhas. apply keepsCachedDiffIDs_wrapM, destHasBlob_keepsCachedDiffIDs. }
  apply bind_run in Hrun as [(cached & w2 & Hget & Hrun)|(e & Hget & _)];
    [|discriminate].
  injection Hget as <- <-. rewrite Hc1 in Hrun.
  destruct (haveBlob && negb _).
  - left. rewrite <- Hc1. revert Hrun.
    match goal with |- ?m w1 = _ -> _ => enough (keepsCachedDiffIDs m) as Hk
                                          by exact (Hk _ _ _) end.
    destruct (bool_decide (Size srcInfo <> -1) && _); [keeps|].
    apply keepsCachedDiffIDs_bind;
      [apply keepsCachedDiffIDs_wrapM, destReapplyBlob_keepsCachedDiffIDs|].
    intros blobinfo. unfold Printf. keeps.
  - apply bind_run in Hrun as [([] & w3 & Hprint & Hrun)|(e & Hprint & _)];
      [|discriminate].
    injection Hprint as <-.
    apply bind_run in Hrun as [([srcStream srcBlobSize] & w4 & Hblob & Hrun)|(e & Hblob & _)].
    2:{ left. rewrite <- Hc1.
        exact (keepsCachedDiffIDs_wrapM _ _ (sourceGetBlob_keepsCachedDiffIDs _ _)
                 _ _ _ Hblob). }
    assert (Hc4 : cachedDiffIDs w4 = cachedDiffIDs w).
    { rewrite <- Hc1.
      exact (keepsCachedDiffIDs_wrapM _ _ (sourceGetBlob_keepsCachedDiffIDs _ _)
               _ _ _ Hblob). }
    apply bind_run in Hrun as [([blobInfo chan] & w5 & Hcopy & Hrun)|(e & Hcopy & _)].
    2:{ left. rewrite <- Hc4. revert Hcopy. unfold copyLayerFromStream.
        apply copyBlobFromStream_keepsCachedDiffIDs. }
    assert (Hc5 : cachedDiffIDs w5 = cachedDiffIDs w).
    { rewrite <- Hc4. revert Hcopy. unfold copyLayerFromStream.
      apply copyBlobFromStream_keepsCachedDiffIDs. }
    assert (Hchan : chan <> None -> diffIDsAreNeeded ic
                    && bool_decide (mapGet (cachedDiffIDs w) (Digest srcInfo) = EmptyString)
                    = true).
    { unfold copyLayerFromStream in Hcopy.
      destruct (diffIDsAreNeeded ic && _); [done|].
      apply copyBlobFromStream_OK_inv in Hcopy
        as (_ & dec & rb & _ & _ & _ & _ & -> & _). by intros []. }
    destruct chan as [result|]; [|left; by injection Hrun as _ <-].
    destruct (err result); [left; by injection Hrun as _ <-|].
    right. apply andb_true_iff in Hchan as [Hneeded Hmissing]; [|done].
    apply bool_decide_eq_true in Hmissing.
    split; [exact Hneeded|]. split; [exact Hmissing|].
    apply bind_run in Hrun as [(cached & w6 & Hget & Hrun)|(e & Hget & _)];
      [|discriminate].
    injection Hget as <- <-.
    apply bind_run in Hrun as [([] & w7 & Hput & Hrun)|(e & Hput & _)];
      [|discriminate].
    injection Hput as <-. injection Hrun as <- <-.
    exists blobInfo, (digest result). simpl. rewrite Hc5. done.
Qed.

(** X8.  A layer whose diffID is needed and not cached yet: when [copyLayer]
    succeeds, the blob came from [GetBlob], was read to its end, and the
    diffID returned is what [computeDiffID] makes of these bytes with the
    decompressor that was detected; the cache holds it under the digest of
    the layer. *)
Theorem copyLayer_computes_diffID ic (srcInfo : BlobInfo) w blobInfo diffID w' :
  diffIDsAreNeeded ic = true ->
  mapGet (cachedDiffIDs w) (Digest srcInfo) = EmptyString ->
  copyLayer lib ic srcInfo w = (OK (blobInfo, diffID), w') ->
  exists srcStream srcBlobSize dec,
    GetBlob (rawSource (c ic)) srcInfo = OK (srcStream, srcBlobSize)
    /\ DetectCompression lib (digested lib (Digest srcInfo) srcStream) = OK dec
    /\ content (digested lib (Digest srcInfo) srcStream) = content srcStream
    /\ ending (digested lib (Digest srcInfo) srcStream) = None
    /\ computeDiffID lib (digested lib (Digest srcInfo) srcStream) dec = OK diffID
    /\ mapGet (cachedDiffIDs w') (Digest srcInfo) = diffID.
Proof.
  intros Hneeded Hmissing Hrun. unfold copyLayer in Hrun.
  apply bind_run in Hrun as [([haveBlob extant] & w1 & Hhas & Hrun)|(e & _ & ?)];
    [|discriminate].
  pose proof (keepsCachedDiffIDs_wrapM _ _ (destHasBlob_keepsCachedDiffIDs _ _)
                _ _ _ Hhas) as Hc1.
  apply bind_run in Hrun as [(cached & w2 & Hget & Hrun)|(e & _ & ?)]; [|discriminate].
  injection Hget as <- <-. rewrite Hc1, Hneeded, Hmissing in Hrun.
  rewrite bool_decide_eq_true_2 in Hrun by reflexivity.
  rewrite andb_false_r in Hrun. cbn [andb negb] in Hrun.
  apply bind_run in Hrun as [([] & w3 & _ & Hrun)|(e & _ & ?)]; [|discriminate].
  apply bind_run in Hrun as [([srcStream srcBlobSize] & w4 & Hblob & Hrun)|(e & _ & ?)];
    [|discriminate].
  assert (Hgot : GetBlob (rawSource (c ic)) srcInfo = OK (srcStream, srcBlobSize)).
  { unfold wrapM, sourceGetBlob, bind, emit, liftR in Hblob. simpl in Hblob.
    destruct (GetBlob _ _); [by injection Hblob as ->|discriminate]. }
  apply bind_run in Hrun as [([info chan] & w5 & Hcopy & Hrun)|(e & _ & ?)];
    [|discriminate].
  unfold copyLayerFromStream in Hcopy.
  apply copyBlobFromStream_OK_inv in Hcopy
    as (_ & dec & rb & Hdet & _ & _ & _ & -> & Hend & _).
  simpl in Hdet, Hend, Hrun.
  exists srcStream, srcBlobSize, dec.
  split; [exact Hgot|]. split; [exact Hdet|]. split; [reflexivity|].
  split; [by apply Hend|].
  unfold diffIDComputationGoroutine in Hrun.
  destruct (computeDiffID lib _ dec) as [found|e]; simpl in Hrun; [|discriminate].
  apply bind_run in Hrun as [(cached & w6 & Hget & Hrun)|(e & _ & ?)]; [|discriminate].
  injection Hget as <- <-.
  apply bind_run in Hrun as [([] & w7 & Hput & Hrun)|(e & _ & ?)]; [|discriminate].
  injection Hput as <-. injection Hrun as <- <- <-.
  split; [reflexivity|]. unfold mapGet. simpl. by rewrite lookup_insert_eq.
Qed.

End CacheFacts.

(** ** The layers, one by one *)

Section LayerListFacts.
Context {D : Type} (lib : Libraries).
Implicit Types (w : World D) (ic : imageCopier D) (c : copier D).

(** X9.  [layerDigestsDiffer] answers no exactly when the two lists have the
    same digests in the same order, whatever the sizes, URLs and media types
    of the layers. *)
Theorem layerDigestsDiffer_false_iff (a b : list BlobInfo) :
  layerDigestsDiffer a b = false <-> map Digest a = map Digest b.
Proof.
  split; [|intros Heq; by apply layerDigestsDiffer_same].
  unfold layerDigestsDiffer. case_bool_decide as Hlen; [discriminate|].
  assert (Hlen' : length a = length b)
    by (destruct (decide (length a = length b)); tauto).
  clear Hlen. revert b Hlen'.
  induction a as [|x a IH]; intros [|y b] Hlen; try discriminate; [reflexivity|].
  simpl. intros Hnone. apply orb_false_iff in Hnone as [Hhead Htail].
  apply bool_decide_eq_false in Hhead.
  f_equal; [destruct (decide (Digest x = Digest y)); tauto|].
  apply IH; [by injection Hlen|exact Htail].
Qed.

Lemma copyLayersLoop_lengths ic (srcInfos destInfos : list BlobInfo)
    (diffIDs : list string) w destInfos' diffIDs' w' :
  copyLayersLoop lib ic srcInfos destInfos diffIDs w = (OK (destInfos', diffIDs'), w') ->
  length destInfos' = (length destInfos + length srcInfos)%nat
  /\ length diffIDs' = (length diffIDs + length srcInfos)%nat.
Proof.
  revert destInfos diffIDs w.
  induction srcInfos as [|srcLayer rest IH]; intros destInfos diffIDs w Hrun;
    simpl in Hrun.
  - injection Hrun as <- <- _. simpl. lia.
  - apply bind_run in Hrun as [([destInfo diffID] & w1 & _ & Hrun)|(e & _ & ?)];
      [|discriminate].
    apply IH in Hrun as [-> ->]. rewrite !length_app. simpl. lia.
Qed.

(** X11.  When [copyLayers] succeeds it has one [BlobInfo] and one diffID for
    every layer it was to copy (the layers of [LayerInfosForCopy] when the
    source substitutes layers, which needs [canModifyManifest]).  The infos
    are recorded for information; the diffIDs only if they are needed; and
    substituted layers are always recorded as an update of the manifest. *)
Theorem copyLayers_one_info_per_layer ic w ic' w' :
  copyLayers lib ic w = (OK ic', w') ->
  let substituted :=
    bool_decide (imgLayerInfosForCopy (src ic) <> None)
    && bool_decide (imgLayerInfos (src ic) <> imgLayerInfosForCopy (src ic)) in
  let srcInfos :=
    elems (if substituted then imgLayerInfosForCopy (src ic)
           else imgLayerInfos (src ic)) in
  exists destInfos diffIDs,
    length destInfos = length srcInfos
    /\ length diffIDs = length srcInfos
    /\ InfoLayerInfos (InformationOnly (manifestUpdates ic')) = Some destInfos
    /\ InfoLayerDiffIDs (InformationOnly (manifestUpdates ic'))
       = (if diffIDsAreNeeded ic then Some diffIDs
          else InfoLayerDiffIDs (InformationOnly (manifestUpdates ic)))
    /\ (substituted = true ->
        canModifyManifest ic = true
        /\ LayerInfos (manifestUpdates ic') = Some destInfos).
Proof.
  intros Hrun substituted srcInfos. unfold copyLayers in Hrun.
  fold substituted in Hrun.
  apply bind_run in Hrun as [([chosen updated] & w1 & Hchosen & Hrun)|(e & _ & ?)];
    [|discriminate].
  assert (Hsub : chosen = (if substituted then imgLayerInfosForCopy (src ic)
                           else imgLayerInfos (src ic))
                 /\ updated = substituted
                 /\ (substituted = true -> canModifyManifest ic = true)).
  { destruct substituted.
    - destruct (canModifyManifest ic); [|discriminate]. by injection Hchosen as <- <- _.
    - by injection Hchosen as <- <- _. }
  destruct Hsub as (-> & -> & Hcan).
  apply bind_run in Hrun as [([destInfos diffIDs] & w2 & Hloop & Hrun)|(e & _ & ?)];
    [|discriminate].
  apply copyLayersLoop_lengths in Hloop as [Hl1 Hl2].
  injection Hrun as <- _. exists destInfos, diffIDs. simpl.
  repeat split; try done.
  - by apply Hcan.
  - destruct substituted; [reflexivity|discriminate].
Qed.

(** X12.  At a destination that stores layers under the digests they come with,
    the layers recorded by [copyLayers] have the digests of the layers it was
    to copy, in the same order; without a substitution by the source, the
    updates of the manifest stay as they were. *)
Theorem copyLayers_keeps_digest_order ic w ic' w' :
  storesLayersAsTheyAre lib (dest (c ic)) ->
  copyLayers lib ic w = (OK ic', w') ->
  let substituted :=
    bool_decide (imgLayerInfosForCopy (src ic) <> None)
    && bool_decide (imgLayerInfos (src ic) <> imgLayerInfosForCopy (src ic)) in
  exists destInfos,
    InfoLayerInfos (InformationOnly (manifestUpdates ic')) = Some destInfos
    /\ map Digest destInfos
       = map Digest (elems (if substituted then imgLayerInfosForCopy (src ic)
                            else imgLayerInfos (src ic)))
    /\ (substituted = false ->
        LayerInfos (manifestUpdates ic') = LayerInfos (manifestUpdates ic)).
Proof.
  intros Hkeeps Hrun substituted. unfold copyLayers in Hrun.
  fold substituted in Hrun.
  apply bind_run in Hrun as [([chosen updated] & w1 & Hchosen & Hrun)|(e & _ & ?)];
    [|discriminate].
  assert (Hsub : chosen = (if substituted then imgLayerInfosForCopy (src ic)
                           else imgLayerInfos (src ic))
                 /\ updated = substituted).
  { destruct substituted.
    - destruct (canModifyManifest ic); [|discriminate]. by injection Hchosen as <- <- _.
    - by injection Hchosen as <- <- _. }
  destruct Hsub as (-> & ->).
  apply bind_run in Hrun as [([destInfos diffIDs] & w2 & Hloop & Hrun)|(e & _ & ?)];
    [|discriminate].
  apply copyLayersLoop_keeps_digests in Hloop as (added & -> & Hdigests);
    [|exact Hkeeps].
  injection Hrun as <- _. exists added. simpl.
  split; [reflexivity|]. split; [exact Hdigests|].
  intros ->. by rewrite (layerDigestsDiffer_same _ _ Hdigests).
Qed.

(** X10.  The loop of [copyLayers] over a list of layers in two parts is the loop
    over the first part followed by the loop over the second, which starts
    with the infos, the diffIDs and the destination as the first part left
    them; when a layer of the first part fails, the loop stops with its error
    and no layer of the second part is touched. *)
Theorem copyLayersLoop_app ic (first second : list BlobInfo)
    (destInfos : list BlobInfo) (diffIDs : list string) w :
  copyLayersLoop lib ic (first ++ second) destInfos diffIDs w
  = match copyLayersLoop lib ic first destInfos diffIDs w with
    | (OK (destInfos', diffIDs'), w') =>
      copyLayersLoop lib ic second destInfos' diffIDs' w'
    | (Err e, w') => (Err e, w')
    end.
Proof.
  revert destInfos diffIDs w.
  induction first as [|srcLayer rest IH]; intros destInfos diffIDs w; simpl;
    [reflexivity|].
  unfold bind. destruct (copyLayersBody lib ic srcLayer w) as [[[destInfo diffID]|e] w1];
    [apply IH|reflexivity].
Qed.

End LayerListFacts.

(** ** One attempt to store the manifest *)

Section AttemptFacts.
Context {D : Type} (lib : Libraries).
Implicit Types (w : World D) (ic : imageCopier D) (c : copier D).

Lemma silent_log {A} (m : M A) w r w' :
  emitsOnly (fun _ => False) m -> m w = (r, w') -> log w' = log w.
Proof.
  intros Hm Hrun. destruct (Hm _ _ _ Hrun) as (evs & -> & Hevs).
  destruct Hevs as [|e evs []]. by rewrite app_nil_r.
Qed.

(** The shape of one run of [copyUpdatedConfigAndManifest]. *)
Lemma copyUpdatedConfigAndManifest_shape ic (ti : option string) w r w' :
  copyUpdatedConfigAndManifest lib ic ti w = (r, w') ->
  exists pre,
    Forall blobPhaseEvent pre
    /\ ((log w' = log w ++ pre /\ isOK r = false)
        \/ exists m i,
             log w' = log w ++ pre ++ [EvPutManifest m i]
             /\ (r = OK m \/ exists e, r = Err (WithMessage e "Error writing manifest"))
             /\ match ti, i with
                | None, None => True
                | Some _, Some d => manifestDigest lib m = OK d
                | _, _ => False
                end).
Proof.
  intros Hrun. unfold copyUpdatedConfigAndManifest in Hrun.
  assert (Hstop : forall w0 e, log w0 = log w -> (Err e : result (list byte), w0) = (r, w') ->
            exists pre, Forall blobPhaseEvent pre
              /\ ((log w' = log w ++ pre /\ isOK r = false)
                  \/ exists m i,
                       log w' = log w ++ pre ++ [EvPutManifest m i]
                       /\ (r = OK m
                           \/ exists e, r = Err (WithMessage e "Error writing manifest"))
                       /\ match ti, i with
                          | None, None => True
                          | Some _, Some d => manifestDigest lib m = OK d
                          | _, _ => False
                          end)).
  { intros w0 e Hlog [= <- <-]. exists []. split; [constructor|]. left.
    by rewrite app_nil_r. }
  apply bind_run in Hrun as [(pending & w1 & Hpending & Hrun)|(e & Hpending & ->)].
  2:{ apply (Hstop w' e); [|reflexivity]. revert Hpending. apply silent_log. emits. }
  assert (Hl1 : log w1 = log w) by (revert Hpending; apply silent_log; emits).
  apply bind_run in Hrun as [([man t] & w2 & Hread & Hrun)|(e & Hread & ->)].
  2:{ apply (Hstop w' e); [|reflexivity]. rewrite <- Hl1. revert Hread.
      apply silent_log. emits. }
  assert (Hl2 : log w2 = log w).
  { rewrite <- Hl1. revert Hread. apply silent_log. emits. }
  simpl in Hrun.
  apply bind_run in Hrun as [([] & w3 & Hconfig & Hrun)|(e & Hconfig & ->)].
  2:{ apply copyConfig_emits in Hconfig as (evs & Hlog & Hevs).
      exists evs. split; [exact Hevs|]. left. by rewrite Hlog, Hl2. }
  apply copyConfig_emits in Hconfig as (evs & Hl3 & Hevs).
  apply bind_run in Hrun as [([] & w4 & Hprint & Hrun)|(e & Hprint & _)];
    [|discriminate].
  injection Hprint as <-.
  set (message := EvPrintf ("Writing manifest to image destination" +:+ nl)) in *.
  assert (Hpre : Forall blobPhaseEvent (evs ++ [message])).
  { apply Forall_app. split; [exact Hevs|]. by repeat constructor. }
  apply bind_run in Hrun as [(i & w5 & Hdigest & Hrun)|(e & Hdigest & ->)].
  2:{ exists (evs ++ [message]). split; [exact Hpre|]. left. split; [|reflexivity].
      assert (Hl : log w' = log w3 ++ [message])
        by (revert Hdigest; apply silent_log; destruct ti; emits).
      by rewrite Hl, Hl3, Hl2, <- app_assoc. }
  assert (Hl5 : log w5 = log w3 ++ [message])
    by (revert Hdigest; apply silent_log; destruct ti; emits).
  assert (Hi : match ti, i with
               | None, None => True
               | Some _, Some d => manifestDigest lib man = OK d
               | _, _ => False
               end).
  { destruct ti as [instance|]; [|by injection Hdigest as <- _].
    apply bind_run in Hdigest as [(tmp & w6 & Htmp & Hret)|(e & _ & ?)]; [|discriminate].
    apply liftR_OK in Htmp as [Htmp _]. by injection Hret as <- _. }
  exists (evs ++ [message]). split; [exact Hpre|]. right. exists man, i.
  apply bind_run in Hrun as [([] & w6 & Hput & Hrun)|(e & Hput & ->)].
  - injection Hrun as <- <-. split; [|split; [by left|exact Hi]].
    unfold wrapM in Hput. destruct (destPutManifest _ _ _ _) as [r6 w6'] eqn:Hcall.
    injection Hput as _ <-. apply destPutManifest_log in Hcall.
    by rewrite Hcall, Hl5, Hl3, Hl2, <- !app_assoc.
  - unfold wrapM in Hput. destruct (destPutManifest _ _ _ _) as [r6 w6'] eqn:Hcall.
    destruct r6 as [[]|e6]; [discriminate|]. injection Hput as <- <-.
    apply destPutManifest_log in Hcall.
    split; [by rewrite Hcall, Hl5, Hl3, Hl2, <- !app_assoc|].
    split; [right; by exists e6|exact Hi].
Qed.

(** X13.  One run of [copyUpdatedConfigAndManifest] calls [PutManifest] at most
    once, as the last thing it does, after the config was copied; what came
    before are messages and calls about blobs.  When it succeeds, the
    manifest it returns is the one it handed to [PutManifest]; when
    [PutManifest] refuses, the error is wrapped as "Error writing manifest".
    For an instance of a list, the instance digest handed over is the digest
    of the manifest that is written. *)
Theorem copyUpdatedConfigAndManifest_puts_last ic (ti : option string) w r w' :
  copyUpdatedConfigAndManifest lib ic ti w = (r, w') ->
  exists pre,
    Forall blobPhaseEvent pre
    /\ ((log w' = log w ++ pre /\ isOK r = false)
        \/ exists m i,
             log w' = log w ++ pre ++ [EvPutManifest m i]
             /\ (r = OK m \/ exists e, r = Err (WithMessage e "Error writing manifest"))
             /\ match ti, i with
                | None, None => True
                | Some _, Some d => manifestDigest lib m = OK d
                | _, _ => False
                end).
Proof. apply copyUpdatedConfigAndManifest_shape. Qed.

Lemma putManifests_attempt (pre : list Event) (m : list byte) (i : option string) :
  Forall blobPhaseEvent pre ->
  putManifests (pre ++ [EvPutManifest m i]) = [(m, i)].
Proof.
  intros Hpre. by rewrite putManifests_app, (putManifests_blobPhase _ Hpre).
Qed.

Lemma tryOtherCandidates_puts ic ti (candidates : list string) (errs : list string)
    w r w' :
  tryOtherCandidates lib ic ti candidates errs w = (r, w') ->
  exists evs,
    log w' = log w ++ evs
    /\ (length (putManifests evs) <= length candidates)%nat
    /\ forall m t, r = OK (inl (m, t)) ->
         t ∈ candidates /\ exists i, last (putManifests evs) = Some (m, i).
Proof.
  revert ic errs w. induction candidates as [|t0 rest IH]; intros ic errs w Hrun;
    simpl in Hrun.
  - injection Hrun as <- <-. exists []. rewrite app_nil_r. simpl.
    repeat split; [lia|discriminate|discriminate].
  - unfold try in Hrun.
    destruct (copyUpdatedConfigAndManifest lib _ ti w) as [r1 w1] eqn:Hfirst.
    apply copyUpdatedConfigAndManifest_shape in Hfirst
      as (pre & Hpre & [[Hlog Hfail]|(m1 & i1 & Hlog & Hres & _)]).
    + destruct r1 as [m1|e1]; [discriminate|].
      apply IH in Hrun as (evs & Hlog' & Hlen & Hok).
      exists (pre ++ evs). split; [by rewrite Hlog', Hlog, <- app_assoc|].
      rewrite putManifests_app, (putManifests_blobPhase _ Hpre). simpl.
      split; [lia|]. intros m t Hr. destruct (Hok m t Hr) as [Hin Hlast].
      split; [by apply list_elem_of_further|exact Hlast].
    + destruct Hres as [->|[e1 ->]].
      * injection Hrun as <- <-. exists (pre ++ [EvPutManifest m1 i1]).
        split; [exact Hlog|]. rewrite (putManifests_attempt _ _ _ Hpre). simpl.
        split; [lia|]. intros m t [= <- <-].
        split; [apply list_elem_of_here|by exists i1].
      * apply IH in Hrun as (evs & Hlog' & Hlen & Hok).
        exists ((pre ++ [EvPutManifest m1 i1]) ++ evs).
        split; [by rewrite Hlog', Hlog, <- !app_assoc|].
        rewrite putManifests_app, (putManifests_attempt _ _ _ Hpre).
        split; [simpl; lia|]. intros m t Hr. destruct (Hok m t Hr) as [Hin [i Hlast]].
        split; [by apply list_elem_of_further|]. exists i.
        change ([(m1, i1)] ++ putManifests evs) with ((m1, i1) :: putManifests evs).
        destruct (putManifests evs); [discriminate|exact Hlast].
Qed.

(** The calls of [PutManifest] in one run of [commitManifest]. *)
Lemma commitManifest_run_puts ic (ti : option string) (preferred : string)
    (others : list string) w r w' :
  commitManifest lib ic ti preferred others w = (r, w') ->
  exists evs,
    log w' = log w ++ evs
    /\ (length (putManifests evs)
        <= if canModifyManifest ic then 1 + length others else 1)%nat
    /\ forall m t, r = OK (m, t) ->
         (t = preferred \/ t ∈ others)
         /\ exists i, last (putManifests evs) = Some (m, i).
Proof.
  intros Hrun. unfold commitManifest, try in Hrun.
  destruct (copyUpdatedConfigAndManifest lib ic ti w) as [r1 w1] eqn:Hfirst.
  apply copyUpdatedConfigAndManifest_shape in Hfirst
    as (pre & Hpre & Hshape).
  assert (Hone : exists evs1, log w1 = log w ++ evs1
                   /\ (length (putManifests evs1) <= 1)%nat
                   /\ forall m, r1 = OK m -> exists i, putManifests evs1 = [(m, i)]).
  { destruct Hshape as [[Hlog Hfail]|(m1 & i1 & Hlog & Hres & _)].
    - exists pre. rewrite (putManifests_blobPhase _ Hpre). simpl.
      repeat split; [exact Hlog|lia|]. intros m ->. discriminate.
    - exists (pre ++ [EvPutManifest m1 i1]). rewrite (putManifests_attempt _ _ _ Hpre).
      repeat split; [exact Hlog|simpl; lia|].
      intros m ->. destruct Hres as [[= ->]|[e [=]]]. by exists i1. }
  destruct Hone as (evs1 & Hlog1 & Hlen1 & Hok1).
  assert (Hbound : (1 <= if canModifyManifest ic then 1 + length others else 1)%nat)
    by (destruct (canModifyManifest ic); lia).
  destruct r1 as [m1|e1].
  { injection Hrun as <- <-. exists evs1. split; [exact Hlog1|]. split; [lia|].
    intros m t [= <- <-]. split; [by left|].
    destruct (Hok1 m1 eq_refl) as [i ->]. by exists i. }
  destruct (negb (isManifestRejected e1) || _).
  { injection Hrun as <- <-. exists evs1. split; [exact Hlog1|]. split; [lia|].
    discriminate. }
  destruct (canModifyManifest ic); simpl in Hrun.
  2:{ injection Hrun as <- <-. exists evs1. split; [exact Hlog1|]. split; [lia|].
      discriminate. }
  apply bind_run in Hrun as [(tried & w2 & Htry & Hrun)|(e & Htry & ->)].
  - apply tryOtherCandidates_puts in Htry as (evs2 & Hlog2 & Hlen2 & Hok2).
    assert (Hw : w' = w2) by (destruct tried; by injection Hrun as _ <-).
    subst w2. exists (evs1 ++ evs2).
    split; [by rewrite Hlog2, Hlog1, <- app_assoc|].
    rewrite putManifests_app, length_app. split; [lia|].
    intros m t ->. destruct tried as [[m2 t2]|errs]; [|discriminate].
    injection Hrun as -> ->. destruct (Hok2 m t eq_refl) as [Hin [i Hlast]].
    split; [by right|]. exists i.
    destruct (putManifests evs2) as [|p ps] eqn:Hputs; [discriminate|].
    by rewrite last_app, Hlast.
  - apply tryOtherCandidates_puts in Htry as (evs2 & Hlog2 & Hlen2 & _).
    exists (evs1 ++ evs2). split; [by rewrite Hlog2, Hlog1, <- app_assoc|].
    rewrite putManifests_app, length_app. split; [lia|]. discriminate.
Qed.

(** X14.  The manifest is handed to [PutManifest] once for the preferred type and
    at most once for each fallback candidate, and not more than once when the
    manifest may not be modified.  When a manifest was stored, the one that
    is returned is the last one handed to [PutManifest], and its type is the
    preferred type or one of the candidates. *)
Theorem commitManifest_puts ic (ti : option string) (preferred : string)
    (others : list string) w r w' :
  commitManifest lib ic ti preferred others w = (r, w') ->
  exists evs,
    log w' = log w ++ evs
    /\ (length (putManifests evs)
        <= if canModifyManifest ic then 1 + length others else 1)%nat
    /\ forall m t, r = OK (m, t) ->
         (t = preferred \/ t ∈ others)
         /\ exists i, last (putManifests evs) = Some (m, i).
Proof. apply commitManifest_run_puts. Qed.

End AttemptFacts.

(** ** The phases of a copy *)

Section PhaseFacts.
Context {D : Type} (lib : Libraries).
Implicit Types (w : World D) (ic : imageCopier D) (c : copier D).

Lemma blobPhaseEvent_beforeSignatures (e : Event) :
  blobPhaseEvent e -> beforeSignatures e.
Proof. by destruct e. Qed.

Lemma beforeSignatures_copyEvent (e : Event) : beforeSignatures e -> copyEvent e.
Proof. by destruct e. Qed.

Lemma copyUpdatedConfigAndManifest_beforeSignatures ic ti :
  emitsOnly beforeSignatures (copyUpdatedConfigAndManifest lib ic ti).
Proof.
  intros w r w' Hrun.
  apply copyUpdatedConfigAndManifest_shape in Hrun
    as (pre & Hpre & [[Hlog _]|(m & i & Hlog & _)]).
  - exists pre. split; [exact Hlog|].
    eapply Forall_impl; [exact Hpre|apply blobPhaseEvent_beforeSignatures].
  - exists (pre ++ [EvPutManifest m i]). split; [exact Hlog|].
    apply Forall_app. split; [|by repeat constructor].
    eapply Forall_impl; [exact Hpre|apply blobPhaseEvent_beforeSignatures].
Qed.

Lemma tryOtherCandidates_beforeSignatures ic ti candidates errs :
  emitsOnly beforeSignatures (tryOtherCandidates lib ic ti candidates errs).
Proof.
  revert ic errs. induction candidates as [|t rest IH]; intros ic errs; simpl.
  - apply emitsOnly_ret.
  - apply emitsOnly_try; [apply copyUpdatedConfigAndManifest_beforeSignatures|].
    intros [m|e]; [apply emitsOnly_ret | apply IH].
Qed.

Lemma commitManifest_beforeSignatures ic ti preferred others :
  emitsOnly beforeSignatures (commitManifest lib ic ti preferred others).
Proof.
  unfold commitManifest.
  apply emitsOnly_try; [apply copyUpdatedConfigAndManifest_beforeSignatures|].
  intros [m|e]; [apply emitsOnly_ret|].
  destruct (negb (isManifestRejected e) || _); [apply emitsOnly_fail|].
  destruct (negb (canModifyManifest ic)); [apply emitsOnly_fail|].
  apply emitsOnly_bind; [apply tryOtherCandidates_beforeSignatures|].
  intros [stored|errs]; [apply emitsOnly_ret | apply emitsOnly_fail].
Qed.

(** X15.  When the layers and the manifest of an image were copied, the
    signatures are stored last, in the one call of [PutSignatures] of the
    copy, for the same instance: the signatures that came with the image,
    and after them, if [SignBy] asks for one, a new signature of the manifest
    that [PutManifest] was given last, which is the manifest returned. *)
Theorem copyOneImage_stores_signatures_last c options (ti : option string)
    (sigs : list (list byte)) ic (preferred : string) (others : list string)
    w m t w' :
  copyOneImageLayersAndManifest lib c options ti sigs ic preferred others w
  = (OK (m, t), w') ->
  exists evs sigs',
    log w' = log w ++ evs ++ [EvPrintf ("Storing signatures" +:+ nl);
                              EvPutSignatures sigs' ti]
    /\ Forall beforeSignatures evs
    /\ (exists i, last (putManifests evs) = Some (m, i))
    /\ if bool_decide (SignBy options <> EmptyString)
       then exists newSig,
              createSignature lib m (SignBy options) = OK newSig
              /\ sigs' = sigs ++ [newSig]
       else sigs' = sigs.
Proof.
  intros Hrun. unfold copyOneImageLayersAndManifest in Hrun.
  apply bind_run in Hrun as [(ic1 & w1 & Hlay & Hrun)|(e & _ & ?)]; [|discriminate].
  apply copyLayers_emits in Hlay as (evs1 & Hlog1 & Hevs1).
  apply bind_run in Hrun as [([m0 t0] & w2 & Hcommit & Hrun)|(e & _ & ?)];
    [|discriminate].
  pose proof (commitManifest_beforeSignatures _ _ _ _ _ _ _ Hcommit)
    as (evs2 & Hlog2 & Hevs2).
  apply commitManifest_run_puts in Hcommit as (evs2' & Hlog2' & _ & Hlast).
  rewrite Hlog2 in Hlog2'. apply app_inv_head in Hlog2' as <-.
  destruct (Hlast m0 t0 eq_refl) as [_ [i Hi]].
  apply bind_run in Hrun as [(sigs' & w3 & Hsign & Hrun)|(e & _ & ?)]; [|discriminate].
  apply bind_run in Hrun as [([] & w4 & Hprint & Hrun)|(e & _ & ?)]; [|discriminate].
  apply bind_run in Hrun as [([] & w5 & Hput & Hrun)|(e & _ & ?)]; [|discriminate].
  injection Hrun as <- <- <-. injection Hprint as <-.
  assert (Hsigs : w3 = w2
                  /\ if bool_decide (SignBy options <> EmptyString)
                     then exists newSig,
                            createSignature lib m0 (SignBy options) = OK newSig
                            /\ sigs' = sigs ++ [newSig]
                     else sigs' = sigs).
  { unfold signIfAsked in Hsign. destruct (bool_decide (SignBy options <> EmptyString)).
    - apply bind_run in Hsign as [(newSig & w6 & Hnew & Hret)|(e & _ & ?)];
        [|discriminate].
      apply liftR_OK in Hnew as [Hnew ->]. injection Hret as <- <-. eauto.
    - by injection Hsign as <- <-. }
  destruct Hsigs as [-> Hsigs].
  unfold wrapM in Hput. destruct (destPutSignatures _ _ _ _) as [r5 w5'] eqn:Hcall.
  injection Hput as _ <-.
  assert (Hlog5 : log w5' = log w2 ++ [EvPrintf ("Storing signatures" +:+ nl);
                                        EvPutSignatures sigs' ti]).
  { unfold destPutSignatures, bind, emit, getDest, putDest, check in Hcall.
    simpl in Hcall. destruct (PutSignatures _ _ _ _) as [[e|] d'];
      injection Hcall as _ <-; simpl; by rewrite <- app_assoc. }
  exists (evs1 ++ evs2), sigs'. split; [by rewrite Hlog5, Hlog2, Hlog1, <- !app_assoc|].
  split.
  { apply Forall_app. split; [|exact Hevs2].
    eapply Forall_impl; [exact Hevs1|apply blobPhaseEvent_beforeSignatures]. }
  split; [|exact Hsigs]. exists i.
  rewrite putManifests_app, (putManifests_blobPhase _ Hevs1). exact Hi.
Qed.

End PhaseFacts.

(** ** What stops a copy before it starts *)

Section EarlyStopFacts.
Context {D : Type} (lib : Libraries).
Implicit Types (w : World D) (ic : imageCopier D) (c : copier D).

(** X16.  An image that the policy does not allow is not copied: nothing is read
    from it and the destination is not touched.  With an error from the
    policy the copy fails with "Source image rejected"; when the policy says
    no without an error, [errors.Wrap] of the nil error is nil, and
    [copyOneImage] returns no manifest and no error. *)
Theorem copyOneImage_policy_refusal c (policyContext : PolicyContext) options
    (u : UnparsedImage) (si ti : option string) w (allowed : bool)
    (policyErr : option error) :
  isMultiImage u = OK false ->
  policyContext u = (allowed, policyErr) ->
  allowed = false \/ policyErr <> None ->
  copyOneImage lib c policyContext options u si ti w
  = (match policyErr with
     | Some e => Err (WithMessage e "Source image rejected")
     | None => OK ([], EmptyString)
     end, w).
Proof.
  intros Hsingle Hpolicy Hno. unfold copyOneImage. rewrite Hsingle, Hpolicy. simpl.
  unfold bind at 1. simpl.
  destruct policyErr as [e|], allowed; simpl; try reflexivity.
  destruct Hno; congruence.
Qed.

(** X17.  An image that the destination cannot run, or signatures that the
    destination cannot store, stop the copy before anything is copied: the
    copy fails (or was refused by the policy already), the destination is as
    it was, and at most messages were printed. *)
Theorem copyOneImage_stops_before_copying c (policyContext : PolicyContext) options
    (u : UnparsedImage) (si ti : option string) (img : TypesImage)
    (sigs : list (list byte)) w r w' :
  FromUnparsedImage u = OK img ->
  checkImageDestinationForCurrentRuntimeOS lib (DestinationCtx options) img (dest c)
    (destState w) <> None
  \/ (RemoveSignatures options = false /\ imgSignatures img = OK sigs /\ sigs <> []
      /\ SupportsSignatures (dest c) (destState w) <> None) ->
  copyOneImage lib c policyContext options u si ti w = (r, w') ->
  stoppedEarly policyContext u w r w'.
Proof.
  intros Himg Hwhy Hrun. unfold copyOneImage in Hrun.
  assert (Hstop0 : forall e, stoppedEarly policyContext u w (Err e) w).
  { intros e. split; [reflexivity|]. split; [|by left].
    exists []. split; [by rewrite app_nil_r | constructor]. }
  apply bind_run in Hrun as [(multi & w0 & Hm & Hrun)|(e & Hm & ->)].
  2:{ injection Hm as _ <-. apply Hstop0. }
  apply liftR_OK in Hm as [_ ->].
  destruct multi; [injection Hrun as <- <-; apply Hstop0|].
  destruct (policyContext u) as [allowed policyErr] eqn:Hpol.
  destruct (negb allowed || bool_decide (policyErr <> None)) eqn:Hdeny.
  { destruct policyErr as [pe|]; simpl in Hrun; injection Hrun as <- <-;
      [apply Hstop0|].
    split; [reflexivity|]. split; [exists []; split; [by rewrite app_nil_r|constructor]|].
    right. split; [reflexivity|]. destruct allowed; [discriminate|exact Hpol]. }
  rewrite Himg in Hrun. simpl in Hrun. unfold bind at 1 in Hrun. simpl in Hrun.
  unfold bind at 1 in Hrun. simpl in Hrun.
  destruct (checkImageDestinationForCurrentRuntimeOS lib (DestinationCtx options) img
              (dest c) (destState w)) as [osErr|] eqn:Hos.
  { simpl in Hrun. unfold bind at 1 in Hrun. simpl in Hrun.
    injection Hrun as <- <-. apply Hstop0. }
  destruct Hwhy as [?|(Hkeep & Hsigs & Hsome & Hsup)]; [contradiction|].
  simpl in Hrun. unfold bind at 1 in Hrun. simpl in Hrun.
  rewrite Hkeep, Hsigs in Hrun.
  unfold bind at 1 in Hrun. unfold bind at 1 in Hrun. simpl in Hrun.
  assert (Hlen : (length sigs =? 0)%nat = false) by (by destruct sigs).
  rewrite Hlen in Hrun. simpl in Hrun.
  unfold bind at 1 in Hrun. unfold bind at 1 in Hrun. simpl in Hrun.
  unfold bind at 1 in Hrun. simpl in Hrun.
  destruct (SupportsSignatures (dest c) (destState w)) as [e|]; [|contradiction].
  simpl in Hrun. injection Hrun as <- <-.
  split; [reflexivity|]. split; [|by left].
  eexists [_; _]. simpl. split; [by rewrite <- app_assoc|]. by repeat constructor.
Qed.

(** X18.  [updateEmbeddedDockerReference] never touches the destination or the
    log.  It fails exactly when the image conflicts with the Docker reference
    of the destination and the manifest may not be modified, and then with
    the error that names the destination and its reference.  When it
    succeeds, of the image copier it changes at most the embedded Docker
    reference of the updates: that becomes the reference of the destination
    when the image conflicts with it, and stays as it was when the
    destination has no Docker reference or the image does not conflict. *)
Theorem updateEmbeddedDockerReference_frame ic w r w' :
  updateEmbeddedDockerReference ic w = (r, w') ->
  let destRef := DockerReference (dest (c ic)) (destState w) in
  let conflict :=
    match destRef with
    | Some name => imgEmbeddedDockerReferenceConflicts (src ic) name
    | None => false
    end in
  w' = w
  /\ (isOK r = false <-> conflict = true /\ canModifyManifest ic = false)
  /\ match r with
     | OK ic' =>
       sameImage ic ic'
       /\ diffIDsAreNeeded ic' = diffIDsAreNeeded ic
       /\ LayerInfos (manifestUpdates ic') = LayerInfos (manifestUpdates ic)
       /\ ManifestMIMEType (manifestUpdates ic') = ManifestMIMEType (manifestUpdates ic)
       /\ InformationOnly (manifestUpdates ic') = InformationOnly (manifestUpdates ic)
       /\ EmbeddedDockerReference (manifestUpdates ic')
          = (if conflict then destRef else EmbeddedDockerReference (manifestUpdates ic))
     | Err e =>
       exists name,
         destRef = Some name
         /\ e = New ("Copying a schema1 image with an embedded Docker reference to "
                     +:+ DestinationName (dest (c ic)) (destState w)
                     +:+ " (Docker reference " +:+ name
                     +:+ ") would invalidate existing signatures. Explicitly enable signature removal to proceed anyway")
     end.
Proof.
  unfold updateEmbeddedDockerReference, bind, getDest. simpl.
  destruct (DockerReference _ _) as [name|].
  2:{ intros [= <- <-]. split; [reflexivity|]. simpl.
      split; [split; [discriminate | intros [? _]; discriminate]|].
      unfold sameImage. tauto. }
  destruct (imgEmbeddedDockerReferenceConflicts (src ic) name) eqn:Hconflict; simpl.
  2:{ intros [= <- <-]. split; [reflexivity|]. simpl.
      split; [split; [discriminate | intros [? _]; discriminate]|].
      unfold sameImage. tauto. }
  destruct (canModifyManifest ic) eqn:Hcan; simpl; intros [= <- <-].
  - split; [reflexivity|]. simpl.
    split; [split; [discriminate | intros [_ ?]; discriminate]|].
    unfold sameImage. simpl. repeat split; done.
  - split; [reflexivity|]. simpl. split; [tauto|]. by exists name.
Qed.

End EarlyStopFacts.

(** ** Who a call is for *)

Section InstanceFacts.
Context {D : Type} (lib : Libraries).
Implicit Types (w : World D) (ic : imageCopier D) (c : copier D).

Lemma blobPhaseEvent_eventFor ti (e : Event) : blobPhaseEvent e -> eventFor ti e.
Proof. by destruct e. Qed.

Lemma printfEvent_eventFor ti (e : Event) : printfEvent e -> eventFor ti e.
Proof. by destruct e. Qed.

Lemma eventFor_copyEvent ti (e : Event) : eventFor ti e -> copyEvent e.
Proof. by destruct e. Qed.

Lemma eventFor_instanceEvent (instance : string) (e : Event) :
  eventFor (Some instance) e -> instanceEvent e.
Proof.
  destruct e; simpl; try done.
  - intros [_ Hi] ->. by specialize (Hi eq_refl).
  - by intros ->.
Qed.

Lemma instanceEvent_copyEvent (e : Event) : instanceEvent e -> copyEvent e.
Proof. by destruct e. Qed.

Lemma copyUpdatedConfigAndManifest_eventFor ic ti :
  emitsOnly (eventFor ti) (copyUpdatedConfigAndManifest lib ic ti).
Proof.
  intros w r w' Hrun.
  apply copyUpdatedConfigAndManifest_shape in Hrun
    as (pre & Hpre & [[Hlog _]|(m & i & Hlog & _ & Hi)]).
  - exists pre. split; [exact Hlog|].
    eapply Forall_impl; [exact Hpre|apply blobPhaseEvent_eventFor].
  - exists (pre ++ [EvPutManifest m i]). split; [exact Hlog|].
    apply Forall_app. split.
    + eapply Forall_impl; [exact Hpre|apply blobPhaseEvent_eventFor].
    + constructor; [|constructor]. simpl.
      destruct ti, i; try contradiction; split; intros; first [reflexivity|discriminate].
Qed.

Lemma tryOtherCandidates_eventFor ic ti candidates errs :
  emitsOnly (eventFor ti) (tryOtherCandidates lib ic ti candidates errs).
Proof.
  revert ic errs. induction candidates as [|t rest IH]; intros ic errs; simpl.
  - apply emitsOnly_ret.
  - apply emitsOnly_try; [apply copyUpdatedConfigAndManifest_eventFor|].
    intros [m|e]; [apply emitsOnly_ret | apply IH].
Qed.

Lemma commitManifest_eventFor ic ti preferred others :
  emitsOnly (eventFor ti) (commitManifest lib ic ti preferred others).
Proof.
  unfold commitManifest.
  apply emitsOnly_try; [apply copyUpdatedConfigAndManifest_eventFor|].
  intros [m|e]; [apply emitsOnly_ret|].
  destruct (negb (isManifestRejected e) || _); [apply emitsOnly_fail|].
  destruct (negb (canModifyManifest ic)); [apply emitsOnly_fail|].
  apply emitsOnly_bind; [apply tryOtherCandidates_eventFor|].
  intros [stored|errs]; [apply emitsOnly_ret | apply emitsOnly_fail].
Qed.

Lemma copyOneImageLayersAndManifest_eventFor c options ti sigs ic preferred others :
  emitsOnly (eventFor ti)
    (copyOneImageLayersAndManifest lib c options ti sigs ic preferred others).
Proof.
  unfold copyOneImageLayersAndManifest.
  apply emitsOnly_bind.
  { eapply emitsOnly_weaken; [apply blobPhaseEvent_eventFor|apply copyLayers_emits]. }
  intros ic1. apply emitsOnly_bind; [apply commitManifest_eventFor|].
  intros [m t]. apply emitsOnly_bind; [apply signIfAsked_emits|]. intros sigs'.
  apply emitsOnly_bind; [by apply Printf_emits|]. intros [].
  apply emitsOnly_bind; [|intros []; apply emitsOnly_ret].
  apply emitsOnly_wrapM. by apply destPutSignatures_emits.
Qed.

Lemma copyOneImage_eventFor c policyContext options u si ti :
  emitsOnly (eventFor ti) (copyOneImage lib c policyContext options u si ti).
Proof.
  intros w r w' Hrun.
  apply copyOneImage_prelude in Hrun
    as [(_ & (evs & Hlog & Hevs) & _)
       |(src0 & sigs & ic1 & preferred & others & ic2 & w1 & _ & _ & _ & _ & _ & _
         & (evs0 & Hlog0 & Hevs0) & Hrun)].
  - exists evs. split; [exact Hlog|].
    eapply Forall_impl; [exact Hevs|apply printfEvent_eventFor].
  - apply copyOneImageLayersAndManifest_eventFor in Hrun as (evs1 & Hlog1 & Hevs1).
    exists (evs0 ++ evs1). split; [by rewrite Hlog1, Hlog0, <- app_assoc|].
    apply Forall_app. split; [|exact Hevs1].
    eapply Forall_impl; [exact Hevs0|apply printfEvent_eventFor].
Qed.

(** X19.  Whatever [copyOneImage] does, it does for its target instance: every
    call of [PutSignatures] names that instance, a manifest is handed to
    [PutManifest] with an instance digest exactly when an instance of a list
    is copied, and the destination is neither committed nor closed. *)
Theorem copyOneImage_acts_for_its_instance c (policyContext : PolicyContext) options
    (u : UnparsedImage) (si ti : option string) w r w' :
  copyOneImage lib c policyContext options u si ti w = (r, w') ->
  exists evs, log w' = log w ++ evs /\ Forall (eventFor ti) evs.
Proof. apply copyOneImage_eventFor. Qed.

Lemma copyInstances_instanceEvent c policyContext options instanceBlobs :
  emitsOnly instanceEvent (copyInstances lib c policyContext options instanceBlobs).
Proof.
  induction instanceBlobs as [|instance rest IH]; simpl; [apply emitsOnly_ret|].
  apply emitsOnly_bind.
  { eapply emitsOnly_weaken; [apply eventFor_instanceEvent|apply copyOneImage_eventFor]. }
  intros [m t]. apply emitsOnly_bind; [apply emitsOnly_liftR|]. intros md.
  apply emitsOnly_bind; [exact IH|]. intros updates. apply emitsOnly_ret.
Qed.

(** What the loop records for a copied instance whose copy returned the
    manifest [m] of type [t]. *)
Lemma copyInstances_cons_OK c (policyContext : PolicyContext) options
    (instance : ListUpdate) (rest : list ListUpdate) w (m : list byte) (t md : string)
    w1 (others : list ListUpdate) w2 :
  copyOneImage lib c policyContext options
    (instances (rawSource c) (Some (InstanceDigest instance)))
    (Some (InstanceDigest instance)) (Some (InstanceDigest instance)) w
  = (OK (m, t), w1) ->
  manifestDigest lib m = OK md ->
  copyInstances lib c policyContext options rest w1 = (OK others, w2) ->
  copyInstances lib c policyContext options (instance :: rest) w
  = (OK ({| InstanceDigest := md; InstanceSize := Z.of_nat (length m);
            InstanceMediaType := t |} :: others), w2).
Proof.
  intros Hone Hmd Hrest. simpl. unfold bind at 1. rewrite Hone.
  unfold bind at 1, liftR. rewrite Hmd. unfold bind at 1. rewrite Hrest.
  reflexivity.
Qed.

(** X20.  The updates that the loop of [copyMultipleImages] collects, when it
    succeeds: one for every instance of the list, in the order of the list.
    For every instance of the list, the loop has copied the instances before
    it, from the state it started in; in the state that this reached it has
    called [copyOneImage] for the instance, and the update at the place of
    the instance describes the manifest that this very call returned, by its
    digest, its length and its media type; from the state that the call
    left, the loop has copied the instances after it, and ended in the state
    in which the whole loop ends.  While the instances are copied every
    manifest and every set of signatures goes with an instance digest, and
    nothing is committed. *)
Theorem copyInstances_updates c (policyContext : PolicyContext) options
    (instanceBlobs : list ListUpdate) w (updates : list ListUpdate) w' :
  copyInstances lib c policyContext options instanceBlobs w = (OK updates, w') ->
  length updates = length instanceBlobs
  /\ (forall (before : list ListUpdate) (instance : ListUpdate) (after : list ListUpdate),
        instanceBlobs = before ++ instance :: after ->
        exists (updatesBefore : list ListUpdate) (update : ListUpdate)
               (updatesAfter : list ListUpdate) w1 (m : list byte) (t : string) w2,
          updates = updatesBefore ++ update :: updatesAfter
          /\ copyInstances lib c policyContext options before w = (OK updatesBefore, w1)
          /\ copyOneImage lib c policyContext options
               (instances (rawSource c) (Some (InstanceDigest instance)))
               (Some (InstanceDigest instance)) (Some (InstanceDigest instance)) w1
             = (OK (m, t), w2)
          /\ manifestDigest lib m = OK (InstanceDigest update)
          /\ InstanceSize update = Z.of_nat (length m)
          /\ InstanceMediaType update = t
          /\ copyInstances lib c policyContext options after w2 = (OK updatesAfter, w'))
  /\ exists evs, log w' = log w ++ evs /\ Forall instanceEvent evs.
Proof.
  intros Hrun.
  split; [|split; [|exact (copyInstances_instanceEvent _ _ _ _ _ _ _ Hrun)]].
  - revert w updates w' Hrun.
    induction instanceBlobs as [|instance rest IH]; intros w updates w' Hrun;
      simpl in Hrun.
    + by injection Hrun as <- _.
    + apply bind_run in Hrun as [([m t] & w1 & Hone & Hrun)|(e & _ & ?)]; [|discriminate].
      apply bind_run in Hrun as [(md & w2 & Hmd & Hrun)|(e & _ & ?)]; [|discriminate].
      apply bind_run in Hrun as [(others & w3 & Hrest & Hrun)|(e & _ & ?)]; [|discriminate].
      injection Hrun as <- _. simpl. f_equal. exact (IH _ _ _ Hrest).
  - intros before. revert instanceBlobs w updates Hrun.
    induction before as [|b before IH];
      intros instanceBlobs w updates Hrun instance after ->; simpl in Hrun.
    + apply bind_run in Hrun as [([m t] & w1 & Hone & Hrun)|(e & _ & ?)]; [|discriminate].
      apply bind_run in Hrun as [(md & w2 & Hmd & Hrun)|(e & _ & ?)]; [|discriminate].
      apply liftR_OK in Hmd as [Hmd ->].
      apply bind_run in Hrun as [(others & w3 & Hrest & Hrun)|(e & _ & ?)]; [|discriminate].
      injection Hrun as <- <-.
      exists [], {| InstanceDigest := md; InstanceSize := Z.of_nat (length m);
                    InstanceMediaType := t |}, others, w, m, t, w1.
      simpl. repeat split; done.
    + apply bind_run in Hrun as [([m0 t0] & w1 & Hone & Hrun)|(e & _ & ?)]; [|discriminate].
      apply bind_run in Hrun as [(md & w2 & Hmd & Hrun)|(e & _ & ?)]; [|discriminate].
      apply liftR_OK in Hmd as [Hmd ->].
      apply bind_run in Hrun as [(others & w3 & Hrest & Hrun)|(e & _ & ?)]; [|discriminate].
      injection Hrun as <- <-.
      destruct (IH _ _ _ Hrest instance after eq_refl)
        as (ub & u & ua & wb & m & t & wc & -> & Hbefore & Hcall & Hdigest & Hsize
            & Htype & Hafter).
      exists ({| InstanceDigest := md; InstanceSize := Z.of_nat (length m0);
                 InstanceMediaType := t0 |} :: ub), u, ua, wb, m, t, wc.
      split; [reflexivity|].
      split; [exact (copyInstances_cons_OK _ _ _ _ _ _ _ _ _ _ _ _ Hone Hmd Hbefore)|].
      done.
Qed.

Lemma copyMultipleImages_copyEvent c policyContext options toplevel :
  emitsOnly copyEvent (copyMultipleImages lib c policyContext options toplevel).
Proof.
  unfold copyMultipleImages.
  apply emitsOnly_bind; [emits|]. intros [manifestList manifestType].
  apply emitsOnly_bind; [emits|]. intros list.
  apply emitsOnly_bind.
  { destruct (RemoveSignatures options); [apply emitsOnly_ret|].
    apply emitsOnly_bind; [by apply Printf_emits|]. intros []. apply emitsOnly_liftR. }
  intros sigs. apply emitsOnly_bind.
  { destruct (negb (length sigs =? 0)%nat); [|apply emitsOnly_ret].
    apply emitsOnly_bind; [by apply Printf_emits|]. intros []. emits. }
  intros []. apply emitsOnly_bind.
  { eapply emitsOnly_weaken; [apply instanceEvent_copyEvent
                             |apply copyInstances_instanceEvent]. }
  intros updates.
  apply emitsOnly_bind; [emits|]. intros list'.
  apply emitsOnly_bind; [emits|]. intros d.
  apply emitsOnly_bind; [emits|]. intros selected.
  apply emitsOnly_bind; [emits|]. intros [list'' modified].
  apply emitsOnly_bind; [emits|]. intros stored.
  apply emitsOnly_bind; [apply emitsOnly_wrapM; by apply destPutManifest_emits|].
  intros []. apply emitsOnly_bind; [apply signIfAsked_emits|]. intros sigs'.
  apply emitsOnly_bind; [by apply Printf_emits|]. intros [].
  apply emitsOnly_wrapM. by apply destPutSignatures_emits.
Qed.

(** X21.  When [copyMultipleImages] succeeds, the manifest of the list is stored
    after all instances were copied, without an instance digest, and the
    signatures of the list are stored last, without an instance digest
    either.  The list is stored as the source has it, or as [Serialize]
    encodes it, the latter only without signatures.  The signatures stored
    are those of the source (none when they are removed), and after them, if
    [SignBy] asks for one, a new signature of the list as stored. *)
Theorem copyMultipleImages_stores_list_last c (policyContext : PolicyContext) options
    (toplevel : UnparsedImage) w w' :
  copyMultipleImages lib c policyContext options toplevel w = (OK tt, w') ->
  exists evs listBytes listType sigs stored sigs',
    unparsedManifest toplevel = OK (listBytes, listType)
    /\ log w' = log w ++ evs ++ [EvPutManifest stored None;
                                 EvPrintf ("Storing list signatures" +:+ nl);
                                 EvPutSignatures sigs' None]
    /\ Forall instanceEvent evs
    /\ (if RemoveSignatures options then sigs = []
        else GetSignatures (rawSource c) None = OK sigs)
    /\ (stored = listBytes
        \/ (sigs = [] /\ exists list, Serialize lib list = OK stored))
    /\ if bool_decide (SignBy options <> EmptyString)
       then exists newSig,
              createSignature lib stored (SignBy options) = OK newSig
              /\ sigs' = sigs ++ [newSig]
       else sigs' = sigs.
Proof.
  intros Hrun. unfold copyMultipleImages in Hrun.
  apply bind_run in Hrun as [([listBytes listType] & w0 & Hread & Hrun)|(e & _ & ?)];
    [|discriminate].
  pose proof (liftR_wrap_OK _ _ _ _ _ Hread) as Hman.
  apply liftR_OK in Hread as [_ ->].
  apply bind_run in Hrun as [(list & w0 & Hlist & Hrun)|(e & _ & ?)]; [|discriminate].
  apply liftR_OK in Hlist as [_ ->].
  apply bind_run in Hrun as [(sigs & w1 & Hsigs & Hrun)|(e & _ & ?)]; [|discriminate].
  assert (H1 : (if RemoveSignatures options then sigs = []
                else GetSignatures (rawSource c) None = OK sigs)
               /\ exists evs1, log w1 = log w ++ evs1 /\ Forall instanceEvent evs1).
  { destruct (RemoveSignatures options).
    - injection Hsigs as <- <-. split; [reflexivity|]. exists [].
      by rewrite app_nil_r.
    - unfold Printf, bind, emit, liftR in Hsigs. simpl in Hsigs.
      destruct (GetSignatures (rawSource c) None) as [s|e]; simpl in Hsigs;
        [|discriminate].
      injection Hsigs as <- <-. split; [reflexivity|].
      eexists [_]. split; [reflexivity|]. by repeat constructor. }
  destruct H1 as (Hsource & evs1 & Hlog1 & Hevs1). clear Hsigs.
  apply bind_run in Hrun as [([] & w2 & Hsup & Hrun)|(e & _ & ?)]; [|discriminate].
  assert (H2 : exists evs2, log w2 = log w1 ++ evs2 /\ Forall instanceEvent evs2).
  { destruct (negb (length sigs =? 0)%nat).
    - unfold Printf, bind, emit, getDest, check in Hsup. simpl in Hsup.
      destruct (Wrap _ _); [discriminate|]. injection Hsup as <-.
      eexists [_]. split; [reflexivity|]. by repeat constructor.
    - injection Hsup as <-. exists []. by rewrite app_nil_r. }
  destruct H2 as (evs2 & Hlog2 & Hevs2). clear Hsup.
  apply bind_run in Hrun as [(updates & w3 & Hinst & Hrun)|(e & _ & ?)]; [|discriminate].
  apply copyInstances_instanceEvent in Hinst as (evs3 & Hlog3 & Hevs3).
  apply bind_run in Hrun as [(list' & w4 & Hupd & Hrun)|(e & _ & ?)]; [|discriminate].
  apply liftR_OK in Hupd as [_ ->].
  apply bind_run in Hrun as [(d & w4 & Hd & Hrun)|(e & _ & ?)]; [|discriminate].
  injection Hd as <- <-.
  apply bind_run in Hrun as [(selected & w4 & Hsel & Hrun)|(e & _ & ?)]; [|discriminate].
  apply liftR_OK in Hsel as [_ ->].
  apply bind_run in Hrun as [([list'' modified] & w4 & Hconv & Hrun)|(e & _ & ?)];
    [|discriminate].
  assert (w4 = w3) as ->.
  { destruct (bool_decide (fst selected <> listMIMEType list'));
      [|by injection Hconv as _ _ <-].
    destruct (bool_decide (fst selected = DockerV2ListMediaType));
      [|destruct (bool_decide (fst selected = MediaTypeImageIndex)); [|discriminate]].
    all: apply bind_run in Hconv as [(l & w5 & Hl & Hret)|(e & _ & ?)]; [|discriminate];
      apply liftR_OK in Hl as [_ ->]; by injection Hret as _ _ <-. }
  clear Hconv.
  apply bind_run in Hrun as [(stored & w4 & Hstored & Hrun)|(e & _ & ?)]; [|discriminate].
  assert (H4 : w4 = w3 /\ (stored = listBytes
                            \/ (sigs = [] /\ exists list, Serialize lib list = OK stored))).
  { destruct modified.
    - destruct (length sigs =? 0)%nat eqn:Hlen; simpl in Hstored; [|discriminate].
      pose proof (liftR_wrap_OK _ _ _ _ _ Hstored) as Hser.
      apply liftR_OK in Hstored as [_ ->]. split; [reflexivity|]. right.
      split; [by destruct sigs|]. by exists list''.
    - injection Hstored as <- <-. split; [reflexivity|]. by left. }
  destruct H4 as [-> Hwhat]. clear Hstored.
  apply bind_run in Hrun as [([] & w5 & Hput & Hrun)|(e & _ & ?)]; [|discriminate].
  unfold wrapM in Hput. destruct (destPutManifest _ _ _ _) as [r5 w5'] eqn:Hcall.
  injection Hput as _ <-. apply destPutManifest_log in Hcall.
  apply bind_run in Hrun as [(sigs' & w6 & Hsign & Hrun)|(e & _ & ?)]; [|discriminate].
  assert (Hsigned : w6 = w5'
                    /\ if bool_decide (SignBy options <> EmptyString)
                       then exists newSig,
                              createSignature lib stored (SignBy options) = OK newSig
                              /\ sigs' = sigs ++ [newSig]
                       else sigs' = sigs).
  { unfold signIfAsked in Hsign. destruct (bool_decide (SignBy options <> EmptyString)).
    - apply bind_run in Hsign as [(newSig & w7 & Hnew & Hret)|(e & _ & ?)];
        [|discriminate].
      apply liftR_OK in Hnew as [Hnew ->]. injection Hret as <- <-. eauto.
    - by injection Hsign as <- <-. }
  destruct Hsigned as [-> Hsigned]. clear Hsign.
  apply bind_run in Hrun as [([] & w7 & Hprint & Hrun)|(e & _ & ?)]; [|discriminate].
  injection Hprint as <-.
  unfold wrapM in Hrun. destruct (destPutSignatures _ _ _ _) as [r8 w8] eqn:Hcall8.
  injection Hrun as _ <-.
  assert (Hlog8 : log w8 = log w5' ++ [EvPrintf ("Storing list signatures" +:+ nl);
                                        EvPutSignatures sigs' None]).
  { unfold destPutSignatures, bind, emit, getDest, putDest, check in Hcall8.
    simpl in Hcall8. destruct (PutSignatures _ _ _ _) as [[e|] d'];
      injection Hcall8 as _ <-; simpl; by rewrite <- app_assoc. }
  exists (evs1 ++ evs2 ++ evs3), listBytes, listType, sigs, stored, sigs'.
  split; [exact Hman|]. split.
  { rewrite Hlog8, Hcall, Hlog3, Hlog2, Hlog1. by rewrite <- !app_assoc. }
  split; [by rewrite !Forall_app|]. done.
Qed.

End InstanceFacts.

(** ** Commit and Close *)

Section EntryFacts.
Context {D : Type} (lib : Libraries).
Implicit Types (w : World D) (c : copier D).

Lemma destCommit_log c w r w' :
  destCommit c w = (r, w') -> log w' = log w ++ [EvCommit].
Proof.
  unfold destCommit, bind, emit, getDest, putDest, check. simpl.
  destruct (Commit _ _) as [[e|] d']; by intros [= _ <-].
Qed.

Lemma copyOneImage_copyEvent c policyContext options u si ti :
  emitsOnly copyEvent (copyOneImage lib c policyContext options u si ti).
Proof.
  eapply emitsOnly_weaken; [apply eventFor_copyEvent|apply copyOneImage_eventFor].
Qed.

(** The shape of one run of [copyAndCommit]. *)
Lemma copyAndCommit_shape c (policyContext : PolicyContext) options w r w' :
  copyAndCommit lib c policyContext options w = (r, w') ->
  exists evs,
    Forall copyEvent evs
    /\ ((log w' = log w ++ evs /\ isOK r = false)
        \/ (log w' = log w ++ evs ++ [EvCommit]
            /\ (r = OK tt
                \/ exists e,
                     r = Err (WithMessage e "Error committing the finished image")))).
Proof.
  intros Hrun. unfold copyAndCommit in Hrun.
  assert (Hstop : forall w0 e, w0 = w -> (Err e : result unit, w0) = (r, w') ->
            exists evs, Forall copyEvent evs
              /\ ((log w' = log w ++ evs /\ isOK r = false)
                  \/ (log w' = log w ++ evs ++ [EvCommit]
                      /\ (r = OK tt
                          \/ exists e,
                               r = Err (WithMessage e
                                          "Error committing the finished image"))))).
  { intros w0 e -> [= <- <-]. exists []. split; [constructor|]. left.
    by rewrite app_nil_r. }
  apply bind_run in Hrun as [([mfest manifestType] & w0 & Hread & Hrun)|(e & Hread & ->)].
  2:{ apply (Hstop w' e); [by injection Hread|reflexivity]. }
  apply liftR_OK in Hread as [_ ->].
  apply bind_run in Hrun as [(multi & w0 & Hmulti & Hrun)|(e & Hmulti & ->)].
  2:{ apply (Hstop w' e); [by injection Hmulti|reflexivity]. }
  apply liftR_OK in Hmulti as [_ ->].
  assert (Hcopy : emitsOnly copyEvent
            (if negb multi then
               copyOneImage lib c policyContext options (instances (rawSource c) None)
                 None None ;;; ret tt
             else if bool_decide (MultipleImages options = CopyOnlyCurrentRuntimeImage) then
               manifestList <- liftR (wrapResult (ListFromBlob lib mfest manifestType)
                                        ("Error parsing primary manifest as list for "
                                         +:+ SourceName (rawSource c))) ;;
               instanceDigest <- liftR (wrapResult
                                          (ChooseInstance lib manifestList (SourceCtx options))
                                          ("Error choosing an image from manifest list "
                                           +:+ SourceName (rawSource c))) ;;
               copyOneImage lib c policyContext options
                 (instances (rawSource c) (Some instanceDigest))
                 (Some instanceDigest) None ;;;
               ret tt
             else
               d <- getDest ;;
               if negb (supportsMultipleImages (dest c) d) then
                 fail (New ("Error copying multiple images: destination reference "
                            +:+ quoted (DestinationName (dest c) d)
                            +:+ " does not support multiple images"))
               else copyMultipleImages lib c policyContext options
                      (instances (rawSource c) None))).
  { destruct (negb multi).
    - apply emitsOnly_bind; [apply copyOneImage_copyEvent|]. intros ?. apply emitsOnly_ret.
    - destruct (bool_decide (MultipleImages options = CopyOnlyCurrentRuntimeImage)).
      + apply emitsOnly_bind; [apply emitsOnly_liftR|]. intros manifestList.
        apply emitsOnly_bind; [apply emitsOnly_liftR|]. intros instanceDigest.
        apply emitsOnly_bind; [apply copyOneImage_copyEvent|]. intros ?.
        apply emitsOnly_ret.
      + apply emitsOnly_bind; [apply emitsOnly_getDest|]. intros d.
        destruct (negb (supportsMultipleImages (dest c) d)); [apply emitsOnly_fail|].
        apply copyMultipleImages_copyEvent. }
  apply bind_run in Hrun as [([] & w1 & Hdone & Hrun)|(e & Hdone & ->)].
  2:{ apply Hcopy in Hdone as (evs & Hlog & Hevs). exists evs.
      split; [exact Hevs|]. left. by split. }
  apply Hcopy in Hdone as (evs & Hlog & Hevs). exists evs. split; [exact Hevs|].
  right. unfold wrapM in Hrun. destruct (destCommit c w1) as [r2 w2] eqn:Hcommit.
  injection Hrun as <- <-. apply destCommit_log in Hcommit.
  split; [by rewrite Hcommit, Hlog, <- app_assoc|].
  destruct r2 as [[]|e]; [by left|right; by exists e].
Qed.

Lemma copyImages_copyEvent c (policyContext : PolicyContext) options :
  emitsOnly copyEvent (copyImages lib c policyContext options).
Proof.
  unfold copyImages.
  apply emitsOnly_bind; [apply emitsOnly_liftR|]. intros [mfest manifestType].
  apply emitsOnly_bind; [apply emitsOnly_liftR|]. intros multi.
  destruct (negb multi).
  - apply emitsOnly_bind; [apply copyOneImage_copyEvent|]. intros ?. apply emitsOnly_ret.
  - destruct (bool_decide (MultipleImages options = CopyOnlyCurrentRuntimeImage)).
    + apply emitsOnly_bind; [apply emitsOnly_liftR|]. intros manifestList.
      apply emitsOnly_bind; [apply emitsOnly_liftR|]. intros instanceDigest.
      apply emitsOnly_bind; [apply copyOneImage_copyEvent|]. intros ?.
      apply emitsOnly_ret.
    + apply emitsOnly_bind; [apply emitsOnly_getDest|]. intros d.
      destruct (negb (supportsMultipleImages (dest c) d)); [apply emitsOnly_fail|].
      apply copyMultipleImages_copyEvent.
Qed.

(** X22.  [copyAndCommit] copies the images and then, only if that went
    without an error, calls [Commit] once, on the destination as the copy
    left it, as its last call on the destination; an error of the copy comes
    back as it is, with nothing committed.  After [Commit] the copy is a
    success exactly if [Commit] returned no error; an error of [Commit]
    comes back wrapped as "Error committing the finished image".  The copy
    itself commits nothing and closes nothing. *)
Theorem copyAndCommit_commits_last c (policyContext : PolicyContext) options w :
  let copied := copyImages lib c policyContext options w in
  let committed := Commit (dest c) (destState (snd copied)) in
  copyAndCommit lib c policyContext options w
  = match fst copied with
    | Err e => (Err e, snd copied)
    | OK _ =>
      (match fst committed with
       | None => OK tt
       | Some e => Err (WithMessage e "Error committing the finished image")
       end,
       {| destState := snd committed;
          cachedDiffIDs := cachedDiffIDs (snd copied);
          log := log (snd copied) ++ [EvCommit] |})
    end
  /\ exists evs, log (snd copied) = log w ++ evs /\ Forall copyEvent evs.
Proof.
  intros copied committed. split.
  2:{ exact (copyImages_copyEvent c policyContext options w (fst copied) (snd copied)
               (surjective_pairing _)). }
  subst committed copied.
  cbv beta zeta delta [copyAndCommit copyImages bind liftR].
  destruct (wrapResult (unparsedManifest _) _) as [[mfest manifestType]|e];
    cbv beta iota zeta; [|reflexivity].
  destruct (wrapResult (isMultiImage _) _) as [multi|e];
    cbv beta iota zeta; [|reflexivity].
  match goal with
  | |- context [fst ?run] => destruct run as [[[]|e] w1]
  end; cbn [fst snd]; [|reflexivity].
  unfold wrapM, destCommit, bind, emit, getDest, putDest, check. simpl.
  destruct (Commit (dest c) (destState w1)) as [[e|] d']; reflexivity.
Qed.

Lemma copyEvent_notClose (e : Event) : copyEvent e -> notClose e.
Proof. by destruct e. Qed.

(** X23.  Once the destination is open, [Image] closes it whatever happens
    afterwards, as the last thing it does; and a source that was opened is
    closed just before, once.  A source that could not be opened leaves the
    [Close] of the destination as the only call. *)
Theorem Image_closes_what_it_opened (policyContext : PolicyContext)
    (destRef : DestinationReference D) (srcRef : SourceReference)
    (options : option Options) (d0 : D) :
  MultipleImages (default Options_zero options) = CopyAllImages
  \/ MultipleImages (default Options_zero options) = CopyOnlyCurrentRuntimeImage ->
  NewImageDestination destRef (DestinationCtx (default Options_zero options)) = OK d0 ->
  exists retErr w,
    Image lib policyContext destRef srcRef options = (retErr, Some w)
    /\ match NewImageSource srcRef (SourceCtx (default Options_zero options)) with
       | Err _ => log w = [EvCloseDestination] /\ destState w = d0
       | OK _ =>
         exists evs,
           log w = evs ++ [EvCloseSource; EvCloseDestination]
           /\ Forall notClose evs
       end.
Proof.
  intros Hvalid Hdest. unfold Image.
  assert (Hok : bool_decide (MultipleImages (default Options_zero options) <> CopyAllImages)
                && bool_decide (MultipleImages (default Options_zero options)
                                <> CopyOnlyCurrentRuntimeImage) = false).
  { destruct Hvalid as [->| ->].
    - by rewrite bool_decide_eq_false_2 by (intros Hne; by apply Hne).
    - rewrite (bool_decide_eq_false_2 (CopyOnlyCurrentRuntimeImage
                                       <> CopyOnlyCurrentRuntimeImage))
        by (intros Hne; by apply Hne).
      apply andb_false_r. }
  rewrite Hok, Hdest.
  destruct (NewImageSource srcRef _) as [rawSource|e].
  - destruct (copyAndCommit lib _ policyContext _ _) as [r w1] eqn:Hrun.
    eexists _, _. split; [reflexivity|].
    apply copyAndCommit_shape in Hrun as (evs & Hevs & Hlog). simpl in Hlog.
    destruct Hlog as [[Hlog _]|[Hlog _]].
    + exists evs. simpl. rewrite Hlog. split; [by rewrite <- app_assoc|].
      eapply Forall_impl; [exact Hevs|apply copyEvent_notClose].
    + exists (evs ++ [EvCommit]). simpl. rewrite Hlog. split; [by rewrite <- !app_assoc|].
      apply Forall_app. split; [|by repeat constructor].
      eapply Forall_impl; [exact Hevs|apply copyEvent_notClose].
  - eexists _, _. split; [reflexivity|]. done.
Qed.

(** X24.  A copy that fails keeps its error as the cause of what [Image] returns:
    an error of a [Close] only adds a message around it, and without an error
    of a [Close] the error is returned as it is. *)
Theorem Image_keeps_primary_error (policyContext : PolicyContext)
    (destRef : DestinationReference D) (srcRef : SourceReference)
    (options : option Options) (d0 : D) (rawSource : ImageSource) (e : error)
    (w1 : World D) :
  MultipleImages (default Options_zero options) = CopyAllImages
  \/ MultipleImages (default Options_zero options) = CopyOnlyCurrentRuntimeImage ->
  NewImageDestination destRef (DestinationCtx (default Options_zero options)) = OK d0 ->
  NewImageSource srcRef (SourceCtx (default Options_zero options)) = OK rawSource ->
  copyAndCommit lib {| dest := destinationMethods destRef; rawSource := rawSource |}
    policyContext (default Options_zero options)
    {| destState := d0; cachedDiffIDs := ∅; log := [] |} = (Err e, w1) ->
  exists e',
    fst (Image lib policyContext destRef srcRef options) = Some e'
    /\ Cause e' = Cause e
    /\ (SourceClose rawSource = None ->
        DestinationClose (destinationMethods destRef) (destState w1) = None ->
        e' = e).
Proof.
  intros Hvalid Hdest Hsrc Hrun. unfold Image.
  assert (Hok : bool_decide (MultipleImages (default Options_zero options) <> CopyAllImages)
                && bool_decide (MultipleImages (default Options_zero options)
                                <> CopyOnlyCurrentRuntimeImage) = false).
  { destruct Hvalid as [->| ->].
    - by rewrite bool_decide_eq_false_2 by (intros Hne; by apply Hne).
    - rewrite (bool_decide_eq_false_2 (CopyOnlyCurrentRuntimeImage
                                       <> CopyOnlyCurrentRuntimeImage))
        by (intros Hne; by apply Hne).
      apply andb_false_r. }
  rewrite Hok, Hdest, Hsrc, Hrun. simpl.
  destruct (SourceClose rawSource) as [srcErr|],
           (DestinationClose (destinationMethods destRef) (destState w1)) as [destErr|];
    simpl; eexists; (split; [reflexivity|]); split; try reflexivity; try done.
Qed.

End EntryFacts.

(** ** The theorems at work on the small registry *)

Section Runs.
Import Demo.

(** Decides a closed statement by computation. *)
Ltac compute_it :=
  first [ reflexivity
        | vm_compute; reflexivity
        | apply bool_decide_unpack; vm_compute; exact I
        | intros Heq; vm_compute in Heq; discriminate Heq ].

Lemma Read_digest_mismatch_at_EOF_witness :
  exists d',
    DigestingReader.Read mismatchedReader 8
    = (([], Some (New "Digest did not match, expected sha256:xyz, got sha256:abc")), d')
    /\ DigestingReader.validationFailed d' = true
    /\ forall k lenp', DigestingReader.validationFailed
                         (DigestingReader.ReadMore k lenp' d') = true.
Proof.
  apply (DigestingReaderFacts.Read_digest_mismatch_at_EOF
           mismatchedReader 8 (bytes "abc") [] (bytes "abc")); compute_it.
Defined.

(** A Windows host takes an image made for FreeBSD, though exactly one of
    the two is "windows". *)
Lemma windows_host_accepts_freebsd_image :
  MustMatchRuntimeOS (registry matchingSettings) emptyRegistry = true
  /\ imgOCIConfigOS (image MediaTypeImageManifest [layer] [] "freebsd") = OK "freebsd"
  /\ xorb (bool_decide ("freebsd" = "windows"))
          (bool_decide (wantedOS (demoLib "windows") None = "windows")) = true
  /\ checkImageDestinationForCurrentRuntimeOS (demoLib "windows") None
       (image MediaTypeImageManifest [layer] [] "freebsd")
       (registry matchingSettings) emptyRegistry = None.
Proof. repeat split; vm_compute; reflexivity. Qed.

Lemma checkImageDestinationForCurrentRuntimeOS_rejects_witness :
  (checkImageDestinationForCurrentRuntimeOS (demoLib "linux") None
     (image MediaTypeImageManifest [layer] [] "windows")
     (registry matchingSettings) emptyRegistry <> None
   <-> (wantedOS (demoLib "linux") None = "windows" /\ "windows" = "linux")
       \/ (wantedOS (demoLib "linux") None <> "windows" /\ "windows" = "windows"))
  /\ (checkImageDestinationForCurrentRuntimeOS (demoLib "linux") None
        (image MediaTypeImageManifest [layer] [] "windows")
        (registry matchingSettings) emptyRegistry = None
      \/ checkImageDestinationForCurrentRuntimeOS (demoLib "linux") None
           (image MediaTypeImageManifest [layer] [] "windows")
           (registry matchingSettings) emptyRegistry
         = Some (New ("image operating system " +:+ quoted "windows"
                      +:+ " cannot be used on "
                      +:+ quoted (wantedOS (demoLib "linux") None)))).
Proof.
  apply (checkImageDestinationForCurrentRuntimeOS_rejects (demoLib "linux") None
           (image MediaTypeImageManifest [layer] [] "windows")
           (registry matchingSettings) emptyRegistry "windows"); compute_it.
Defined.

Lemma copyLayer_skip_path_witness :
  copyLayer (demoLib "linux") (imageCopierOf plainSettings plainImage false true)
    layer worldWithLayer
  = (OK (layer, EmptyString),
     {| destState := destState worldWithLayer;
        cachedDiffIDs := ∅;
        log := [EvHasBlob layer; EvReapplyBlob layer;
                EvPrintf ("Skipping fetch of repeat blob " +:+ Digest layer +:+ nl)] |}).
Proof.
  rewrite (copyLayer_skip_path (demoLib "linux")
             (imageCopierOf plainSettings plainImage false true)
             layer worldWithLayer 9 (OK layer) (destState worldWithLayer));
    compute_it.
Defined.

Lemma copyLayers_foreign_layer_witness :
  copyLayersBody (demoLib "linux") (imageCopierOf foreignSettings plainImage true true)
    foreignLayer emptyWorld
  = (Err (New "getting DiffID for foreign layers is unimplemented"), emptyWorld)
  /\ copyLayersLoop (demoLib "linux") (imageCopierOf foreignSettings plainImage true true)
       [foreignLayer; layer] [] [] emptyWorld
     = (Err (New "getting DiffID for foreign layers is unimplemented"), emptyWorld).
Proof.
  apply (copyLayers_foreign_layer (demoLib "linux")
           (imageCopierOf foreignSettings plainImage true true)
           foreignLayer [layer] [] [] emptyWorld); compute_it.
Defined.

(** The config of [imageWithConfig] reaches a registry that wants compressed
    layers as it is. *)
Lemma copyConfig_uncompressed_digest_checked_witness :
  exists r,
    copyConfig (demoLib "linux")
      {| dest := registry compressingSettings; rawSource := source imageWithConfig None |}
      imageWithConfig emptyWorld
    = (r, {| destState := {| blobs := [("sha256:config", 6)]; manifests := [] |};
             cachedDiffIDs := ∅;
             log := [EvPrintf ("Copying config sha256:config" +:+ nl);
                     EvPutBlob (bytesReader configText) (imgConfigInfo imageWithConfig)] |})
    /\ r = OK tt.
Proof.
  destruct (copyConfig_uncompressed_digest_checked (demoLib "linux")
              {| dest := registry compressingSettings;
                 rawSource := source imageWithConfig None |}
              imageWithConfig emptyWorld configText None
              {| Digest := "sha256:config"; Size := 6; URLs := None;
                 MediaType := EmptyString |}
              true {| blobs := [("sha256:config", 6)]; manifests := [] |})
    as (r & Hrun & _ & Hr); try compute_it.
  - split; compute_it.
  - exists r. split; [exact Hrun | exact Hr].
Defined.

(** The layer of [signedImage] reaches a registry that wants compressed
    layers as it is, under its own digest. *)
Lemma copyLayer_fetch_compression_witness :
  exists r w',
    copyLayer (demoLib "linux") (imageCopierOf compressingSettings signedImage false false)
      layer emptyWorld = (r, w')
    /\ log w' = [EvHasBlob layer;
                 EvPrintf ("Copying blob " +:+ Digest layer +:+ nl);
                 EvGetBlob layer;
                 EvPutBlob (bytesReader layerText) layer]
    /\ match r with
       | OK (blobInfo, _) => Digest blobInfo = Digest layer
       | Err _ => True
       end.
Proof.
  destruct (copyLayer_fetch_compression (demoLib "linux")
              (imageCopierOf compressingSettings signedImage false false)
              layer emptyWorld false (-1) (bytesReader layerText) 9 None
              (OK layer) true
              {| blobs := [(Digest layer, 9)]; manifests := [] |})
    as (_ & r & w' & Hrun & Hlog & _ & _ & _ & Hr); try compute_it.
  - split; compute_it.
  - exists r, w'. split; [exact Hrun|]. split; [exact Hlog | exact Hr].
Defined.

(** Both [Close] calls fail after a good copy, and [Image] returns nil. *)
Lemma Image_close_errors_are_dropped_witness :
  Image (demoLib "linux") admitAll (destinationReference failingCloseSettings)
    (sourceReference plainImage (Some (New "closing the source failed"))) None
  = (None,
     Some (logged EvCloseDestination
             (logged EvCloseSource
                (snd (copyAndCommit (demoLib "linux")
                        {| dest := registry failingCloseSettings;
                           rawSource := source plainImage
                                          (Some (New "closing the source failed")) |}
                        admitAll Options_zero emptyWorld)))))
  /\ SourceClose (source plainImage (Some (New "closing the source failed"))) <> None
  /\ DestinationClose (registry failingCloseSettings) emptyRegistry <> None.
Proof.
  split; [|split; discriminate].
  apply (Image_close_errors_are_dropped (demoLib "linux") admitAll
           (destinationReference failingCloseSettings)
           (sourceReference plainImage (Some (New "closing the source failed")))
           None emptyRegistry
           (source plainImage (Some (New "closing the source failed")))).
  - right. reflexivity.
  - reflexivity.
  - reflexivity.
  - vm_compute. reflexivity.
Defined.

(** At the picky registry the OCI manifest is rejected for its type, the
    schema2 manifest fails for another reason, and the copy still goes on to
    the schema1 manifest, which is stored. *)
Lemma fallback_goes_on_after_other_failure :
  manifestVerdict pickySettings (manifestText DockerV2Schema2MediaType [layer])
  = Some (New "connection reset by peer")
  /\ isManifestRejected (WithMessage (New "connection reset by peer")
                           "Error writing manifest") = false
  /\ putManifests
       (log (snd (copyOneImage (demoLib "linux")
                    {| dest := registry pickySettings; rawSource := source plainImage None |}
                    admitAll Options_zero (unparsed plainImage) None None emptyWorld)))
     = [(manifestText MediaTypeImageManifest [layer], None);
        (manifestText DockerV2Schema2MediaType [layer], None);
        (manifestText DockerV2Schema1SignedMediaType [layer], None)]
  /\ fst (copyOneImage (demoLib "linux")
            {| dest := registry pickySettings; rawSource := source plainImage None |}
            admitAll Options_zero (unparsed plainImage) None None emptyWorld)
     = OK (manifestText DockerV2Schema1SignedMediaType [layer],
           DockerV2Schema1SignedMediaType).
Proof. repeat split; vm_compute; reflexivity. Qed.

Lemma commitManifest_retry_witness :
  fst (commitManifest (demoLib "linux") (imageCopierOf pickySettings plainImage false true)
         None MediaTypeImageManifest
         [DockerV2Schema2MediaType; DockerV2Schema1SignedMediaType] emptyWorld)
  = OK (manifestText DockerV2Schema1SignedMediaType [layer], DockerV2Schema1SignedMediaType).
Proof.
  set (ic := imageCopierOf pickySettings plainImage false true).
  pose (w1 := snd (copyUpdatedConfigAndManifest (demoLib "linux") ic None emptyWorld)).
  pose (ic2 := setManifestMIMEType ic DockerV2Schema2MediaType).
  pose (w2 := snd (copyUpdatedConfigAndManifest (demoLib "linux") ic2 None w1)).
  pose (ic3 := setManifestMIMEType ic2 DockerV2Schema1SignedMediaType).
  pose (w3 := snd (copyUpdatedConfigAndManifest (demoLib "linux") ic3 None w2)).
  rewrite (commitManifest_retry (demoLib "linux") ic None MediaTypeImageManifest
             [DockerV2Schema2MediaType; DockerV2Schema1SignedMediaType] emptyWorld
             (WithMessage (ManifestTypeRejectedError (New "manifest type not accepted"))
                "Error writing manifest")
             w1
             [WithMessage (New "connection reset by peer") "Error writing manifest"]
             w3
             (Some (manifestText DockerV2Schema1SignedMediaType [layer],
                    DockerV2Schema1SignedMediaType))).
  - reflexivity.
  - vm_compute. reflexivity.
  - change (fallbackAttempts (demoLib "linux") None ic
              [DockerV2Schema2MediaType; DockerV2Schema1SignedMediaType] w1
              [WithMessage (New "connection reset by peer") "Error writing manifest"]
              w3
              (Some (manifestText DockerV2Schema1SignedMediaType [layer],
                     DockerV2Schema1SignedMediaType))).
    apply (attempts_failed _ _ _ _ _ _ _ w2).
    + vm_compute. reflexivity.
    + apply attempts_stored. vm_compute. reflexivity.
Defined.

(** A signed OCI index goes to a registry whose lists are schema2 lists.
    The copy fails, as the list would have to be converted; by then the
    manifest of the instance has been handed to [PutManifest], and the
    registry holds it. *)
Lemma instance_manifest_stored_before_list_fails :
  RemoveSignatures Options_zero = false
  /\ GetSignatures indexSource None = OK [bytes "signature of the index"]
  /\ determineListConversion MediaTypeImageIndex (supported schema2ListSettings) EmptyString
     = OK (DockerV2ListMediaType, [])
  /\ fst (copyMultipleImages (demoLib "linux")
            {| dest := registry schema2ListSettings; rawSource := indexSource |}
            admitAll Options_zero (instances indexSource None) emptyWorld)
     = Err (New "Internal error: copyMultipleImages() needs to use an updated manifest but that was known to be forbidden")
  /\ map fst (putManifests
                (log (snd (copyMultipleImages (demoLib "linux")
                             {| dest := registry schema2ListSettings;
                                rawSource := indexSource |}
                             admitAll Options_zero (instances indexSource None)
                             emptyWorld))))
     = [manifestText MediaTypeImageManifest [layer]]
  /\ manifests (destState (snd (copyMultipleImages (demoLib "linux")
                                  {| dest := registry schema2ListSettings;
                                     rawSource := indexSource |}
                                  admitAll Options_zero (instances indexSource None)
                                  emptyWorld)))
     = [manifestText MediaTypeImageManifest [layer]].
Proof. repeat split; vm_compute; reflexivity. Qed.

(** A signed OCI image goes to a registry that takes schema2 only: the copy
    fails and no manifest is handed over.  The same image goes to a registry
    that holds its layer and returns it under another digest: the copy fails
    and no manifest is handed over.  And the signed index above, whose list
    would have to be converted: the copy fails and no list is handed over. *)
Lemma signed_manifests_are_not_rewritten_witness :
  (isOK (fst (copyOneImage (demoLib "linux")
                {| dest := registry schema2Settings; rawSource := source signedImage None |}
                admitAll Options_zero (unparsed signedImage) None None emptyWorld)) = false
   /\ putManifests
        (log (snd (copyOneImage (demoLib "linux")
                     {| dest := registry schema2Settings;
                        rawSource := source signedImage None |}
                     admitAll Options_zero (unparsed signedImage) None None emptyWorld)))
      = [])
  /\ (isOK (fst (copyOneImage (demoLib "linux")
                   {| dest := renamingRegistry; rawSource := source signedImage None |}
                   admitAll Options_zero (unparsed signedImage) None None
                   worldWithLayer)) = false
      /\ putManifests
           (log (snd (copyOneImage (demoLib "linux")
                        {| dest := renamingRegistry;
                           rawSource := source signedImage None |}
                        admitAll Options_zero (unparsed signedImage) None None
                        worldWithLayer)))
         = [])
  /\ (isOK (fst (copyMultipleImages (demoLib "linux")
                   {| dest := registry schema2ListSettings; rawSource := indexSource |}
                   admitAll Options_zero (instances indexSource None) emptyWorld)) = false
      /\ Forall (fun stored => snd stored <> None)
           (putManifests
              (log (snd (copyMultipleImages (demoLib "linux")
                           {| dest := registry schema2ListSettings;
                              rawSource := indexSource |}
                           admitAll Options_zero (instances indexSource None)
                           emptyWorld))))).
Proof.
  destruct (signed_manifests_are_not_rewritten (D:=Registry) (demoLib "linux"))
    as [Hone Hlist].
  split; [|split].
  - destruct (Hone {| dest := registry schema2Settings; rawSource := source signedImage None |}
                admitAll Options_zero (unparsed signedImage) None None signedImage
                [bytes "signature"] emptyWorld _ _
                eq_refl eq_refl eq_refl eq_refl ltac:(discriminate)
                (surjective_pairing _))
      as (evs & Hlog & _ & Hreq).
    assert (Hrequired : rewriteRequired
                          {| dest := registry schema2Settings;
                             rawSource := source signedImage None |}
                          signedImage Options_zero (destState emptyWorld) = true)
      by (vm_compute; reflexivity).
    rewrite Hrequired in Hreq. destruct Hreq as [Hfail Hnone].
    split; [exact Hfail|]. rewrite Hlog. exact Hnone.
  - destruct (Hone {| dest := renamingRegistry; rawSource := source signedImage None |}
                admitAll Options_zero (unparsed signedImage) None None signedImage
                [bytes "signature"] worldWithLayer _ _
                eq_refl eq_refl eq_refl eq_refl ltac:(discriminate)
                (surjective_pairing _))
      as (evs & Hlog & _ & Hreq).
    assert (Hrenamed : layersRenamed (demoLib "linux")
                         {| dest := renamingRegistry;
                            rawSource := source signedImage None |}
                         signedImage worldWithLayer = true)
      by (vm_compute; reflexivity).
    rewrite Hrenamed, orb_true_r in Hreq. destruct Hreq as [Hfail Hnone].
    split; [exact Hfail|]. rewrite Hlog. exact Hnone.
  - destruct (Hlist {| dest := registry schema2ListSettings; rawSource := indexSource |}
                admitAll Options_zero (instances indexSource None) indexText
                MediaTypeImageIndex [bytes "signature of the index"] emptyWorld _ _
                eq_refl eq_refl eq_refl ltac:(discriminate) (surjective_pairing _))
      as (evs & Hlog & _ & Hreq).
    assert (Hrequired : listChangeRequired (demoLib "linux")
                          {| dest := registry schema2ListSettings;
                             rawSource := indexSource |}
                          admitAll Options_zero indexText MediaTypeImageIndex emptyWorld
                        = true)
      by (vm_compute; reflexivity).
    rewrite Hrequired in Hreq. destruct Hreq as [Hfail Hnone].
    split; [exact Hfail|]. rewrite Hlog. exact Hnone.
Defined.

(** An unsigned OCI image goes to a registry that supports its type, has no
    Docker reference and wants its layers compressed.  The copy succeeds;
    the layer got another digest on the way, and the manifest handed to
    [PutManifest] is not the manifest of the source. *)
Lemma compressing_registry_rewrites_manifest :
  imgManifest plainImage
  = OK (manifestText MediaTypeImageManifest [layer], MediaTypeImageManifest)
  /\ MediaTypeImageManifest
     ∈ SupportedManifestMIMETypes (registry compressingSettings) emptyRegistry
  /\ imgSignatures plainImage = OK []
  /\ DockerReference (registry compressingSettings) emptyRegistry = None
  /\ fst (copyOneImage (demoLib "linux")
            {| dest := registry compressingSettings; rawSource := source plainImage None |}
            admitAll Options_zero (unparsed plainImage) None None emptyWorld)
     = OK (manifestText MediaTypeImageManifest [compressedLayer], MediaTypeImageManifest)
  /\ putManifests
       (log (snd (copyOneImage (demoLib "linux")
                    {| dest := registry compressingSettings;
                       rawSource := source plainImage None |}
                    admitAll Options_zero (unparsed plainImage) None None emptyWorld)))
     = [(manifestText MediaTypeImageManifest [compressedLayer], None)]
  /\ manifestText MediaTypeImageManifest [compressedLayer]
     <> manifestText MediaTypeImageManifest [layer].
Proof.
  split; [reflexivity|]. split; [apply list_elem_of_here|]. split; [reflexivity|].
  split; [reflexivity|]. split; [vm_compute; reflexivity|].
  split; [vm_compute; reflexivity|]. compute_it.
Qed.

(** The same image goes to the registry that stores layers as they are: the
    manifest of the source is handed to [PutManifest], once. *)
Lemma copyOneImage_keeps_manifest_bytes_witness :
  fst (copyOneImage (demoLib "linux")
         {| dest := registry plainSettings; rawSource := source plainImage None |}
         admitAll Options_zero (unparsed plainImage) None None emptyWorld)
  = OK (manifestText MediaTypeImageManifest [layer], MediaTypeImageManifest)
  /\ exists i,
       putManifests
         (log (snd (copyOneImage (demoLib "linux")
                      {| dest := registry plainSettings;
                         rawSource := source plainImage None |}
                      admitAll Options_zero (unparsed plainImage) None None emptyWorld)))
       = [(manifestText MediaTypeImageManifest [layer], i)].
Proof.
  assert (Hin : MediaTypeImageManifest
                ∈ SupportedManifestMIMETypes (registry plainSettings)
                    (destState emptyWorld)) by apply list_elem_of_here.
  assert (Hkeeps : storesLayersAsTheyAre (demoLib "linux") (registry plainSettings)).
  { split; [compute_it|]. split; [reflexivity|]. by intros d info blobinfo d' [= <- _]. }
  destruct (copyOneImage_keeps_manifest_bytes (demoLib "linux")
              {| dest := registry plainSettings; rawSource := source plainImage None |}
              admitAll Options_zero (unparsed plainImage) None None plainImage
              (manifestText MediaTypeImageManifest [layer]) MediaTypeImageManifest
              emptyWorld _ _
              eq_refl eq_refl eq_refl Hin (or_intror eq_refl) eq_refl eq_refl eq_refl
              Hkeeps (surjective_pairing _))
    as (evs & Hlog & Hstored).
  assert (Hresult : fst (copyOneImage (demoLib "linux")
                           {| dest := registry plainSettings;
                              rawSource := source plainImage None |}
                           admitAll Options_zero (unparsed plainImage) None None emptyWorld)
                    = OK (manifestText MediaTypeImageManifest [layer],
                          MediaTypeImageManifest))
    by (vm_compute; reflexivity).
  split; [exact Hresult|].
  destruct (Hstored _ Hresult) as [_ [i Hputs]].
  exists i. rewrite Hlog. exact Hputs.
Defined.

Lemma Read_EOF_only_on_match_witness :
  DigestingReader.digesterDigest
    (DigestingReader.digester (snd (DigestingReader.Read matchedReader 8)))
  = "sha256:abc"
  /\ DigestingReader.validationFailed (snd (DigestingReader.Read matchedReader 8)) = false
  /\ fst (@DigestingReader.sourceRead shortReader [(bytes "abc", Some EOF)] 8)
     = (bytes "abc", Some EOF).
Proof.
  apply (@Read_EOF_only_on_match shortReader textDigester matchedReader 8 (bytes "abc")).
  vm_compute. reflexivity.
Defined.

Lemma Read_validationFailed_only_on_mismatch_witness :
  exists actual,
    actual <> "sha256:xyz"
    /\ fst (DigestingReader.Read mismatchedReader 8)
       = ([], Some (mismatchError "sha256:xyz" actual)).
Proof.
  apply (@Read_validationFailed_only_on_mismatch shortReader textDigester
           mismatchedReader 8); vm_compute; reflexivity.
Defined.

Lemma Read_short_hash_write_witness :
  fst (DigestingReader.Read shortWriteReader 8) = ([], None)
  /\ DigestingReader.validationFailed (snd (DigestingReader.Read shortWriteReader 8))
     = false.
Proof.
  apply (@Read_short_hash_write shortReader shortDigester shortWriteReader
           8 (bytes "abc") None [] 2%nat (bytes "abc")).
  - reflexivity.
  - discriminate.
  - reflexivity.
  - vm_compute. lia.
Defined.

(** Two bytes, then one more together with [io.EOF], against a digest that
    the three bytes do not have: the consumer gets the first two bytes and
    the mismatch error. *)
Lemma digestingReader_reads_whole_stream_witness :
  let d := @DigestingReader.Build_digestingReader shortReader textDigester
             [(bytes "ab", None); (bytes "c", Some EOF)] [] "sha256:xyz" false in
  Forall (fun read : list byte * option error => snd read = None) [(bytes "ab", None)]
  /\ fst (fst (Pipeline.readAll 5 4 d)) = bytes "ab"
  /\ snd (fst (Pipeline.readAll 5 4 d))
     = Some (mismatchError "sha256:xyz" (demoFromBytes "sha256" (bytes "abc")))
  /\ DigestingReader.validationFailed (snd (Pipeline.readAll 5 4 d)) = true
  /\ DigestingReader.source (snd (Pipeline.readAll 5 4 d)) = [].
Proof.
  assert (Hreads : Forall (fun read : list byte * option error => snd read = None)
                     [(bytes "ab", None)]) by (repeat constructor).
  destruct (digestingReader_reads_whole_stream (demoFromBytes "sha256")
              [(bytes "ab", None)] (bytes "c") EOF [] [] "sha256:xyz" 5 4 Hreads)
    as (Hgot & Hfailed & Hsource); [simpl; lia|].
  split; [exact Hreads|].
  split; [exact (f_equal fst Hgot)|].
  split; [exact (f_equal snd Hgot)|].
  split; [exact Hfailed | exact Hsource].
Defined.

(** The layer copied to the plain registry: its bytes have its digest. *)
Lemma copyBlobFromStream_verifies_digest_witness :
  FromBytes (demoLib "linux") (Algorithm (demoLib "linux") (Digest layer)) layerText
  = Digest layer.
Proof.
  apply (copyBlobFromStream_verifies_digest (R:=unit) (demoLib "linux")
           {| dest := registry plainSettings; rawSource := source plainImage None |}
           (bytesReader layerText) layer None false emptyWorld layer None
           (snd (copyBlobFromStream (R:=unit) (demoLib "linux")
                   {| dest := registry plainSettings;
                      rawSource := source plainImage None |}
                   (bytesReader layerText) layer None false emptyWorld))).
  - vm_compute. reflexivity.
  - reflexivity.
  - right. intros d stream info. simpl. by destruct (ending stream).
Defined.

(** A blob without a digest. *)
Lemma copyBlobFromStream_refuses_bad_digest_witness :
  copyBlobFromStream (R:=unit) (demoLib "linux")
    {| dest := registry plainSettings; rawSource := source plainImage None |}
    (bytesReader layerText) BlobInfo_zero None false emptyWorld
  = (Err (WithMessage (New "Invalid digest specification ")
            "Error preparing to verify blob "), emptyWorld).
Proof.
  apply (copyBlobFromStream_refuses_bad_digest (R:=unit) (demoLib "linux")
           {| dest := registry plainSettings; rawSource := source plainImage None |}
           (bytesReader layerText) BlobInfo_zero None false emptyWorld).
  intros [Hvalid _]. vm_compute in Hvalid. discriminate Hvalid.
Defined.

(** The layer of the plain image, copied when diffIDs are needed: the cache
    gets its entry. *)
Lemma copyLayer_writes_cache_only_when_needed_witness :
  cachedDiffIDs (snd (copyLayer (demoLib "linux")
                        (imageCopierOf plainSettings plainImage true true)
                        layer emptyWorld))
  = cachedDiffIDs emptyWorld
  \/ (diffIDsAreNeeded (imageCopierOf plainSettings plainImage true true) = true
      /\ mapGet (cachedDiffIDs emptyWorld) (Digest layer) = EmptyString
      /\ exists blobInfo diffID,
           fst (copyLayer (demoLib "linux")
                  (imageCopierOf plainSettings plainImage true true) layer emptyWorld)
           = OK (blobInfo, diffID)
           /\ cachedDiffIDs (snd (copyLayer (demoLib "linux")
                                    (imageCopierOf plainSettings plainImage true true)
                                    layer emptyWorld))
              = <[Digest layer := diffID]> (cachedDiffIDs emptyWorld)).
Proof.
  exact (copyLayer_writes_cache_only_when_needed (demoLib "linux")
           (imageCopierOf plainSettings plainImage true true) layer emptyWorld _ _
           (surjective_pairing _)).
Defined.

Lemma copyLayer_computes_diffID_witness :
  exists srcStream srcBlobSize dec,
    GetBlob (source plainImage None) layer = OK (srcStream, srcBlobSize)
    /\ DetectCompression (demoLib "linux")
         (digested (demoLib "linux") (Digest layer) srcStream) = OK dec
    /\ content (digested (demoLib "linux") (Digest layer) srcStream) = content srcStream
    /\ ending (digested (demoLib "linux") (Digest layer) srcStream) = None
    /\ computeDiffID (demoLib "linux")
         (digested (demoLib "linux") (Digest layer) srcStream) dec
       = OK (demoFromBytes "sha256" layerText)
    /\ mapGet (cachedDiffIDs
                 (snd (copyLayer (demoLib "linux")
                         (imageCopierOf plainSettings plainImage true true)
                         layer emptyWorld)))
         (Digest layer)
       = demoFromBytes "sha256" layerText.
Proof.
  apply (copyLayer_computes_diffID (demoLib "linux")
           (imageCopierOf plainSettings plainImage true true) layer emptyWorld layer).
  - reflexivity.
  - reflexivity.
  - vm_compute. reflexivity.
Defined.

(** The layers of the plain image at the plain registry. *)
Lemma copyLayers_one_info_per_layer_witness :
  exists ic' w',
    copyLayers (demoLib "linux") (imageCopierOf plainSettings plainImage false true)
      emptyWorld = (OK ic', w')
    /\ exists (destInfos : list BlobInfo) (diffIDs : list string),
         length destInfos = 1%nat
         /\ length diffIDs = 1%nat
         /\ InfoLayerInfos (InformationOnly (manifestUpdates ic')) = Some destInfos
         /\ InfoLayerDiffIDs (InformationOnly (manifestUpdates ic')) = None
         /\ (false = true ->
             true = true /\ LayerInfos (manifestUpdates ic') = Some destInfos).
Proof.
  destruct (copyLayers (demoLib "linux") (imageCopierOf plainSettings plainImage false true)
              emptyWorld) as [[ic'|e] w'] eqn:Hrun;
    [|vm_compute in Hrun; discriminate Hrun].
  exists ic', w'. split; [reflexivity|].
  exact (copyLayers_one_info_per_layer (demoLib "linux")
           (imageCopierOf plainSettings plainImage false true) emptyWorld ic' w' Hrun).
Defined.

Lemma copyLayers_keeps_digest_order_witness :
  exists ic' w',
    copyLayers (demoLib "linux") (imageCopierOf plainSettings plainImage false true)
      emptyWorld = (OK ic', w')
    /\ exists destInfos,
         InfoLayerInfos (InformationOnly (manifestUpdates ic')) = Some destInfos
         /\ map Digest destInfos = [Digest layer]
         /\ (false = false -> LayerInfos (manifestUpdates ic') = None).
Proof.
  destruct (copyLayers (demoLib "linux") (imageCopierOf plainSettings plainImage false true)
              emptyWorld) as [[ic'|e] w'] eqn:Hrun;
    [|vm_compute in Hrun; discriminate Hrun].
  exists ic', w'. split; [reflexivity|].
  assert (Hkeeps : storesLayersAsTheyAre (demoLib "linux") (registry plainSettings)).
  { split; [intros Hval; vm_compute in Hval; discriminate Hval|].
    split; [reflexivity|]. by intros d info blobinfo d' [= <- _]. }
  exact (copyLayers_keeps_digest_order (demoLib "linux")
           (imageCopierOf plainSettings plainImage false true) emptyWorld ic' w'
           Hkeeps Hrun).
Defined.

(** The manifest of the plain image, stored at the plain registry. *)
Lemma copyUpdatedConfigAndManifest_puts_last_witness :
  exists pre,
    Forall blobPhaseEvent pre
    /\ ((log (snd (copyUpdatedConfigAndManifest (demoLib "linux")
                     (imageCopierOf plainSettings plainImage false true) None emptyWorld))
         = log emptyWorld ++ pre
         /\ isOK (fst (copyUpdatedConfigAndManifest (demoLib "linux")
                         (imageCopierOf plainSettings plainImage false true) None
                         emptyWorld)) = false)
        \/ exists m i,
             log (snd (copyUpdatedConfigAndManifest (demoLib "linux")
                         (imageCopierOf plainSettings plainImage false true) None
                         emptyWorld))
             = log emptyWorld ++ pre ++ [EvPutManifest m i]
             /\ (fst (copyUpdatedConfigAndManifest (demoLib "linux")
                        (imageCopierOf plainSettings plainImage false true) None
                        emptyWorld) = OK m
                 \/ exists e,
                      fst (copyUpdatedConfigAndManifest (demoLib "linux")
                             (imageCopierOf plainSettings plainImage false true) None
                             emptyWorld)
                      = Err (WithMessage e "Error writing manifest"))
             /\ match i with None => True | Some _ => False end).
Proof.
  exact (copyUpdatedConfigAndManifest_puts_last (demoLib "linux")
           (imageCopierOf plainSettings plainImage false true) None emptyWorld _ _
           (surjective_pairing _)).
Defined.

(** The picky registry: three manifests are tried, the last one is stored. *)
Lemma commitManifest_puts_witness :
  exists evs,
    log (snd (commitManifest (demoLib "linux")
                (imageCopierOf pickySettings plainImage false true) None
                MediaTypeImageManifest
                [DockerV2Schema2MediaType; DockerV2Schema1SignedMediaType] emptyWorld))
    = log emptyWorld ++ evs
    /\ (length (putManifests evs) <= 3)%nat
    /\ forall m t,
         fst (commitManifest (demoLib "linux")
                (imageCopierOf pickySettings plainImage false true) None
                MediaTypeImageManifest
                [DockerV2Schema2MediaType; DockerV2Schema1SignedMediaType] emptyWorld)
         = OK (m, t) ->
         (t = MediaTypeImageManifest
          \/ t ∈ [DockerV2Schema2MediaType; DockerV2Schema1SignedMediaType])
         /\ exists i, last (putManifests evs) = Some (m, i).
Proof.
  exact (commitManifest_puts (demoLib "linux")
           (imageCopierOf pickySettings plainImage false true) None
           MediaTypeImageManifest
           [DockerV2Schema2MediaType; DockerV2Schema1SignedMediaType] emptyWorld _ _
           (surjective_pairing _)).
Defined.

(** The plain image, copied with a request for a signature by "alice". *)
Lemma copyOneImage_stores_signatures_last_witness :
  exists evs sigs',
    log (snd (copyOneImageLayersAndManifest (demoLib "linux")
                {| dest := registry plainSettings; rawSource := source plainImage None |}
                signingOptions None []
                (imageCopierOf plainSettings plainImage false true)
                MediaTypeImageManifest [] emptyWorld))
    = log emptyWorld ++ evs ++ [EvPrintf ("Storing signatures" +:+ nl);
                                EvPutSignatures sigs' None]
    /\ Forall beforeSignatures evs
    /\ (exists i, last (putManifests evs)
                  = Some (manifestText MediaTypeImageManifest [layer], i))
    /\ exists newSig,
         createSignature (demoLib "linux") (manifestText MediaTypeImageManifest [layer])
           "alice" = OK newSig
         /\ sigs' = [] ++ [newSig].
Proof.
  apply (copyOneImage_stores_signatures_last (demoLib "linux")
           {| dest := registry plainSettings; rawSource := source plainImage None |}
           signingOptions None [] (imageCopierOf plainSettings plainImage false true)
           MediaTypeImageManifest [] emptyWorld
           (manifestText MediaTypeImageManifest [layer]) MediaTypeImageManifest).
  vm_compute. reflexivity.
Defined.

(** A policy that says no without an error: nothing is copied, and no error
    is returned. *)
Lemma copyOneImage_policy_refusal_witness :
  copyOneImage (demoLib "linux")
    {| dest := registry plainSettings; rawSource := source plainImage None |}
    refuseQuietly Options_zero (unparsed plainImage) None None emptyWorld
  = (OK ([], EmptyString), emptyWorld).
Proof.
  apply (copyOneImage_policy_refusal (demoLib "linux")
           {| dest := registry plainSettings; rawSource := source plainImage None |}
           refuseQuietly Options_zero (unparsed plainImage) None None emptyWorld
           false None).
  - reflexivity.
  - reflexivity.
  - by left.
Defined.

(** An image for Windows at a registry that checks the OS, on a Linux host. *)
Lemma copyOneImage_stops_before_copying_witness :
  stoppedEarly admitAll
    (unparsed (image MediaTypeImageManifest [layer] [] "windows")) emptyWorld
    (fst (copyOneImage (demoLib "linux")
            {| dest := registry matchingSettings;
               rawSource := source (image MediaTypeImageManifest [layer] [] "windows")
                              None |}
            admitAll Options_zero
            (unparsed (image MediaTypeImageManifest [layer] [] "windows"))
            None None emptyWorld))
    (snd (copyOneImage (demoLib "linux")
            {| dest := registry matchingSettings;
               rawSource := source (image MediaTypeImageManifest [layer] [] "windows")
                              None |}
            admitAll Options_zero
            (unparsed (image MediaTypeImageManifest [layer] [] "windows"))
            None None emptyWorld)).
Proof.
  apply (copyOneImage_stops_before_copying (demoLib "linux")
           {| dest := registry matchingSettings;
              rawSource := source (image MediaTypeImageManifest [layer] [] "windows")
                             None |}
           admitAll Options_zero
           (unparsed (image MediaTypeImageManifest [layer] [] "windows")) None None
           (image MediaTypeImageManifest [layer] [] "windows") [] emptyWorld).
  - reflexivity.
  - left. intros Hnone. vm_compute in Hnone. discriminate Hnone.
  - apply surjective_pairing.
Defined.

(** The reference of the registry replaces the one embedded in the image. *)
Lemma updateEmbeddedDockerReference_frame_witness :
  exists ic',
    updateEmbeddedDockerReference (imageCopierOf namedSettings foreignNameImage false true)
      emptyWorld = (OK ic', emptyWorld)
    /\ sameImage (imageCopierOf namedSettings foreignNameImage false true) ic'
    /\ EmbeddedDockerReference (manifestUpdates ic') = Some "registry.example/demo:latest".
Proof.
  destruct (updateEmbeddedDockerReference
              (imageCopierOf namedSettings foreignNameImage false true) emptyWorld)
    as [[ic'|e] w'] eqn:Hrun; [|vm_compute in Hrun; discriminate Hrun].
  destruct (updateEmbeddedDockerReference_frame _ _ _ _ Hrun)
    as (-> & _ & Hsame & _ & _ & _ & _ & Hreference).
  exists ic'. split; [reflexivity|]. split; [exact Hsame|].
  exact Hreference.
Defined.

(** The plain image copied to the plain registry, for no instance. *)
Lemma copyOneImage_acts_for_its_instance_witness :
  exists evs,
    log (snd (copyOneImage (demoLib "linux")
                {| dest := registry plainSettings; rawSource := source plainImage None |}
                admitAll Options_zero (unparsed plainImage) None None emptyWorld))
    = log emptyWorld ++ evs
    /\ Forall (eventFor None) evs.
Proof.
  exact (copyOneImage_acts_for_its_instance (demoLib "linux")
           {| dest := registry plainSettings; rawSource := source plainImage None |}
           admitAll Options_zero (unparsed plainImage) None None emptyWorld _ _
           (surjective_pairing _)).
Defined.

(** The instances of the index, copied to a registry that takes indexes. *)
Lemma copyInstances_updates_witness :
  exists updates w',
    copyInstances (demoLib "linux")
      {| dest := registry indexSettings; rawSource := indexSource |}
      admitAll unsignedOptions demoInstances emptyWorld = (OK updates, w')
    /\ length updates = length demoInstances
    /\ exists evs, log w' = log emptyWorld ++ evs /\ Forall instanceEvent evs.
Proof.
  destruct (copyInstances (demoLib "linux")
              {| dest := registry indexSettings; rawSource := indexSource |}
              admitAll unsignedOptions demoInstances emptyWorld)
    as [[updates|e] w'] eqn:Hrun; [|vm_compute in Hrun; discriminate Hrun].
  destruct (copyInstances_updates (demoLib "linux") _ _ _ _ _ _ _ Hrun)
    as (Hlength & _ & Hevents).
  exists updates, w'. split; [reflexivity|].
  split; [exact Hlength|exact Hevents].
Defined.

(** The whole index: its manifest is stored after those of the instances. *)
Lemma copyMultipleImages_stores_list_last_witness :
  exists evs stored sigs',
    log (snd (copyMultipleImages (demoLib "linux")
                {| dest := registry indexSettings; rawSource := indexSource |}
                admitAll unsignedOptions (instances indexSource None) emptyWorld))
    = log emptyWorld ++ evs ++ [EvPutManifest stored None;
                                EvPrintf ("Storing list signatures" +:+ nl);
                                EvPutSignatures sigs' None]
    /\ Forall instanceEvent evs.
Proof.
  destruct (copyMultipleImages_stores_list_last (demoLib "linux")
              {| dest := registry indexSettings; rawSource := indexSource |}
              admitAll unsignedOptions (instances indexSource None) emptyWorld
              (snd (copyMultipleImages (demoLib "linux")
                      {| dest := registry indexSettings; rawSource := indexSource |}
                      admitAll unsignedOptions (instances indexSource None) emptyWorld)))
    as (evs & listBytes & listType & sigs & stored & sigs' & _ & Hlog & Hevs & _).
  - vm_compute. reflexivity.
  - exists evs, stored, sigs'. split; [exact Hlog|exact Hevs].
Defined.

(** The plain image, copied and committed. *)
Lemma copyAndCommit_commits_last_witness :
  exists evs,
    Forall copyEvent evs
    /\ fst (copyAndCommit (demoLib "linux")
              {| dest := registry plainSettings; rawSource := source plainImage None |}
              admitAll Options_zero emptyWorld) = OK tt
    /\ log (snd (copyAndCommit (demoLib "linux")
                   {| dest := registry plainSettings;
                      rawSource := source plainImage None |}
                   admitAll Options_zero emptyWorld))
       = log emptyWorld ++ evs ++ [EvCommit].
Proof.
  destruct (copyAndCommit_commits_last (demoLib "linux")
              {| dest := registry plainSettings; rawSource := source plainImage None |}
              admitAll Options_zero emptyWorld)
    as [Hrun (evs & Hlog & Hevs)].
  exists evs. split; [exact Hevs|]. rewrite Hrun.
  destruct (copyImages (demoLib "linux")
              {| dest := registry plainSettings; rawSource := source plainImage None |}
              admitAll Options_zero emptyWorld)
    as [[[]|e] w1] eqn:Hcopied; [|vm_compute in Hcopied; discriminate Hcopied].
  cbn [fst snd] in Hlog |- *. split.
  - vm_compute in Hcopied. injection Hcopied as <-. vm_compute. reflexivity.
  - rewrite Hlog. by rewrite <- app_assoc.
Defined.

Lemma Image_closes_what_it_opened_witness :
  exists retErr w evs,
    Image (demoLib "linux") admitAll (destinationReference failingCloseSettings)
      (sourceReference plainImage None) None = (retErr, Some w)
    /\ log w = evs ++ [EvCloseSource; EvCloseDestination]
    /\ Forall notClose evs.
Proof.
  destruct (Image_closes_what_it_opened (demoLib "linux") admitAll
              (destinationReference failingCloseSettings)
              (sourceReference plainImage None) None emptyRegistry)
    as (retErr & w & Hrun & evs & Hlog & Hevs).
  - by right.
  - reflexivity.
  - exists retErr, w, evs. split; [exact Hrun|]. split; [exact Hlog|exact Hevs].
Defined.

(** A signed image that would have to be converted, and a source whose
    [Close] fails as well: the error of the copy stays the cause. *)
Lemma Image_keeps_primary_error_witness :
  exists e',
    fst (Image (demoLib "linux") admitAll (destinationReference schema2Settings)
           (sourceReference signedImage (Some (New "closing the source failed"))) None)
    = Some e'
    /\ Cause e'
       = New "Internal error: copy needs an updated manifest but that was known to be forbidden".
Proof.
  destruct (Image_keeps_primary_error (demoLib "linux") admitAll
              (destinationReference schema2Settings)
              (sourceReference signedImage (Some (New "closing the source failed")))
              None emptyRegistry
              (source signedImage (Some (New "closing the source failed")))
              (New "Internal error: copy needs an updated manifest but that was known to be forbidden")
              (snd (copyAndCommit (demoLib "linux")
                      {| dest := registry schema2Settings;
                         rawSource := source signedImage
                                        (Some (New "closing the source failed")) |}
                      admitAll Options_zero emptyWorld)))
    as (e' & Hret & Hcause & _).
  - by right.
  - reflexivity.
  - reflexivity.
  - vm_compute. reflexivity.
  - exists e'. split; [exact Hret|exact Hcause].
Defined.

End Runs.
